(** * Slide-deck inconsistency analyzer: a shallow embedding of [main.py]

    The development follows the layout of the source file: text helpers
    of the Python runtime that the program relies on, the JSON-shaped
    values that travel between the analysis service, the cache and the
    renderers, the external collaborators (OCR, document parser, analysis
    service, JSON codec, text wrapper, digest, operating system), and
    then the program's own functions in source order.  Theorems come
    last. *)

From Stdlib Require Import ZArith NArith Ascii String List Lia DecimalString.
From stdpp Require Import base option list strings gmap.

Local Open Scope string_scope.

(** ** Text

    A Python [str] is a sequence of Unicode characters.  It is held here
    as a [string] of the bytes of its UTF-8 encoding, and the operations
    that Python defines character by character ([len], iteration,
    [strip], [repr]) go through [chars], which cuts the bytes into
    characters.  Substring search and replacement work on the bytes,
    which on UTF-8 text finds the same occurrences.  A str that holds a
    lone surrogate has no UTF-8 encoding and is outside the model. *)

Module Text.

(** A byte of the form [10xxxxxx] continues the character begun before
    it. *)
Definition is_continuation (b : ascii) : bool :=
  let n := nat_of_ascii b in (128 <=? n)%nat && (n <? 192)%nat.

Definition continues (c : string) : bool :=
  match c with
  | String b _ => is_continuation b
  | EmptyString => false
  end.

(** The characters of a str, each as the bytes that encode it: a byte
    that is not a continuation byte, with the continuation bytes that
    follow it. *)
Fixpoint chars (s : string) : list string :=
  match s with
  | EmptyString => []
  | String b s' =>
      match chars s' with
      | c :: rest =>
          if continues c then String b c :: rest
          else String b EmptyString :: c :: rest
      | [] => [String b EmptyString]
      end
  end.

(** [len(s)] *)
Definition len (s : string) : nat := length (chars s).

(** [ord(c)] for a str of one character: the code point that its bytes
    encode. *)
Definition ord (c : string) : N :=
  let low (b : ascii) : N := N.land (N_of_ascii b) 63 in
  match c with
  | EmptyString => 0
  | String b0 EmptyString => N_of_ascii b0
  | String b0 (String b1 EmptyString) =>
      N.land (N_of_ascii b0) 31 * 64 + low b1
  | String b0 (String b1 (String b2 EmptyString)) =>
      N.land (N_of_ascii b0) 15 * 4096 + low b1 * 64 + low b2
  | String b0 (String b1 (String b2 (String b3 _))) =>
      N.land (N_of_ascii b0) 7 * 262144 + low b1 * 4096 + low b2 * 64 + low b3
  end%N.

(** [c.isspace()] for one character, which is the class that
    [str.strip] removes: the ASCII controls 9 to 13 and 28 to 31, the
    space, and the Unicode spaces and line separators U+0085, U+00A0,
    U+1680, U+2000 to U+200A, U+2028, U+2029, U+202F, U+205F and
    U+3000. *)
Definition is_space (c : string) : bool :=
  let n := ord c in
  (((9 <=? n) && (n <=? 13)) || ((28 <=? n) && (n <=? 32))
   || (n =? 133) || (n =? 160) || (n =? 5760)
   || ((8192 <=? n) && (n <=? 8202))
   || (n =? 8232) || (n =? 8233) || (n =? 8239) || (n =? 8287) || (n =? 12288))%N.

Fixpoint drop_while {A} (p : A -> bool) (l : list A) : list A :=
  match l with
  | [] => []
  | x :: l' => if p x then drop_while p l' else l
  end.

(** The characters put together again. *)
Fixpoint concat (l : list string) : string :=
  match l with
  | [] => EmptyString
  | c :: l' => c +:+ concat l'
  end.

(** [s.strip()]: the whitespace characters at both ends are dropped. *)
Definition strip (s : string) : string :=
  concat (rev (drop_while is_space (rev (drop_while is_space (chars s))))).

(** Python truthiness of a [str]: non-empty. *)
Definition truthy (s : string) : bool :=
  match s with EmptyString => false | _ => true end.

(** [sep.join(l)] *)
Fixpoint join (sep : string) (l : list string) : string :=
  match l with
  | [] => EmptyString
  | [x] => x
  | x :: rest => x +:+ sep +:+ join sep rest
  end.

(** [c * n] for a one-character (or longer) string [c]. *)
Fixpoint repeat_str (c : string) (n : nat) : string :=
  match n with
  | O => EmptyString
  | S n' => c +:+ repeat_str c n'
  end.

Fixpoint is_prefix (p s : string) : bool :=
  match p, s with
  | EmptyString, _ => true
  | String a p', String b s' => if Ascii.eqb a b then is_prefix p' s' else false
  | String _ _, EmptyString => false
  end.

(** [sub in s] for strings: substring search. *)
Fixpoint contains (sub s : string) : bool :=
  is_prefix sub s ||
  match s with
  | EmptyString => false
  | String _ s' => contains sub s'
  end.

(** [s.replace(old, new)] for a non-empty [old]: leftmost,
    non-overlapping occurrences.  [skip] counts the bytes of a matched
    occurrence that are still to be dropped. *)
Fixpoint replace_from (old new : string) (skip : nat) (s : string) : string :=
  match s with
  | EmptyString => EmptyString
  | String c s' =>
      match skip with
      | S k => replace_from old new k s'
      | O =>
          if is_prefix old s
          then new +:+ replace_from old new (String.length old - 1) s'
          else String c (replace_from old new 0 s')
      end
  end.

Definition replace (old new s : string) : string := replace_from old new 0 s.

(** [str(n)] for a non-negative integer. *)
Definition of_nat (n : nat) : string := NilZero.string_of_uint (Nat.to_uint n).

(** [str(z)] for an integer. *)
Definition of_Z (z : Z) : string := NilZero.string_of_int (Z.to_int z).

(** [s.center(width, fill)]: CPython puts the extra padding character on
    the left when both the margin and the width are odd. *)
Definition center (s : string) (width : nat) (fill : string) : string :=
  let len := len s in
  if (width <=? len)%nat then s
  else
    let marg := width - len in
    let left := marg / 2 + (if Nat.odd marg && Nat.odd width then 1 else 0) in
    repeat_str fill left +:+ s +:+ repeat_str fill (marg - left).

(** [os.path.basename] on POSIX: what follows the last slash. *)
Fixpoint basename (p : string) : string :=
  match p with
  | EmptyString => EmptyString
  | String c p' =>
      if contains "/" p then basename p' else p
  end.

End Text.


(** ** Results and exceptions

    A Python call either returns or raises.  [exception] stands for the
    instances of Python's [Exception] class, which is what every
    [except Exception] clause of the program catches; [SystemExit], raised
    by [sys.exit], is not one of them and passes through those clauses. *)

Inductive result (E A : Type) : Type :=
  | Ok (a : A)
  | Err (e : E).
Arguments Ok {E A} a.
Arguments Err {E A} e.

Inductive exc_class : Type :=
  | FileNotFoundError
  | FileExistsError
  | JSONDecodeError
  | AttributeError
  | TypeError
  | IndexError
  | KeyError
  | OtherError.

Record exception : Type := Exc { exc_kind : exc_class; exc_msg : string }.

Inductive exn : Type :=
  | Raised (e : exception)
  | SystemExit (code : Z).

Definition is_FileNotFoundError (e : exception) : bool :=
  match exc_kind e with FileNotFoundError => true | _ => false end.

Definition is_JSONDecodeError (e : exception) : bool :=
  match exc_kind e with JSONDecodeError => true | _ => false end.

Definition rbind {E A B} (r : result E A) (f : A -> result E B) : result E B :=
  match r with
  | Ok a => f a
  | Err e => Err e
  end.

Definition is_ok {E A} (r : result E A) : bool :=
  match r with Ok _ => true | Err _ => false end.

(** ** JSON-shaped Python values

    What [json.loads] produces and the renderers consume: [None], [bool],
    [int], [str], [list] and [dict] with string keys in insertion order.
    Floating-point numbers are left out of the model. *)

#[local] Set Warnings "-register-all".

Inductive value : Type :=
  | JNull
  | JBool (b : bool)
  | JNum (z : Z)
  | JStr (s : string)
  | JArr (items : list value)
  | JObj (fields : list (string * value)).

(** ** The document, as the parsing library presents it *)

Inductive MSO_SHAPE_TYPE : Type :=
  | AUTO_SHAPE
  | PICTURE
  | PLACEHOLDER
  | TEXT_BOX
  | OTHER_SHAPE.

Definition is_PICTURE (t : MSO_SHAPE_TYPE) : bool :=
  match t with PICTURE => true | _ => false end.

Record Shape : Type := {
  has_text_frame : bool;
  text : string;
  shape_type : MSO_SHAPE_TYPE;
  image_blob : string
}.

Record Slide : Type := {
  shapes : list Shape;
  has_notes_slide : bool;
  notes_text : string
}.

(** ** External collaborators

    Everything the program imports and calls but does not define: the
    image decoder and the OCR engine, the document parser, the analysis
    service, the JSON codec, the text wrapper and the digest.  Their
    failures are Python exceptions.

    Two more pieces of the environment are taken the same way.
    [isprintable] is the table of the Unicode character database that
    [repr] consults for a character outside ASCII.  [makedirs_error] and
    [open_error] are the operating system's side of a write: the error
    it raises, if any, when the program makes the directory of that
    path, or opens the file of that path for writing (a directory that
    is missing or may not be written, a path that names a directory, a
    name that is too long). *)

Class Platform : Type := {
  image : Type;
  Image_open : string -> result exception image;
  image_to_string : image -> result exception string;
  Presentation : string -> result exception (list Slide);
  genai_configure : string -> result exception unit;
  GenerativeModel : string -> result exception unit;
  generate_content : string -> result exception string;
  json_loads : string -> result exception value;
  json_dumps : value -> string;
  textwrap_wrap : string -> nat -> list string;
  md5_hexdigest : string -> string;
  isprintable : string -> bool;
  makedirs_error : string -> option exception;
  open_error : string -> option exception
}.

Module Py.

Definition type_name (v : value) : string :=
  match v with
  | JNull => "NoneType"
  | JBool _ => "bool"
  | JNum _ => "int"
  | JStr _ => "str"
  | JArr _ => "list"
  | JObj _ => "dict"
  end.

(** [bool(v)] *)
Definition truthy (v : value) : bool :=
  match v with
  | JNull => false
  | JBool b => b
  | JNum z => negb (z =? 0)%Z
  | JStr s => Text.truthy s
  | JArr l => match l with [] => false | _ => true end
  | JObj l => match l with [] => false | _ => true end
  end.

Fixpoint lookup_field (k : string) (fields : list (string * value)) : option value :=
  match fields with
  | [] => None
  | (k', v) :: rest => if String.eqb k k' then Some v else lookup_field k rest
  end.

(** [v is None] *)
Definition is_None (v : value) : bool :=
  match v with JNull => true | _ => false end.

Definition str_eq (k : string) (v : value) : bool :=
  match v with JStr s => String.eqb k s | _ => false end.

(** [k in v] for a string [k]: key membership on a dict, element
    membership on a list, substring test on a str, [TypeError] on the
    rest. *)
Definition contains (k : string) (v : value) : result exception bool :=
  match v with
  | JObj fields => Ok (bool_decide (is_Some (lookup_field k fields)))
  | JArr items => Ok (existsb (str_eq k) items)
  | JStr s => Ok (Text.contains k s)
  | _ => Err (Exc TypeError
            ("argument of type '" +:+ type_name v +:+ "' is not iterable"))
  end.

(** [v[k]] for a string [k]. *)
Definition getitem (v : value) (k : string) : result exception value :=
  match v with
  | JObj fields =>
      match lookup_field k fields with
      | Some x => Ok x
      | None => Err (Exc KeyError k)
      end
  | JArr _ => Err (Exc TypeError "list indices must be integers or slices, not str")
  | JStr _ => Err (Exc TypeError "string indices must be integers")
  | _ => Err (Exc TypeError ("'" +:+ type_name v +:+ "' object is not subscriptable"))
  end.

(** [v.get(k, default)]: only a dict has the method. *)
Definition get (v : value) (k : string) (default : value) : result exception value :=
  match v with
  | JObj fields =>
      match lookup_field k fields with
      | Some x => Ok x
      | None => Ok default
      end
  | _ => Err (Exc AttributeError
            ("'" +:+ type_name v +:+ "' object has no attribute 'get'"))
  end.

(** [len(v)] *)
Definition len (v : value) : result exception nat :=
  match v with
  | JStr s => Ok (Text.len s)
  | JArr l => Ok (length l)
  | JObj l => Ok (length l)
  | _ => Err (Exc TypeError
            ("object of type '" +:+ type_name v +:+ "' has no len()"))
  end.

(** The sequence a [for] loop (or [enumerate]) walks: the elements of a
    list, the characters of a str, the keys of a dict. *)
Definition iter (v : value) : result exception (list value) :=
  match v with
  | JArr l => Ok l
  | JStr s => Ok (map JStr (Text.chars s))
  | JObj l => Ok (map (fun kv => JStr (fst kv)) l)
  | _ => Err (Exc TypeError ("'" +:+ type_name v +:+ "' object is not iterable"))
  end.

Definition hex_digit (n : N) : string :=
  String (ascii_of_N (if (n <? 10)%N then 48 + n else 87 + n)) EmptyString.

(** [n] in hexadecimal on [digits] digits. *)
Fixpoint hex (digits : nat) (n : N) : string :=
  match digits with
  | O => EmptyString
  | S d => hex d (n / 16) +:+ hex_digit (n mod 16)
  end.

Definition squote : string := "'".
Definition dquote : string := String (ascii_of_nat 34) EmptyString.

Section Repr.
Context {P : Platform}.

(** What [repr] writes for one character of a str between [quote]s. *)
Definition repr_char (quote : string) (c : string) : string :=
  let n := Text.ord c in
  if String.eqb c quote then "\" +:+ c
  else if (n =? 92)%N then "\\"
  else if (n =? 9)%N then "\t"
  else if (n =? 10)%N then "\n"
  else if (n =? 13)%N then "\r"
  else if (n <? 32)%N || (n =? 127)%N then "\x" +:+ hex 2 n
  else if (n <? 127)%N then c
  else if isprintable c then c
  else if (n <? 256)%N then "\x" +:+ hex 2 n
  else if (n <? 65536)%N then "\u" +:+ hex 4 n
  else "\U" +:+ hex 8 n.

Definition repr_chars (quote : string) (s : string) : string :=
  Text.concat (map (repr_char quote) (Text.chars s)).

(** [repr(s)] for a str: double quotes only when the text holds a single
    quote and no double quote. *)
Definition repr_str (s : string) : string :=
  if Text.contains squote s && negb (Text.contains dquote s)
  then dquote +:+ repr_chars dquote s +:+ dquote
  else squote +:+ repr_chars squote s +:+ squote.

Fixpoint repr (v : value) : string :=
  match v with
  | JNull => "None"
  | JBool true => "True"
  | JBool false => "False"
  | JNum z => Text.of_Z z
  | JStr s => repr_str s
  | JArr l => "[" +:+ Text.join ", " (map repr l) +:+ "]"
  | JObj l =>
      "{" +:+ Text.join ", "
                (map (fun kv => let '(k, x) := kv in repr_str k +:+ ": " +:+ repr x) l)
          +:+ "}"
  end.

(** [str(v)], which is what an f-string placeholder inserts. *)
Definition str (v : value) : string :=
  match v with
  | JStr s => s
  | _ => repr v
  end.

End Repr.

End Py.

(** ** The observable world

    The program reads and writes files and talks to the terminal and to
    the analysis service.  The world is the store of the regular files,
    by path, together with the trace of what the run did, in order:
    every [print], every request to the service, every [json.dump] into
    a file and every text written to the report file.  Directories are
    not in the store: whether a directory can be made and a file opened
    for writing is the platform's word, except that a regular file of
    the store that has the name of the directory to make is in the way.
    The progress bars of [tqdm] are cosmetic and left out. *)

Inductive event : Type :=
  | EvPrint (text : string)
  | EvRequest (prompt : string)
  | EvDump (path : string) (data : value)
  | EvWrite (path : string) (text : string).

Record world : Type := World {
  files : gmap string string;
  trace : list event
}.

Definition M (A : Type) : Type := world -> world * result exn A.

#[global] Instance M_ret : MRet M := fun A a w => (w, Ok a).

#[global] Instance M_bind : MBind M := fun A B f m w =>
  match m w with
  | (w', Ok a) => f a w'
  | (w', Err e) => (w', Err e)
  end.

Definition raise {A} (e : exn) : M A := fun w => (w, Err e).

(** A library call that returns or raises an [Exception]. *)
Definition lift {A} (r : result exception A) : M A :=
  fun w => (w, match r with Ok a => Ok a | Err e => Err (Raised e) end).

Definition emit (e : event) : M unit :=
  fun w => (World (files w) (trace w ++ [e]), Ok tt).

Definition print (text : string) : M unit := emit (EvPrint text).

(** [sys.exit(code)] *)
Definition sys_exit {A} (code : Z) : M A := raise (SystemExit code).

(** [try: body / except Exception as e: handler e].  Effects of the body
    up to the raise are kept; [SystemExit] is not caught. *)
Definition try_except {A} (body : M A) (handler : exception -> M A) : M A :=
  fun w =>
    match body w with
    | (w', Err (Raised e)) => handler e w'
    | r => r
    end.

(** [for i, x in enumerate(l): body i x], counting from [i]. *)
Fixpoint for_enumerate {A} (i : nat) (l : list A) (body : nat -> A -> M unit) : M unit :=
  match l with
  | [] => mret tt
  | x :: rest => body i x ;; for_enumerate (S i) rest body
  end.

Definition for_each {A} (l : list A) (body : A -> M unit) : M unit :=
  for_enumerate 0 l (fun _ => body).

(** [os.path.exists(path)] *)
Definition os_path_exists (path : string) : M bool :=
  fun w => (w, Ok (bool_decide (is_Some (files w !! path)))).

Definition store (path content : string) : M unit :=
  fun w => (World (<[path := content]> (files w)) (trace w), Ok tt).

Section OperatingSystem.
Context {P : Platform}.

(** [open(path).read()] *)
Definition read_file (path : string) : M string :=
  fun w =>
    match files w !! path with
    | Some content => (w, Ok content)
    | None =>
        (w, Err (Raised (Exc FileNotFoundError
                   ("[Errno 2] No such file or directory: " +:+ Py.repr_str path))))
    end.

(** [os.makedirs(path, exist_ok=True)]: a regular file of that name is
    in the way, whatever [exist_ok] says; any other refusal is the
    platform's.  A directory holds no content of its own, so making one
    leaves the store as it is. *)
Definition os_makedirs (path : string) : M unit :=
  fun w =>
    match files w !! path with
    | Some _ =>
        (w, Err (Raised (Exc FileExistsError
                   ("[Errno 17] File exists: " +:+ Py.repr_str path))))
    | None =>
        match makedirs_error path with
        | Some e => (w, Err (Raised e))
        | None => (w, Ok tt)
        end
    end.

(** [open(path, 'w')]: the empty path names no file; otherwise the
    platform may refuse, and if it does not the file is created or
    truncated. *)
Definition open_for_writing (path : string) : M unit :=
  fun w =>
    match path with
    | EmptyString =>
        (w, Err (Raised (Exc FileNotFoundError
                   ("[Errno 2] No such file or directory: " +:+ Py.repr_str path))))
    | _ =>
        match open_error path with
        | Some e => (w, Err (Raised e))
        | None => (World (<[path := EmptyString]> (files w)) (trace w), Ok tt)
        end
    end.

End OperatingSystem.

(** [os.path.join(a, b)] on POSIX. *)
Definition os_path_join (a b : string) : string :=
  if Text.is_prefix "/" b then b
  else if String.eqb a EmptyString then b
  else if String.eqb (Text.basename a) EmptyString then a +:+ b
  else a +:+ "/" +:+ b.

(** ** The program *)

Definition CACHE_DIR : string := ".cache".
Definition BOX_WIDTH : nat := 90.

Definition nl : string := String (ascii_of_nat 10) EmptyString.
Definition dq : string := Py.dquote.

(** Terminal colour codes of [colorama] and the box-drawing characters. *)

Definition ESC : string := String (ascii_of_nat 27) EmptyString.

Module Fore.
Definition RED : string := ESC +:+ "[31m".
Definition GREEN : string := ESC +:+ "[32m".
Definition YELLOW : string := ESC +:+ "[33m".
Definition CYAN : string := ESC +:+ "[36m".
Definition WHITE : string := ESC +:+ "[37m".
End Fore.

Module Style.
Definition BRIGHT : string := ESC +:+ "[1m".
Definition NORMAL : string := ESC +:+ "[22m".
Definition RESET_ALL : string := ESC +:+ "[0m".
End Style.

(** The UTF-8 encoding of a code point of three bytes. *)
Definition utf8 (a b c : nat) : string :=
  String (ascii_of_nat a) (String (ascii_of_nat b) (String (ascii_of_nat c) EmptyString)).

Definition T_LEFT : string := utf8 226 149 148.
Definition T_RIGHT : string := utf8 226 149 151.
Definition B_LEFT : string := utf8 226 149 154.
Definition B_RIGHT : string := utf8 226 149 157.
Definition H_LINE : string := utf8 226 149 144.
Definition V_LINE : string := utf8 226 149 145.
Definition CHECK_MARK : string := utf8 226 156 133.

Section Program.
Context {P : Platform}.

(** *** Configuration and caching *)

Definition get_file_hash (file_path : string) : M string :=
  buf ← read_file file_path;
  mret (md5_hexdigest buf).

Definition read_from_cache (cache_path : string) : M value :=
  content ← read_file cache_path;
  lift (json_loads content).

Definition write_to_cache (cache_path : string) (data : value) : M unit :=
  os_makedirs CACHE_DIR ;;
  open_for_writing cache_path ;;
  emit (EvDump cache_path data) ;;
  store cache_path (json_dumps data).

(** *** Core extraction logic *)

Definition ocr_image (image_bytes : string) : string :=
  match rbind (Image_open image_bytes) image_to_string with
  | Ok text => text
  | Err _ => EmptyString
  end.

(** The body of the loop over [slide.shapes]: what one shape appends to
    [texts]. *)
Definition shape_segments (shape : Shape) : list string :=
  (if has_text_frame shape && Text.truthy (Text.strip (text shape))
   then [text shape] else [])
  ++
  (if is_PICTURE (shape_type shape)
   then
     let ocr_text := ocr_image (image_blob shape) in
     if Text.truthy (Text.strip ocr_text)
     then ["[Text from Image]:" +:+ nl +:+ ocr_text]
     else []
   else []).

Definition slide_texts (slide : Slide) : list string :=
  flat_map shape_segments (shapes slide)
  ++
  (if has_notes_slide slide && Text.truthy (Text.strip (notes_text slide))
   then ["[Speaker Notes]:" +:+ nl +:+ notes_text slide]
   else []).

(** [d[k] = v] on an insertion-ordered dict. *)
Fixpoint dict_set {V} (k : nat) (v : V) (d : list (nat * V)) : list (nat * V) :=
  match d with
  | [] => [(k, v)]
  | (k', v') :: rest =>
      if Nat.eqb k k' then (k, v) :: rest else (k', v') :: dict_set k v rest
  end.

(** The loop over [enumerate(prs.slides)], from index [i]. *)
Fixpoint extract_slides (i : nat) (slides : list Slide)
    (slide_content : list (nat * string)) : list (nat * string) :=
  match slides with
  | [] => slide_content
  | slide :: rest =>
      let slide_number := i + 1 in
      let texts := slide_texts slide in
      extract_slides (S i) rest
        (dict_set slide_number (Text.join (nl +:+ "---" +:+ nl) texts) slide_content)
  end.

Definition extract_content_from_pptx (file_path : string) : M (list (nat * string)) :=
  found ← os_path_exists file_path;
  (if negb found
   then print ("Error: The file '" +:+ file_path +:+ "' was not found.") ;; sys_exit 1
   else mret tt) ;;
  bytes ← read_file file_path;
  prs ← lift (Presentation bytes);
  print "Extracting content from presentation..." ;;
  mret (extract_slides 0 prs []).

(** *** AI analysis *)

Definition ANALYSIS_PROMPT : string :=
  Text.join nl
    [
     EmptyString;
     "    You are an expert business analyst and proofreader. Your task is to perform a deep analysis of the following PowerPoint presentation content.";
     "    **Primary Objective:** Find all factual, numerical, and logical inconsistencies across the slides.";
     "    **Secondary Objective:** If text is extracted from an image of a chart or table, try to interpret its structure and data. For example, if you see numbers in a table, verify if their sum matches any stated totals. Report any mathematical errors.";
     "    **CRITICAL: You must format your entire response as a JSON object.** The root object should be a single key " +:+ dq +:+ "issues" +:+ dq +:+ " which contains a list of issue objects. Each issue object must have the following keys: " +:+ dq +:+ "type" +:+ dq +:+ ", " +:+ dq +:+ "conflict" +:+ dq +:+ ", and " +:+ dq +:+ "evidence" +:+ dq +:+ " (which is a list of strings).";
     "    Example of a valid JSON response format:";
     "    {";
     "      " +:+ dq +:+ "issues" +:+ dq +:+ ": [";
     "        {";
     "          " +:+ dq +:+ "type" +:+ dq +:+ ": " +:+ dq +:+ "Numerical Inconsistency" +:+ dq +:+ ",";
     "          " +:+ dq +:+ "conflict" +:+ dq +:+ ": " +:+ dq +:+ "The total revenue stated on one slide does not match the sum of regional revenues on another." +:+ dq +:+ ",";
     "          " +:+ dq +:+ "evidence" +:+ dq +:+ ": [";
     "            " +:+ dq +:+ "Slide 3 states: 'Total FY2024 Revenue: $10.2 Million'." +:+ dq +:+ ",";
     "            " +:+ dq +:+ "Slide 8 chart shows regional revenues summing to $9.8 Million." +:+ dq +:+ EmptyString;
     "          ]";
     "        }";
     "      ]";
     "    }";
     "    If you find no issues at all, return an empty list: {" +:+ dq +:+ "issues" +:+ dq +:+ ": []}";
     "    Here is the presentation content:";
     "    "
    ].

Definition error_result (message : string) : value :=
  JObj [("error", JStr message)].

(** One [--- Slide n ---] block per entry of the dict, in insertion
    order. *)
Definition full_text_prompt (content_dict : list (nat * string)) : string :=
  Text.join nl
    (map (fun item => "--- Slide " +:+ Text.of_nat (fst item) +:+ " ---" +:+ nl +:+ snd item)
         content_dict).

Definition request (prompt : string) : M string :=
  emit (EvRequest prompt) ;;
  lift (generate_content prompt).

Definition analyze_with_gemini (content_dict : list (nat * string)) (api_key : string)
    : M value :=
  print (nl +:+ "Connecting to Google AI for analysis...") ;;
  configured ←
    try_except
      (lift (genai_configure api_key) ;;
       lift (GenerativeModel "gemini-1.5-flash-latest") ;;
       mret None)
      (fun e => mret (Some (error_result ("Failed to configure Gemini API: " +:+ exc_msg e))));
  match configured with
  | Some failure => mret failure
  | None =>
      let prompt := ANALYSIS_PROMPT in
      let full_text_prompt := full_text_prompt content_dict in
      try_except
        (response_text ← request (prompt +:+ full_text_prompt);
         let cleaned_text :=
           Text.replace "```" EmptyString
             (Text.replace "```json" EmptyString (Text.strip response_text)) in
         lift (json_loads cleaned_text))
        (fun e =>
           if is_JSONDecodeError e
           then mret (error_result
                  "Failed to decode JSON from AI response. The model may have returned an invalid format.")
           else mret (error_result
                  ("An error occurred during the Gemini API call: " +:+ exc_msg e)))
  end.

(** *** Colorful, boxed reporting *)

(** [textwrap.wrap(v, width=width)]: the wrapper calls [expandtabs] on
    its argument, which only a str has. *)
Definition wrap (v : value) (width : nat) : result exception (list string) :=
  match v with
  | JStr s => Ok (textwrap_wrap s width)
  | _ => Err (Exc AttributeError
            ("'" +:+ Py.type_name v +:+ "' object has no attribute 'expandtabs'"))
  end.

(** [lines[0]] *)
Definition first_line (lines : list string) : result exception string :=
  match lines with
  | l :: _ => Ok l
  | [] => Err (Exc IndexError "list index out of range")
  end.

Definition report_evidence (ev : value) : M unit :=
  wrapped_evidence ← lift (wrap ev (BOX_WIDTH - 4));
  first ← lift (first_line wrapped_evidence);
  print ("  " +:+ Fore.WHITE +:+ "- " +:+ first) ;;
  for_each (tail wrapped_evidence) (fun line => print ("    " +:+ line)).

Definition report_issue (i : nat) (issue : value) : M unit :=
  issue_type ← lift (Py.get issue "type" (JStr "N/A"));
  conflict ← lift (Py.get issue "conflict" (JStr "N/A"));
  evidence ← lift (Py.get issue "evidence" (JArr []));
  let header := " ISSUE #" +:+ Text.of_nat (i + 1) +:+ " " in
  print (Fore.WHITE +:+ Style.BRIGHT +:+ Text.center header BOX_WIDTH "-") ;;
  let type_line :=
    Fore.YELLOW +:+ Style.BRIGHT +:+ "TYPE:" +:+ Style.RESET_ALL +:+ " " +:+ Py.str issue_type in
  print type_line ;;
  let conflict_header := Fore.RED +:+ Style.BRIGHT +:+ "CONFLICT:" +:+ Style.RESET_ALL +:+ " " in
  wrapped_conflict ← lift (wrap conflict (BOX_WIDTH - String.length "CONFLICT: " - 1));
  first ← lift (first_line wrapped_conflict);
  print (conflict_header +:+ first) ;;
  for_each (tail wrapped_conflict)
    (fun line => print (Text.repeat_str " " (String.length "CONFLICT: " + 1) +:+ line)) ;;
  print (Fore.CYAN +:+ Style.BRIGHT +:+ "EVIDENCE:" +:+ Style.RESET_ALL) ;;
  evidence_items ← lift (Py.iter evidence);
  for_each evidence_items report_evidence ;;
  print EmptyString.

Definition generate_report (analysis_data : value) : M unit :=
  is_error ← lift (Py.contains "error" analysis_data);
  if is_error : bool
  then
    message ← lift (Py.getitem analysis_data "error");
    print (Fore.RED +:+ "An error occurred:" +:+ nl +:+ Py.str message)
  else
    issues ← lift (Py.get analysis_data "issues" (JArr []));
    print (nl +:+ Fore.CYAN +:+ T_LEFT +:+ Text.repeat_str H_LINE (BOX_WIDTH - 2) +:+ T_RIGHT) ;;
    let title := " AI Inconsistency Analysis Report " in
    print (Fore.CYAN +:+ V_LINE +:+ Style.BRIGHT +:+ Text.center title (BOX_WIDTH - 2) " "
             +:+ Style.NORMAL +:+ V_LINE) ;;
    (if Py.truthy issues
     then
       n ← lift (Py.len issues);
       let subtitle := "Found " +:+ Text.of_nat n +:+ " potential issue(s) to review." in
       print (Fore.CYAN +:+ V_LINE +:+ Fore.YELLOW +:+ Text.center subtitle (BOX_WIDTH - 2) " "
                +:+ Fore.CYAN +:+ V_LINE)
     else mret tt) ;;
    print (Fore.CYAN +:+ B_LEFT +:+ Text.repeat_str H_LINE (BOX_WIDTH - 2) +:+ B_RIGHT +:+ nl) ;;
    if negb (Py.truthy issues)
    then
      print (Fore.GREEN +:+ CHECK_MARK
               +:+ " No inconsistencies were found in the presentation." +:+ nl)
    else
      items ← lift (Py.iter issues);
      for_enumerate 0 items report_issue ;;
      print (Fore.CYAN +:+ Text.repeat_str "=" BOX_WIDTH).

(** *** Plain-text report

    The plain renderer prints nothing: it returns the report or raises. *)

(** [l.append(x)] *)
Definition append {A} (l : list A) (x : A) : list A := (l ++ [x])%list.

Definition plain_issue (i : nat) (issue : value) (report_lines : list string)
    : result exception (list string) :=
  let report_lines :=
    append report_lines (nl +:+ "--- ISSUE #" +:+ Text.of_nat (i + 1) +:+ " ---" +:+ nl) in
  rbind (Py.get issue "type" (JStr "N/A")) (fun issue_type =>
  let report_lines := append report_lines ("TYPE: " +:+ Py.str issue_type) in
  rbind (Py.get issue "conflict" (JStr "N/A")) (fun conflict =>
  let report_lines := append report_lines ("CONFLICT: " +:+ Py.str conflict) in
  let report_lines := append report_lines "EVIDENCE:" in
  rbind (Py.get issue "evidence" (JArr [])) (fun evidence =>
  rbind (Py.iter evidence) (fun evidence_items =>
  Ok (fold_left (fun lines ev => append lines ("  - " +:+ Py.str ev))
        evidence_items report_lines))))).

Fixpoint plain_issues (i : nat) (issues : list value) (report_lines : list string)
    : result exception (list string) :=
  match issues with
  | [] => Ok report_lines
  | issue :: rest =>
      rbind (plain_issue i issue report_lines) (plain_issues (S i) rest)
  end.

Definition generate_plain_text_report (analysis_data : value) : result exception string :=
  rbind (Py.contains "error" analysis_data) (fun is_error =>
  if is_error : bool
  then
    rbind (Py.getitem analysis_data "error") (fun message =>
    Ok ("An error occurred:" +:+ nl +:+ Py.str message))
  else
    rbind (Py.get analysis_data "issues" (JArr [])) (fun issues =>
    if negb (Py.truthy issues)
    then Ok (CHECK_MARK +:+ " No inconsistencies were found in the presentation.")
    else
      rbind (Py.len issues) (fun n =>
      let report_lines :=
        ["AI Inconsistency Analysis Report: Found " +:+ Text.of_nat n +:+ " Issues"
           +:+ nl +:+ Text.repeat_str "=" 80] in
      rbind (Py.iter issues) (fun items =>
      rbind (plain_issues 0 items report_lines) (fun report_lines =>
      Ok (Text.join nl report_lines)))))).

(** *** Main execution *)

Record Args : Type := {
  args_file : option string;
  args_output : option string;
  args_no_cache : bool
}.

Record Config : Type := {
  default_file : option string;
  api_key : option string;
  caching : option bool
}.

(** [a or b] on optional strings: [a] when it is a non-empty string. *)
Definition or_else (a b : option string) : option string :=
  match a with
  | Some s => if Text.truthy s then a else b
  | None => b
  end.

(** Truthiness of an optional string: [None] and the empty string are
    false. *)
Definition given (a : option string) : bool :=
  match a with
  | Some s => Text.truthy s
  | None => false
  end.

(** The two [except] clauses of the cache lookup.  [locals] are the
    values [analysis_result] and [cache_path] have when the exception is
    raised. *)
Definition cache_lookup_failed (file_path : string) (locals : value * string)
    (e : exception) : M (value * string) :=
  if is_FileNotFoundError e
  then print ("Error: The file '" +:+ file_path +:+ "' was not found.") ;; sys_exit 1
  else
    print ("Could not read cache, proceeding with analysis. Error: " +:+ exc_msg e) ;;
    mret locals.

(** The [if use_caching:] block.  It returns [analysis_result] and
    [cache_path] as the block leaves them.  The source has one [try]
    around the whole block; [cache_path] is assigned between the two
    calls that can raise, so the handler is attached to each of them with
    the locals of that point.  The handler only prints and exits, hence
    nothing it does is caught a second time. *)
Definition cache_lookup (file_path : string) : M (value * string) :=
  let analysis_result := JNull in
  let cache_path := EmptyString in
  try_except
    (file_hash ← get_file_hash file_path;
     let cache_path :=
       os_path_join CACHE_DIR (Text.basename file_path +:+ "_" +:+ file_hash +:+ ".json") in
     found ← os_path_exists cache_path;
     if found : bool
     then
       print ("Loading results from cache: " +:+ cache_path) ;;
       try_except
         (cached ← read_from_cache cache_path;
          mret (cached, cache_path))
         (cache_lookup_failed file_path (analysis_result, cache_path))
     else mret (analysis_result, cache_path))
    (cache_lookup_failed file_path (analysis_result, cache_path)).

(** The [if analysis_result is None:] block.  [None] stands for the
    [return] statements that end [main] without a report. *)
Definition analyze_file (file_path api_key : string) (use_caching : bool)
    (cache_path : string) : M (option value) :=
  try_except
    (content ← extract_content_from_pptx file_path;
     match content with
     | [] =>
         print "Could not extract any content from the presentation." ;;
         mret None
     | _ =>
         analysis_result ← analyze_with_gemini content api_key;
         no_error ← (if use_caching
                     then
                       is_error ← lift (Py.contains "error" analysis_result);
                       mret (negb is_error)
                     else mret false);
         (if no_error : bool
          then
            write_to_cache cache_path analysis_result ;;
            print ("Analysis complete. Results saved to cache: " +:+ cache_path)
          else mret tt) ;;
         mret (Some analysis_result)
     end)
    (fun e =>
       print ("An unexpected error occurred during analysis: " +:+ exc_msg e) ;;
       mret None).

(** The last block of [main]: the plain report goes to the output file
    when one is given, the decorated report to the terminal otherwise. *)
Definition deliver (output : option string) (analysis_result : value) : M unit :=
  match output with
  | Some path =>
      if Text.truthy path
      then
        plain_report ← lift (generate_plain_text_report analysis_result);
        open_for_writing path ;;
        emit (EvWrite path plain_report) ;;
        store path plain_report ;;
        print (nl +:+ "Report successfully saved to " +:+ path)
      else generate_report analysis_result
  | None => generate_report analysis_result
  end.

Definition main (args : Args) (config : Config) : M unit :=
  let file_path := or_else (args_file args) (default_file config) in
  if negb (given file_path)
  then
    print "Error: No presentation file specified. Provide one with --file or in config.ini." ;;
    sys_exit 1
  else
    let file_path := default EmptyString file_path in
    let use_caching := negb (args_no_cache args) && default true (caching config) in
    let api_key := api_key config in
    if negb (given api_key) || bool_decide (api_key = Some "YOUR_API_KEY_HERE")
    then
      print "Error: API key not found in config.ini. Please add it." ;;
      sys_exit 1
    else
      let api_key := default EmptyString api_key in
      '(analysis_result, cache_path) ←
        (if use_caching
         then cache_lookup file_path
         else mret (JNull, EmptyString));
      analyzed ←
        (if Py.is_None analysis_result
         then analyze_file file_path api_key use_caching cache_path
         else mret (Some analysis_result));
      match analyzed with
      | None => mret tt
      | Some analysis_result => deliver (args_output args) analysis_result
      end.

End Program.

(** ** A small concrete platform

    Stand-ins for the external collaborators, used to run the program on
    concrete inputs: a toy deck format, an image decoder that accepts
    blobs starting with [PNG], a JSON printer and parser, a greedy text
    wrapper, a checksum in place of the digest, a corner of the Unicode
    table, an operating system that refuses the writes it is told to
    refuse, and a scripted analysis service. *)

Module Demo.

Fixpoint split_on (sep : ascii) (s : string) : list string :=
  match s with
  | EmptyString => [EmptyString]
  | String c s' =>
      if Ascii.eqb c sep then EmptyString :: split_on sep s'
      else match split_on sep s' with
           | [] => [String c EmptyString]
           | x :: rest => String c x :: rest
           end
  end.

Fixpoint drop_chars (n : nat) (s : string) : string :=
  match n, s with
  | S n', String _ s' => drop_chars n' s'
  | _, _ => s
  end.

(** Deck format: shapes are separated by [|], slides by [;].  A shape
    starting with [!] is a picture whose blob follows, one starting with
    [#] is a picture that also carries a text frame holding [label], and
    anything else is a text box. *)
Definition shape_of (s : string) : Shape :=
  if Text.is_prefix "!" s
  then {| has_text_frame := false; text := EmptyString;
          shape_type := PICTURE; image_blob := drop_chars 1 s |}
  else if Text.is_prefix "#" s
  then {| has_text_frame := true; text := "label";
          shape_type := PICTURE; image_blob := drop_chars 1 s |}
  else {| has_text_frame := true; text := s;
          shape_type := TEXT_BOX; image_blob := EmptyString |}.

Definition slide_of (s : string) : Slide :=
  {| shapes := map shape_of (split_on "|" s);
     has_notes_slide := false;
     notes_text := EmptyString |}.

Definition parse_deck (bytes : string) : result exception (list Slide) :=
  if String.eqb bytes "corrupt"
  then Err (Exc OtherError "Package not found")
  else if String.eqb bytes EmptyString then Ok []
  else Ok (map slide_of (split_on ";" bytes)).

Definition decode (blob : string) : result exception string :=
  if Text.is_prefix "PNG" blob then Ok (drop_chars 3 blob)
  else Err (Exc OtherError "cannot identify image file").

(** *** JSON printer *)

Definition escape_char (c : ascii) : string :=
  let n := nat_of_ascii c in
  if (n =? 34)%nat then "\" +:+ dq
  else if (n =? 92)%nat then "\\"
  else if (n =? 10)%nat then "\n"
  else if (n =? 9)%nat then "\t"
  else if (n =? 13)%nat then "\r"
  else String c EmptyString.

Fixpoint escape (s : string) : string :=
  match s with
  | EmptyString => EmptyString
  | String c s' => escape_char c +:+ escape s'
  end.

Definition dumps_str (s : string) : string := dq +:+ escape s +:+ dq.

Fixpoint dumps (v : value) : string :=
  match v with
  | JNull => "null"
  | JBool true => "true"
  | JBool false => "false"
  | JNum z => Text.of_Z z
  | JStr s => dumps_str s
  | JArr l => "[" +:+ Text.join ", " (map dumps l) +:+ "]"
  | JObj l =>
      "{" +:+ Text.join ", "
                (map (fun kv => let '(k, x) := kv in dumps_str k +:+ ": " +:+ dumps x) l)
          +:+ "}"
  end.

(** *** JSON parser: recursive descent, [fuel] bounds the nesting *)

(** The blanks of the parser and of the wrapper: tab, line feed,
    vertical tab, form feed, carriage return and space. *)
Definition is_blank (c : ascii) : bool :=
  let n := nat_of_ascii c in
  ((9 <=? n)%nat && (n <=? 13)%nat) || (n =? 32)%nat.

Fixpoint skip_ws (s : string) : string :=
  match s with
  | String c s' => if is_blank c then skip_ws s' else s
  | EmptyString => s
  end.

(** The text of a string literal after its opening quote. *)
Fixpoint parse_chars (s : string) : option (string * string) :=
  match s with
  | EmptyString => None
  | String c s' =>
      let n := nat_of_ascii c in
      if (n =? 34)%nat then Some (EmptyString, s')
      else if (n =? 92)%nat then
        match s' with
        | String e s'' =>
            let m := nat_of_ascii e in
            let decoded :=
              if (m =? 110)%nat then Some (ascii_of_nat 10)
              else if (m =? 116)%nat then Some (ascii_of_nat 9)
              else if (m =? 114)%nat then Some (ascii_of_nat 13)
              else if (m =? 34)%nat || (m =? 92)%nat || (m =? 47)%nat then Some e
              else None in
            match decoded, parse_chars s'' with
            | Some d, Some (body, rest) => Some (String d body, rest)
            | _, _ => None
            end
        | EmptyString => None
        end
      else
        match parse_chars s' with
        | Some (body, rest) => Some (String c body, rest)
        | None => None
        end
  end.

Definition is_digit (c : ascii) : bool :=
  let n := nat_of_ascii c in (48 <=? n)%nat && (n <=? 57)%nat.

Fixpoint parse_digits (acc : Z) (s : string) : Z * string :=
  match s with
  | String c s' =>
      if is_digit c
      then parse_digits (10 * acc + Z.of_nat (nat_of_ascii c - 48))%Z s'
      else (acc, s)
  | EmptyString => (acc, s)
  end.

Definition parse_number (s : string) : option (value * string) :=
  match s with
  | String "-" (String c s') =>
      if is_digit c
      then let '(z, rest) := parse_digits 0 (String c s') in Some (JNum (- z), rest)
      else None
  | String c _ =>
      if is_digit c
      then let '(z, rest) := parse_digits 0 s in Some (JNum z, rest)
      else None
  | EmptyString => None
  end.

Definition expect (p s : string) : option string :=
  if Text.is_prefix p s then Some (drop_chars (String.length p) s) else None.

Fixpoint parse_value (fuel : nat) (s : string) : option (value * string) :=
  match fuel with
  | O => None
  | S fuel' =>
      let s := skip_ws s in
      let parse_items :=
        fix items (n : nat) (s : string) : option (list value * string) :=
          match n with
          | O => None
          | S n' =>
              match parse_value fuel' s with
              | Some (v, rest) =>
                  let rest := skip_ws rest in
                  if Text.is_prefix "," rest
                  then match items n' (drop_chars 1 rest) with
                       | Some (vs, rest') => Some (v :: vs, rest')
                       | None => None
                       end
                  else match expect "]" rest with
                       | Some rest' => Some ([v], rest')
                       | None => None
                       end
              | None => None
              end
          end in
      let parse_fields :=
        fix fields (n : nat) (s : string) : option (list (string * value) * string) :=
          match n with
          | O => None
          | S n' =>
              match expect dq (skip_ws s) with
              | Some body =>
                  match parse_chars body with
                  | Some (k, rest) =>
                      match expect ":" (skip_ws rest) with
                      | Some rest =>
                          match parse_value fuel' rest with
                          | Some (v, rest) =>
                              let rest := skip_ws rest in
                              if Text.is_prefix "," rest
                              then match fields n' (drop_chars 1 rest) with
                                   | Some (kvs, rest') => Some ((k, v) :: kvs, rest')
                                   | None => None
                                   end
                              else match expect "}" rest with
                                   | Some rest' => Some ([(k, v)], rest')
                                   | None => None
                                   end
                          | None => None
                          end
                      | None => None
                      end
                  | None => None
                  end
              | None => None
              end
          end in
      if Text.is_prefix "null" s then Some (JNull, drop_chars 4 s)
      else if Text.is_prefix "true" s then Some (JBool true, drop_chars 4 s)
      else if Text.is_prefix "false" s then Some (JBool false, drop_chars 5 s)
      else if Text.is_prefix dq s then
        match parse_chars (drop_chars 1 s) with
        | Some (body, rest) => Some (JStr body, rest)
        | None => None
        end
      else if Text.is_prefix "[" s then
        let inner := skip_ws (drop_chars 1 s) in
        if Text.is_prefix "]" inner then Some (JArr [], drop_chars 1 inner)
        else match parse_items (String.length s) inner with
             | Some (vs, rest) => Some (JArr vs, rest)
             | None => None
             end
      else if Text.is_prefix "{" s then
        let inner := skip_ws (drop_chars 1 s) in
        if Text.is_prefix "}" inner then Some (JObj [], drop_chars 1 inner)
        else match parse_fields (String.length s) inner with
             | Some (kvs, rest) => Some (JObj kvs, rest)
             | None => None
             end
      else parse_number s
  end.

Definition loads (s : string) : result exception value :=
  match parse_value (String.length s + 1) s with
  | Some (v, rest) =>
      match skip_ws rest with
      | EmptyString => Ok v
      | _ => Err (Exc JSONDecodeError "Extra data")
      end
  | None => Err (Exc JSONDecodeError "Expecting value")
  end.

(** *** Greedy text wrapper *)

Fixpoint words_from (cur : string) (s : string) : list string :=
  match s with
  | EmptyString => match cur with EmptyString => [] | _ => [cur] end
  | String c s' =>
      if is_blank c
      then match cur with
           | EmptyString => words_from EmptyString s'
           | _ => cur :: words_from EmptyString s'
           end
      else words_from (cur +:+ String c EmptyString) s'
  end.

Fixpoint fill (width : nat) (line : string) (ws : list string) : list string :=
  match ws with
  | [] => [line]
  | w :: rest =>
      if (String.length line + 1 + String.length w <=? width)%nat
      then fill width (line +:+ " " +:+ w) rest
      else line :: fill width w rest
  end.

Definition wrap_text (s : string) (width : nat) : list string :=
  match words_from EmptyString s with
  | [] => []
  | w :: rest => fill width w rest
  end.

(** *** Checksum standing in for the digest *)

Fixpoint checksum (acc : N) (s : string) : N :=
  match s with
  | EmptyString => acc
  | String c s' => checksum ((acc * 31 + N_of_ascii c) mod 4294967296)%N s'
  end.

Definition digest (bytes : string) : string :=
  NilZero.string_of_uint (N.to_uint (checksum 7 bytes)).

(** *** A corner of the Unicode table

    Not printable: the whitespace characters other than the space, the
    controls U+0080 to U+009F and the soft hyphen. *)
Definition printable (c : string) : bool :=
  let n := Text.ord c in
  negb (Text.is_space c || ((128 <=? n) && (n <=? 159)) || (n =? 173))%N.

(** *** An operating system that refuses some paths *)

(** Nothing is refused. *)
Definition permissive (path : string) : option exception := None.


(** The platform, for a given behaviour of the operating system on
    writes and of the analysis service. *)
Definition platform_on (refusal : string -> option exception)
    (service : string -> result exception string) : Platform := {|
  image := string;
  Image_open := decode;
  image_to_string := fun img => Ok img;
  Presentation := parse_deck;
  genai_configure := fun key =>
    if String.eqb key "bad-key" then Err (Exc OtherError "API key not valid") else Ok tt;
  GenerativeModel := fun _ => Ok tt;
  generate_content := service;
  json_loads := loads;
  json_dumps := dumps;
  textwrap_wrap := wrap_text;
  md5_hexdigest := digest;
  isprintable := printable;
  makedirs_error := fun _ => None;
  open_error := refusal
|}.

Definition platform (service : string -> result exception string) : Platform :=
  platform_on permissive service.

Definition fence : string := "```".

(** A service that answers with one fenced issue list, whatever the
    prompt. *)
Definition one_issue (prompt : string) : result exception string :=
  Ok (fence +:+ "json" +:+ nl +:+
      dumps (JObj [("issues",
               JArr [JObj [("type", JStr "Numerical Inconsistency");
                           ("conflict", JStr "Mismatch between totals");
                           ("evidence", JArr [JStr "Slide 1: $10M"; JStr "Slide 2: $9.8M"])]])])
      +:+ nl +:+ fence).

Definition unreachable (prompt : string) : result exception string :=
  Err (Exc OtherError "503 service unavailable").

Definition garbled (prompt : string) : result exception string :=
  Ok "Sorry, I cannot help with that.".

End Demo.

(** * Vocabulary of the properties

    The notions the statements below are phrased in.  Proofs start
    after the last definition. *)

Local Open Scope list_scope.

(** ** What a computation does to the world

    [effects Q F w w']: going from [w] to [w'] only appends events to
    the trace, each satisfying [Q], and every file either keeps its
    content or ends with a content allowed by [F] for its path.
    [acts Q F m]: that is all [m] ever does. *)

Definition effects (Q : event -> Prop) (F : string -> string -> Prop)
    (w w' : world) : Prop :=
  (exists new, trace w' = trace w ++ new /\ Forall Q new) /\
  (forall path,
     files w' !! path = files w !! path \/
     exists content, files w' !! path = Some content /\ F path content).

Definition acts {A} (Q : event -> Prop) (F : string -> string -> Prop) (m : M A) : Prop :=
  forall w, effects Q F w (m w).1.

Definition any_file (path content : string) : Prop := True.

Definition is_print (e : event) : Prop :=
  match e with EvPrint _ => True | _ => False end.

Definition not_request (e : event) : Prop :=
  match e with EvRequest _ => False | _ => True end.


(** The prompts of the requests recorded in a trace. *)
Definition requests (t : list event) : list string :=
  omap (fun e => match e with EvRequest prompt => Some prompt | _ => None end) t.

(** The lines a trace records as printed. *)
Definition prints (t : list event) : list string :=
  omap (fun e => match e with EvPrint line => Some line | _ => None end) t.

(** The results that the trace records as dumped into cache files. *)
Definition cached_results (t : list event) : list value :=
  omap (fun e => match e with EvDump _ data => Some data | _ => None end) t.

(** The error variant of an analysis result: an object with the key
    [error]. *)
Definition is_error_variant (v : value) : bool :=
  match v with
  | JObj fields => bool_decide (is_Some (Py.lookup_field "error" fields))
  | _ => false
  end.

(** [use_caching] as [main] computes it. *)
Definition caching_enabled (args : Args) (config : Config) : bool :=
  negb (args_no_cache args) && default true (caching config).

(** What a run may do: whenever it dumps a result into a cache file,
    caching is enabled and the test for [error] on the result is
    false. *)
Definition cache_write_allowed (enabled : bool) (e : event) : Prop :=
  match e with
  | EvDump _ data => enabled = true /\ Py.contains "error" data = Ok false
  | _ => True
  end.

(** The issues of a result and the three fields of an issue, read the
    way the renderers read them. *)
Definition issue_list (v : value) : list value :=
  match Py.get v "issues" (JArr []) with
  | Ok (JArr items) => items
  | _ => []
  end.

Definition issue_fields (issue : value) :=
  (Py.get issue "type" (JStr "N/A"),
   Py.get issue "conflict" (JStr "N/A"),
   Py.get issue "evidence" (JArr [])).

(** Equality of two results as the specification defines it for the
    round trip: the same number of issues, and issue by issue the same
    type, conflict and evidence. *)
Definition same_analysis (a b : value) : Prop :=
  length (issue_list a) = length (issue_list b) /\
  Forall2 (fun x y => issue_fields x = issue_fields y) (issue_list a) (issue_list b).

(** The response text after the code-fence artifacts are stripped. *)
Definition cleaned (response_text : string) : string :=
  Text.replace "```" EmptyString
    (Text.replace "```json" EmptyString (Text.strip response_text)).

Definition decode_failure : value :=
  error_result
    "Failed to decode JSON from AI response. The model may have returned an invalid format.".

Definition call_failure (e : exception) : value :=
  if is_JSONDecodeError e then decode_failure
  else error_result ("An error occurred during the Gemini API call: " +:+ exc_msg e).

Definition iterable (v : value) : bool :=
  match v with
  | JArr _ | JStr _ | JObj _ => true
  | _ => false
  end.

(** The inputs on which the plain renderer returns: an object that is
    the error variant, or whose [issues] are missing or falsy, or whose
    [issues] are a list of objects with an [evidence] that can be
    iterated.  Nothing is asked of [type], of [conflict] or of the
    evidence entries. *)
Definition plain_issue_ok (issue : value) : bool :=
  match issue with
  | JObj fields => iterable (default (JArr []) (Py.lookup_field "evidence" fields))
  | _ => false
  end.


(** [d.get(k)] on an insertion-ordered dict: [None] when the key is
    absent. *)
Fixpoint dict_get {V} (k : nat) (d : list (nat * V)) : option V :=
  match d with
  | [] => None
  | (k', v) :: rest => if Nat.eqb k k' then Some v else dict_get k rest
  end.

Section Vocabulary.
Context {P : Platform}.

(** The entry the loop computes for one slide. *)
Definition slide_entry (slide : Slide) : string :=
  Text.join (nl +:+ "---" +:+ nl) (slide_texts slide).

(** Slide numbers paired with entries, counting from [i + 1]. *)
Fixpoint entries_from (i : nat) (slides : list Slide) : list (nat * string) :=
  match slides with
  | [] => []
  | slide :: rest => (i + 1, slide_entry slide) :: entries_from (S i) rest
  end.

(** A slide without content, in the words of the claim: no text frame
    with non-whitespace text, no picture whose OCR text is
    non-whitespace, no non-whitespace notes. *)
Definition blank_shape (shape : Shape) : Prop :=
  (has_text_frame shape = true -> Text.strip (text shape) = EmptyString) /\
  (shape_type shape = PICTURE -> Text.strip (ocr_image (image_blob shape)) = EmptyString).

Definition blank_slide (slide : Slide) : Prop :=
  Forall blank_shape (shapes slide) /\
  (has_notes_slide slide = true -> Text.strip (notes_text slide) = EmptyString).

(** The cache key of a file: its base name and the digest of its bytes,
    folded into a path under the cache directory. *)
Definition cache_key (file_path bytes : string) : string :=
  os_path_join CACHE_DIR
    (Text.basename file_path +:+ "_" +:+ md5_hexdigest bytes +:+ ".json").

(** What a run may leave in a file it changes: the report, in the file
    named by [--output], or the dump of a result on which the test for
    [error] is false, and that only with caching enabled. *)
Definition cache_or_report (args : Args) (config : Config) (path content : string) : Prop :=
  args_output args = Some path \/
  (caching_enabled args config = true /\
   exists data, Py.contains "error" data = Ok false /\ content = json_dumps data).



End Vocabulary.

(** ** Concrete scenarios on the small platform *)

Module Scenario.

(** The letter e with an acute accent, U+00E9, and the no-break space,
    U+00A0, in UTF-8. *)
Definition e_acute : string :=
  String (ascii_of_nat 195) (String (ascii_of_nat 169) EmptyString).

Definition nbsp : string :=
  String (ascii_of_nat 194) (String (ascii_of_nat 160) EmptyString).

Definition args_terminal : Args :=
  {| args_file := Some "deck.pptx"; args_output := None; args_no_cache := false |}.

Definition args_to_file : Args :=
  {| args_file := Some "deck.pptx"; args_output := Some "report.txt"; args_no_cache := false |}.

Definition config : Config :=
  {| default_file := None; api_key := Some "secret"; caching := None |}.

(** Two slides of text. *)
Definition revenue_deck : world :=
  World {[ "deck.pptx" := "Revenue: $10M;Regional total: $9.8M" ]} [].

(** Three slides: a title, a slide holding only a space and a no-break
    space, and a slide holding only a picture that the decoder
    rejects. *)
Definition sparse_deck : world :=
  World {[ "deck.pptx" := "Title; " +:+ nbsp +:+ ";!JPGbroken" ]} [].

(** Three slides; the second holds a picture that the decoder rejects,
    between two text boxes. *)
Definition mixed_deck : world :=
  World {[ "deck.pptx" := "Intro;Before|!JPGbroken|After;Outro" ]} [].

(** One slide, nothing readable on it. *)
Definition blank_deck : world :=
  World {[ "deck.pptx" := " " ]} [].

(** A deck without slides. *)
Definition empty_deck : world :=
  World {[ "deck.pptx" := EmptyString ]} [].

(** A picture that also exposes a text frame, with a blob the decoder
    rejects. *)
Definition captioned_picture : Shape := Demo.shape_of "#JPGbroken".

(** The same, with a blob that decodes to the text [Q3 chart]. *)
Definition captioned_chart : Shape := Demo.shape_of "#PNGQ3 chart".

Definition one_issue_result : value :=
  JObj [("issues",
     JArr [JObj [("type", JStr "Numerical Inconsistency");
                 ("conflict", JStr "Mismatch between totals");
                 ("evidence", JArr [JStr "Slide 1: $10M"; JStr "Slide 2: $9.8M"])]])].

End Scenario.

(** ** Vocabulary of the settled claims *)

(** An object, as opposed to the other JSON values. *)
Definition is_object (v : value) : bool :=
  match v with JObj _ => true | _ => false end.

(** A successful AnalysisResult in the words of the specification: an
    object that carries [issues], a sequence of issue objects, and no
    [error]. *)
Definition successful_result (v : value) : bool :=
  match v with
  | JObj fields =>
      negb (bool_decide (is_Some (Py.lookup_field "error" fields))) &&
      match Py.lookup_field "issues" fields with
      | Some (JArr items) => forallb is_object items
      | _ => false
      end
  | _ => false
  end.

(** The test that guards the cache write: ['error' not in result]. *)
Definition passes_error_test (v : value) : Prop := Py.contains "error" v = Ok false.

(** The message of the guard on an empty corpus. *)
Definition NO_CONTENT : string := "Could not extract any content from the presentation.".

(** An event of the reporting end of a run: no request, and not the
    message of the guard on an empty corpus. *)
Definition past_analysis (e : event) : Prop :=
  not_request e /\ e <> EvPrint NO_CONTENT.


(** ** Vocabulary of the further properties *)

(** The file [main] settles on: the command-line one when it is a
    non-empty string, the configured default otherwise. *)
Definition chosen_file (args : Args) (config : Config) : option string :=
  or_else (args_file args) (default_file config).

(** A run that gets past the two configuration guards of [main]: a file
    is named and the API key is neither missing nor the placeholder. *)
Definition ready (args : Args) (config : Config) (file_path key : string) : Prop :=
  chosen_file args config = Some file_path /\
  file_path <> EmptyString /\
  api_key config = Some key /\
  key <> EmptyString /\
  key <> "YOUR_API_KEY_HERE".

(** The events of reporting: lines on the terminal and text written to
    the report file. *)
Definition report_event (e : event) : Prop :=
  match e with
  | EvPrint _ | EvWrite _ _ => True
  | _ => False
  end.

(** A text with at least one character that is not whitespace. *)
Definition has_ink (s : string) : bool :=
  existsb (fun c => negb (Text.is_space c)) (Text.chars s).

Definition is_picture_shape (shape : Shape) : bool := is_PICTURE (shape_type shape).

(** The code fence that the analysis client strips from a response. *)
Definition FENCE : string := "```".

(** [runs m new a]: from any world [m] returns [a], leaves the files
    alone and appends exactly the events [new]. *)
Definition runs {A} (m : M A) (new : list event) (a : A) : Prop :=
  forall w, m w = (World (files w) (trace w ++ new), Ok a).

(** [asks n m]: from any world, [m] only appends to the trace and sends
    at most [n] requests. *)
Definition asks {A} (n : nat) (m : M A) : Prop :=
  forall w, exists new, trace (m w).1 = trace w ++ new /\ length (requests new) <= n.

(** A service that answers every prompt with the same text. *)
Definition scripted (response_text : string) (prompt : string) : result exception string :=
  Ok response_text.

(** [steady m]: what [m] appends to the trace and what it returns or
    raises do not depend on the world it starts from, and it writes no
    file. *)
Definition steady {A} (m : M A) : Prop :=
  exists new r, forall w, m w = (World (files w) (trace w ++ new), r).

(** The pieces [block i x] for the elements [x] of a list, numbered from
    [i], one after the other. *)
Fixpoint blocks_from {A X} (block : nat -> A -> list X) (i : nat) (l : list A) : list X :=
  match l with
  | [] => []
  | x :: rest => block i x ++ blocks_from block (S i) rest
  end.

(** The evidence entries of an issue as the renderers walk them. *)
Definition evidence_items (fields : list (string * value)) : list value :=
  match Py.iter (default (JArr []) (Py.lookup_field "evidence" fields)) with
  | Ok items => items
  | Err _ => []
  end.

(** The first line of the plain report of [n] issues. *)
Definition plain_header (n : nat) : string :=
  "AI Inconsistency Analysis Report: Found " +:+ Text.of_nat n +:+ " Issues"
    +:+ nl +:+ Text.repeat_str "=" 80.

(** The box at the top of the decorated report; the subtitle with the
    count is there only when there are issues. *)
Definition banner (count : option nat) : list event :=
  [EvPrint (nl +:+ Fore.CYAN +:+ T_LEFT +:+ Text.repeat_str H_LINE (BOX_WIDTH - 2) +:+ T_RIGHT);
   EvPrint (Fore.CYAN +:+ V_LINE +:+ Style.BRIGHT
              +:+ Text.center " AI Inconsistency Analysis Report " (BOX_WIDTH - 2) " "
              +:+ Style.NORMAL +:+ V_LINE)]
  ++ match count with
     | Some n =>
         [EvPrint (Fore.CYAN +:+ V_LINE +:+ Fore.YELLOW
                     +:+ Text.center ("Found " +:+ Text.of_nat n
                                        +:+ " potential issue(s) to review.")
                           (BOX_WIDTH - 2) " "
                     +:+ Fore.CYAN +:+ V_LINE)]
     | None => []
     end
  ++ [EvPrint (Fore.CYAN +:+ B_LEFT +:+ Text.repeat_str H_LINE (BOX_WIDTH - 2)
                 +:+ B_RIGHT +:+ nl)].

Section MoreVocabulary.
Context {P : Platform}.

(** The lines of the plain report for the issue at index [i]. *)
Definition plain_block (i : nat) (issue : value) : list string :=
  match issue with
  | JObj fields =>
      [nl +:+ "--- ISSUE #" +:+ Text.of_nat (i + 1) +:+ " ---" +:+ nl;
       "TYPE: " +:+ Py.str (default (JStr "N/A") (Py.lookup_field "type" fields));
       "CONFLICT: " +:+ Py.str (default (JStr "N/A") (Py.lookup_field "conflict" fields));
       "EVIDENCE:"]
      ++ map (fun ev => "  - " +:+ Py.str ev) (evidence_items fields)
  | _ => []
  end.

(** The end of [main]: the analysis block, entered with [cache_path],
    and then the report. *)
Definition analyze_and_report (args : Args) (config : Config)
    (file_path key cache_path : string) : M unit :=
  analyzed ← analyze_file file_path key (caching_enabled args config) cache_path;
  match analyzed with
  | None => mret tt
  | Some analysis_result => deliver (args_output args) analysis_result
  end.



(** The error that keeps a cache write under [cache_path] from
    happening, if there is one: a regular file that has the name of the
    cache directory, a refusal to make the directory, the empty path, or
    a refusal to open the file. *)
Definition cache_write_error (w : world) (cache_path : string) : option exception :=
  match files w !! CACHE_DIR with
  | Some _ =>
      Some (Exc FileExistsError ("[Errno 17] File exists: " +:+ Py.repr_str CACHE_DIR))
  | None =>
      match makedirs_error CACHE_DIR with
      | Some e => Some e
      | None =>
          match cache_path with
          | EmptyString =>
              Some (Exc FileNotFoundError
                      ("[Errno 2] No such file or directory: " +:+ Py.repr_str cache_path))
          | _ => open_error cache_path
          end
      end
  end.

(** What the analysis path of a run leaves behind before the report,
    given what the client said ([talk]) and returned ([v]): with caching
    enabled a result that is not an error is dumped under [cache_path];
    a dump that fails, or a result on which the membership test itself
    raises, ends the run. *)
Definition after_analysis (enabled : bool) (output : option string) (cache_path : string)
    (talk : list event) (v : value) (w : world) : world * result exn unit :=
  let before := trace w ++ EvPrint "Extracting content from presentation..." :: talk in
  if enabled then
    match Py.contains "error" v with
    | Ok false =>
        match cache_write_error w cache_path with
        | None =>
            deliver output v
              (World (<[cache_path := json_dumps v]> (files w))
                 (before ++
                  [EvDump cache_path v;
                   EvPrint ("Analysis complete. Results saved to cache: " +:+ cache_path)]))
        | Some e =>
            (World (files w)
               (before ++
                [EvPrint ("An unexpected error occurred during analysis: " +:+ exc_msg e)]),
             Ok tt)
        end
    | Ok true => deliver output v (World (files w) before)
    | Err e =>
        (World (files w)
           (before ++
            [EvPrint ("An unexpected error occurred during analysis: " +:+ exc_msg e)]),
         Ok tt)
    end
  else deliver output v (World (files w) before).

End MoreVocabulary.

(** * Proofs *)

(** ** What a program does to the world *)

Section Acts.
Context {P : Platform}.
Variable Q : event -> Prop.
Variable F : string -> string -> Prop.

Lemma effects_refl (w : world) : effects Q F w w.
Proof.
  split; [| by left]. exists []. by rewrite app_nil_r.
Qed.

Lemma effects_trans (w1 w2 w3 : world) :
  effects Q F w1 w2 -> effects Q F w2 w3 -> effects Q F w1 w3.
Proof.
  intros [(new1 & E1 & F1) H1] [(new2 & E2 & F2) H2]. split.
  - exists (new1 ++ new2). rewrite E2, E1, app_assoc.
    split; [reflexivity | by apply Forall_app].
  - intros path. destruct (H2 path) as [-> | ?]; [apply H1 | by right].
Qed.

Lemma acts_silent {A} (m : M A) : (forall w, (m w).1 = w) -> acts Q F m.
Proof. intros H w. rewrite H. apply effects_refl. Qed.

Lemma acts_ext {A} (m m' : M A) : (forall w, m w = m' w) -> acts Q F m' -> acts Q F m.
Proof. intros E H w. rewrite E. apply H. Qed.

Lemma acts_ret {A} (a : A) : acts Q F (mret a).
Proof. by apply acts_silent. Qed.

Lemma acts_raise {A} (e : exn) : acts Q F (raise e : M A).
Proof. by apply acts_silent. Qed.

Lemma acts_sys_exit {A} (code : Z) : acts Q F (sys_exit code : M A).
Proof. apply acts_raise. Qed.

Lemma acts_lift {A} (r : result exception A) : acts Q F (lift r).
Proof. by apply acts_silent. Qed.

Lemma acts_os_path_exists (path : string) : acts Q F (os_path_exists path).
Proof. by apply acts_silent. Qed.

Lemma acts_read_file (path : string) : acts Q F (read_file path).
Proof.
  apply acts_silent. intros w. unfold read_file. by destruct (files w !! path).
Qed.

Lemma acts_emit (e : event) : Q e -> acts Q F (emit e).
Proof.
  intros H w. split; [| by left]. exists [e]. split; [reflexivity | by constructor].
Qed.

Lemma acts_bind {A B} (m : M A) (f : A -> M B) :
  acts Q F m -> (forall a, acts Q F (f a)) -> acts Q F (m ≫= f).
Proof.
  intros Hm Hf w. specialize (Hm w). unfold mbind, M_bind.
  destruct (m w) as [w1 [a | e]]; simpl in *; [| exact Hm].
  eapply effects_trans; [exact Hm | apply Hf].
Qed.

Lemma acts_try_except {A} (body : M A) (handler : exception -> M A) :
  acts Q F body -> (forall e, acts Q F (handler e)) -> acts Q F (try_except body handler).
Proof.
  intros Hb Hh w. specialize (Hb w). unfold try_except.
  destruct (body w) as [w1 [a | [e | code]]]; simpl in *; try exact Hb.
  eapply effects_trans; [exact Hb | apply Hh].
Qed.

Lemma acts_for_enumerate {A} (l : list A) (body : nat -> A -> M unit) :
  (forall i x, acts Q F (body i x)) -> forall i, acts Q F (for_enumerate i l body).
Proof.
  intros Hb. induction l as [| x rest IH]; intros i; simpl.
  - apply acts_ret.
  - apply acts_bind; [apply Hb | intros _; apply IH].
Qed.

Lemma acts_for_each {A} (l : list A) (body : A -> M unit) :
  (forall x, acts Q F (body x)) -> acts Q F (for_each l body).
Proof. intros Hb. apply acts_for_enumerate. intros _. apply Hb. Qed.

Lemma acts_os_makedirs (path : string) : acts Q F (os_makedirs path).
Proof.
  apply acts_silent. intros w. unfold os_makedirs.
  destruct (files w !! path); [done |]. by destruct (makedirs_error path).
Qed.

(** Writing a file: opened, logged, filled, and then the program goes
    on.  When the path cannot be opened nothing is written. *)
Lemma acts_write_then {B} (path content : string) (e : event) (k : M B) :
  Q e -> F path content -> acts Q F k ->
  acts Q F (open_for_writing path ;; emit e ;; store path content ;; k).
Proof.
  intros He Hc Hk w. unfold mbind at 1, M_bind at 1, open_for_writing.
  destruct path as [| c path']; [apply effects_refl |].
  destruct (open_error (String c path')) as [refusal |]; [apply effects_refl |].
  set (path := String c path').
  eapply effects_trans;
    [| apply (Hk (World (<[path := content]> (<[path := EmptyString]> (files w)))
                    (trace w ++ [e])))].
  split.
  - exists [e]. split; [reflexivity | by constructor].
  - intros p. cbn [files]. destruct (decide (path = p)) as [<- | Hne].
    + right. exists content. by rewrite lookup_insert_eq.
    + left. by rewrite !lookup_insert_ne.
Qed.

End Acts.

(** The trace part of [acts] alone. *)
Lemma acts_trace {A} (Q : event -> Prop) (F : string -> string -> Prop) (m : M A) :
  acts Q F m ->
  forall w, exists new, trace (m w).1 = trace w ++ new /\ Forall Q new.
Proof. intros H w. apply (H w). Qed.

(** One step of a proof that a program only does what [Q] and [F]
    allow: peel the outermost construct, splitting on the condition of a
    branch. *)
Ltac acts_step :=
  match goal with
  | |- acts _ _ (mret _) => apply acts_ret
  | |- acts _ _ (raise _) => apply acts_raise
  | |- acts _ _ (sys_exit _) => apply acts_sys_exit
  | |- acts _ _ (lift _) => apply acts_lift
  | |- acts _ _ (os_path_exists _) => apply acts_os_path_exists
  | |- acts _ _ (read_file _) => apply acts_read_file
  | |- acts _ _ (print _) => apply acts_emit
  | |- acts _ _ (emit _) => apply acts_emit
  | |- acts _ _ (try_except _ _) => apply acts_try_except; [| intros ?]
  | |- acts _ _ (for_each _ _) => apply acts_for_each; intros ?
  | |- acts _ _ (for_enumerate _ _ _) => apply acts_for_enumerate; intros ? ?
  | |- acts _ _ (_ ≫= _) => apply acts_bind; [| intros ?]
  | |- acts _ _ (if ?b then _ else _) => destruct b eqn:?
  | |- acts _ _ (match ?x with _ => _ end) => destruct x eqn:?
  end.

Section ActsProgram.
Context {P : Platform}.
Variable Q : event -> Prop.
Variable F : string -> string -> Prop.

Lemma acts_get_file_hash file_path : acts Q F (get_file_hash file_path).
Proof. unfold get_file_hash. repeat acts_step. Qed.

Lemma acts_read_from_cache cache_path : acts Q F (read_from_cache cache_path).
Proof. unfold read_from_cache. repeat acts_step. Qed.

Lemma acts_write_to_cache cache_path data :
  Q (EvDump cache_path data) -> F cache_path (json_dumps data) ->
  acts Q F (write_to_cache cache_path data).
Proof.
  intros He Hc. unfold write_to_cache.
  apply acts_bind; [apply acts_os_makedirs | intros _].
  apply acts_ext with
    (m' := open_for_writing cache_path ;; emit (EvDump cache_path data) ;;
           store cache_path (json_dumps data) ;; mret tt).
  - intros w. unfold mbind, M_bind.
    by destruct (open_for_writing cache_path w) as [w1 [[] | e]].
  - apply acts_write_then; [exact He | exact Hc | apply acts_ret].
Qed.

Lemma acts_extract_content_from_pptx file_path :
  (forall s, Q (EvPrint s)) -> acts Q F (extract_content_from_pptx file_path).
Proof. intros H. unfold extract_content_from_pptx. repeat acts_step; apply H. Qed.

Lemma acts_analyze_with_gemini content_dict key :
  (forall s, Q (EvPrint s)) -> (forall p, Q (EvRequest p)) ->
  acts Q F (analyze_with_gemini content_dict key).
Proof.
  intros Hp Hr. unfold analyze_with_gemini, request. repeat acts_step; auto.
Qed.

Lemma acts_generate_report analysis_data :
  (forall s, Q (EvPrint s)) -> acts Q F (generate_report analysis_data).
Proof.
  intros H. unfold generate_report, report_issue, report_evidence.
  repeat acts_step; auto.
Qed.

Lemma acts_cache_lookup file_path :
  (forall s, Q (EvPrint s)) -> acts Q F (cache_lookup file_path).
Proof.
  intros H. unfold cache_lookup, cache_lookup_failed.
  repeat first [apply acts_get_file_hash | apply acts_read_from_cache | acts_step]; auto.
Qed.

Lemma acts_deliver output analysis_result :
  (forall s, Q (EvPrint s)) -> (forall p t, Q (EvWrite p t)) ->
  (forall p c, output = Some p -> F p c) ->
  acts Q F (deliver output analysis_result).
Proof.
  intros Hp Hw Hf. unfold deliver.
  destruct output as [path |]; [| by apply acts_generate_report].
  destruct (Text.truthy path); [| by apply acts_generate_report].
  apply acts_bind; [apply acts_lift | intros plain_report].
  apply acts_write_then; [apply Hw | by apply Hf | by apply acts_emit].
Qed.

End ActsProgram.

(** ** Programs that return *)

Section Succeeds.
Context {P : Platform}.







End Succeeds.

(** ** Cache writes *)

Lemma not_error_variant (data : value) :
  Py.contains "error" data = Ok false -> is_error_variant data = false.
Proof.
  destruct data; simpl; try reflexivity. intros [= H]. exact H.
Qed.

Section CacheWrites.
Context {P : Platform}.

Lemma acts_analyze_file F file_path key enabled cache_path :
  (forall data, enabled = true -> Py.contains "error" data = Ok false ->
     F cache_path (json_dumps data)) ->
  acts (cache_write_allowed enabled) F (analyze_file file_path key enabled cache_path).
Proof.
  intros HF. unfold analyze_file.
  apply acts_try_except; [| intros e; repeat acts_step; exact I].
  apply acts_bind; [by apply acts_extract_content_from_pptx |].
  intros [| entry content]; [repeat acts_step; exact I |].
  apply acts_bind; [by apply acts_analyze_with_gemini |].
  intros analysis_result.
  destruct enabled;
    [| apply acts_ext with (m' := mret (Some analysis_result));
       [intros w; reflexivity | apply acts_ret]].
  destruct (Py.contains "error" analysis_result) as [[|] | e] eqn:E.
  - apply acts_ext with (m' := mret (Some analysis_result));
      [intros w; reflexivity | apply acts_ret].
  - apply acts_ext with
      (m' := (write_to_cache cache_path analysis_result ;;
              print ("Analysis complete. Results saved to cache: " +:+ cache_path)) ;;
             mret (Some analysis_result));
      [intros w; reflexivity |].
    apply acts_bind; [| intros ?; apply acts_ret].
    apply acts_bind; [| intros ?; by apply acts_emit].
    apply acts_write_to_cache; [by split | by apply HF].
  - apply acts_ext with (m' := raise (Raised e));
      [intros w; reflexivity | apply acts_raise].
Qed.

Lemma acts_main args config :
  acts (cache_write_allowed (caching_enabled args config))
       (cache_or_report args config)
       (main args config).
Proof.
  unfold main.
  destruct (negb (given (or_else (args_file args) (default_file config))));
    [repeat acts_step; exact I |].
  destruct (negb (given (api_key config)) || bool_decide (api_key config = Some "YOUR_API_KEY_HERE"));
    [repeat acts_step; exact I |].
  fold (caching_enabled args config).
  apply acts_bind.
  - destruct (caching_enabled args config); [by apply acts_cache_lookup | apply acts_ret].
  - intros [analysis_result cache_path].
    apply acts_bind.
    + destruct (Py.is_None analysis_result); [| apply acts_ret].
      apply acts_analyze_file. intros data Henabled Hdata. right. eauto.
    + intros [result |]; [| apply acts_ret].
      apply acts_deliver; [done | done |]. intros p c Hp. by left.
Qed.

End CacheWrites.

Lemma cached_results_allowed (enabled : bool) (new : list event) :
  Forall (cache_write_allowed enabled) new ->
  Forall (fun v => Py.contains "error" v = Ok false) (cached_results new).
Proof.
  induction 1 as [| e rest He _ IH]; simpl; [constructor |].
  destruct e; simpl; try exact IH.
  constructor; [apply He | exact IH].
Qed.

Lemma same_analysis_refl (a : value) : same_analysis a a.
Proof.
  split; [reflexivity |]. induction (issue_list a); by constructor.
Qed.

(** ** The corpus builder *)

Section Corpus.
Context {P : Platform}.

Lemma dict_set_fresh {V} (k : nat) (v : V) (d : list (nat * V)) :
  k ∉ d.*1 -> dict_set k v d = d ++ [(k, v)].
Proof.
  induction d as [| [k' v'] rest IH]; simpl; intros Hk; [reflexivity |].
  apply not_elem_of_cons in Hk as [Hne Hrest].
  destruct (Nat.eqb_spec k k') as [-> | _]; [congruence |].
  by rewrite IH.
Qed.

Lemma extract_slides_entries (slides : list Slide) :
  forall i acc, (forall k, k ∈ acc.*1 -> k <= i) ->
    extract_slides i slides acc = acc ++ entries_from i slides.
Proof.
  induction slides as [| slide rest IH]; intros i acc Hacc; simpl.
  - by rewrite app_nil_r.
  - rewrite dict_set_fresh.
    + rewrite IH.
      * by rewrite <- app_assoc.
      * intros k. rewrite fmap_app, elem_of_app. simpl.
        intros [Hk | Hk]; [apply Hacc in Hk; lia |].
        apply list_elem_of_singleton in Hk. lia.
    + intros Hk. apply Hacc in Hk. lia.
Qed.

Lemma entries_from_keys (slides : list Slide) :
  forall i, (entries_from i slides).*1 = seq (i + 1) (length slides).
Proof.
  induction slides as [| slide rest IH]; intros i; simpl; [reflexivity |].
  rewrite IH. by replace (S i + 1) with (S (i + 1)) by lia.
Qed.

Lemma entries_from_lookup (slides : list Slide) :
  forall i j slide, slides !! j = Some slide ->
    entries_from i slides !! j = Some (i + j + 1, slide_entry slide).
Proof.
  induction slides as [| s rest IH]; intros i [| j] slide H; simpl in *; try discriminate.
  - injection H as ->. by replace (i + 0 + 1) with (i + 1) by lia.
  - rewrite (IH (S i) j slide H). by replace (S i + j + 1) with (i + S j + 1) by lia.
Qed.

Lemma entries_from_get (slides : list Slide) :
  forall i j slide, slides !! j = Some slide ->
    dict_get (i + j + 1) (entries_from i slides) = Some (slide_entry slide).
Proof.
  induction slides as [| s rest IH]; intros i [| j] slide H; simpl in *; try discriminate.
  - injection H as ->. replace (i + 0 + 1) with (i + 1) by lia.
    by rewrite Nat.eqb_refl.
  - destruct (Nat.eqb_spec (i + S j + 1) (i + 1)) as [E | _]; [lia |].
    replace (i + S j + 1) with (S i + j + 1) by lia. by apply IH.
Qed.

Lemma blank_shape_segments (shape : Shape) :
  blank_shape shape -> shape_segments shape = [].
Proof.
  intros [Htext Hpic]. unfold shape_segments.
  destruct (has_text_frame shape); simpl.
  - rewrite Htext by reflexivity. simpl.
    destruct (shape_type shape); simpl; try reflexivity.
    by rewrite Hpic.
  - destruct (shape_type shape); simpl; try reflexivity.
    by rewrite Hpic.
Qed.

Lemma blank_slide_texts (slide : Slide) :
  blank_slide slide -> slide_texts slide = [].
Proof.
  intros [Hshapes Hnotes]. unfold slide_texts.
  assert (flat_map shape_segments (shapes slide) = []) as ->.
  { induction Hshapes as [| shape rest Hs _ IH]; simpl; [reflexivity |].
    by rewrite (blank_shape_segments _ Hs), IH. }
  destruct (has_notes_slide slide); simpl; [| reflexivity].
  by rewrite Hnotes.
Qed.

Lemma extract_content_found (file_path bytes : string) (prs : list Slide) (w : world) :
  files w !! file_path = Some bytes ->
  Presentation bytes = Ok prs ->
  extract_content_from_pptx file_path w =
    (World (files w) (trace w ++ [EvPrint "Extracting content from presentation..."]),
     Ok (extract_slides 0 prs [])).
Proof.
  intros Hfile Hparse.
  unfold extract_content_from_pptx, os_path_exists, read_file, mbind, M_bind.
  rewrite Hfile. rewrite bool_decide_eq_true_2 by eauto. simpl.
  by rewrite Hfile, Hparse.
Qed.

End Corpus.

(** ** The orchestrator *)

Lemma no_requests (new : list event) : Forall not_request new -> requests new = [].
Proof.
  induction 1 as [| e rest He _ IH]; [reflexivity |].
  destruct e; simpl in *; try exact IH. contradiction.
Qed.

Section Orchestrator.
Context {P : Platform}.

(** The cache lookup writes no file and only prints. *)
Lemma cache_lookup_frame (file_path : string) (w : world) :
  exists new r,
    cache_lookup file_path w = (World (files w) (trace w ++ new), r) /\
    Forall is_print new.
Proof.
  unfold cache_lookup, cache_lookup_failed, try_except, get_file_hash, read_from_cache,
    read_file, os_path_exists, print, emit, lift, sys_exit, raise, mbind, M_bind, mret, M_ret.
  destruct w as [fs t]. cbn [files trace].
  destruct (fs !! file_path) as [bytes |]; cbn [files trace].
  - case_bool_decide; cbn [files trace].
    + destruct (fs !! _) as [content |]; cbn [files trace].
      * destruct (json_loads content) as [v | e]; cbn [files trace].
        -- eexists [_], _. split; [reflexivity |]. repeat constructor.
        -- destruct (is_FileNotFoundError e); cbn [files trace];
             (eexists [_; _], _; split; [by rewrite <- app_assoc |]; repeat constructor).
      * match goal with H : is_Some None |- _ => by destruct H end.
    + exists [], (Ok (JNull, cache_key file_path bytes)).
      split; [by rewrite app_nil_r |]. constructor.
  - eexists [_], _. split; [reflexivity |]. repeat constructor.
Qed.

(** A miss: the file is readable and no entry is stored under its key. *)
Lemma cache_lookup_miss (file_path bytes : string) (w : world) :
  files w !! file_path = Some bytes ->
  files w !! cache_key file_path bytes = None ->
  cache_lookup file_path w = (w, Ok (JNull, cache_key file_path bytes)).
Proof.
  intros Hfile Hmiss.
  unfold cache_lookup, try_except, get_file_hash, read_file, os_path_exists,
    mbind, M_bind, mret, M_ret.
  rewrite Hfile. cbn [files trace]. fold (cache_key file_path bytes).
  rewrite bool_decide_eq_false_2; [reflexivity |].
  rewrite Hmiss. by intros [? ?].
Qed.

(** On a deck without slides the analysis block prints the "no content"
    message and ends the run. *)
Lemma analyze_file_no_slides (file_path key cache_path bytes : string)
    (enabled : bool) (w : world) :
  files w !! file_path = Some bytes ->
  Presentation bytes = Ok [] ->
  analyze_file file_path key enabled cache_path w =
    (World (files w)
       (trace w ++ [EvPrint "Extracting content from presentation...";
                    EvPrint "Could not extract any content from the presentation."]),
     Ok None).
Proof.
  intros Hfile Hparse. unfold analyze_file, try_except, mbind, M_bind.
  rewrite (extract_content_found _ _ _ _ Hfile Hparse). simpl.
  by rewrite <- app_assoc.
Qed.

End Orchestrator.

(** ** The renderers *)

Section Renderers.
Context {P : Platform}.

Lemma get_object (fields : list (string * value)) (k : string) (d : value) :
  Py.get (JObj fields) k d = Ok (default d (Py.lookup_field k fields)).
Proof. simpl. by destruct (Py.lookup_field k fields). Qed.

Lemma iterable_iter (v : value) :
  iterable v = true -> exists items, Py.iter v = Ok items.
Proof. destruct v; simpl; try discriminate; eauto. Qed.

Lemma fold_left_append (f : value -> string) (items : list value) (lines : list string) :
  fold_left (fun lines ev => append lines (f ev)) items lines = lines ++ map f items.
Proof.
  revert lines. induction items as [| ev rest IH]; intros lines; simpl.
  - by rewrite app_nil_r.
  - rewrite IH. unfold append. by rewrite <- app_assoc.
Qed.









End Renderers.

(** ** The cache key

    What the program itself contributes to the key: it is spelled from
    the base name and the digest, so it is the same for the same base
    name and bytes, and for one file it changes exactly when the digest
    of the bytes changes.  Whether the digest changes with every single
    byte is a property of the digest function, not of this program. *)

Section CacheKey.
Context {P : Platform}.

Lemma append_length (s t : string) :
  String.length (s +:+ t) = String.length s + String.length t.
Proof. induction s as [| c s IH]; simpl; [reflexivity | by rewrite IH]. Qed.

Lemma append_inv_tail (t : string) :
  forall s1 s2, s1 +:+ t = s2 +:+ t -> s1 = s2.
Proof.
  induction s1 as [| c1 s1 IH]; intros [| c2 s2] H; simpl in H.
  - reflexivity.
  - apply (f_equal String.length) in H. simpl in H. rewrite !append_length in H.
    simpl in H. lia.
  - apply (f_equal String.length) in H. simpl in H. rewrite !append_length in H.
    simpl in H. lia.
  - injection H as -> H. f_equal. by apply IH.
Qed.

Lemma basename_not_absolute (p rest : string) :
  Text.is_prefix "/" (Text.basename p +:+ "_" +:+ rest) = false.
Proof.
  induction p as [| c p IH]; [reflexivity |].
  cbn [Text.basename]. destruct (Text.contains "/" (String c p)) eqn:Hslash; [exact IH |].
  cbn [Text.contains] in Hslash. apply orb_false_elim in Hslash as [Hhead _].
  simpl in *. exact Hhead.
Qed.

Lemma cache_key_spelled (file_path bytes : string) :
  cache_key file_path bytes =
    ".cache/" +:+ Text.basename file_path +:+ "_" +:+ md5_hexdigest bytes +:+ ".json".
Proof.
  unfold cache_key, os_path_join. by rewrite basename_not_absolute.
Qed.

Lemma cache_key_deterministic (path1 path2 bytes : string) :
  Text.basename path1 = Text.basename path2 ->
  cache_key path1 bytes = cache_key path2 bytes.
Proof. intros H. by rewrite !cache_key_spelled, H. Qed.

Lemma cache_key_follows_digest (file_path bytes1 bytes2 : string) :
  cache_key file_path bytes1 = cache_key file_path bytes2 <->
  md5_hexdigest bytes1 = md5_hexdigest bytes2.
Proof.
  rewrite !cache_key_spelled. split; [| by intros ->].
  intros H. do 3 apply String.app_inj in H. by apply append_inv_tail in H.
Qed.

End CacheKey.

(** ** The paths of a run *)

Section Paths.
Context {P : Platform}.

(** Past the guards, [main] is the cache lookup, the analysis block when
    the lookup gave nothing, and the report. *)
Lemma main_ready (args : Args) (config : Config) (file_path key : string) (w : world) :
  ready args config file_path key ->
  main args config w =
    ('(analysis_result, cache_path) ←
       (if caching_enabled args config
        then cache_lookup file_path
        else mret (JNull, EmptyString));
     if Py.is_None analysis_result
     then analyze_and_report args config file_path key cache_path
     else deliver (args_output args) analysis_result) w.
Proof.
  intros (Hfile & Hnonempty & Hkey & Hkey1 & Hkey2). unfold chosen_file in Hfile.
  unfold main. rewrite Hfile, Hkey.
  assert (given (Some file_path) = true) as -> by (by destruct file_path).
  assert (given (Some key) = true) as -> by (by destruct key).
  rewrite bool_decide_eq_false_2 by congruence.
  fold (caching_enabled args config). cbn [negb orb].
  change (default EmptyString (Some file_path)) with file_path.
  change (default EmptyString (Some key)) with key.
  unfold mbind at 1, M_bind at 1. symmetry. unfold mbind at 1, M_bind at 1.
  destruct ((if caching_enabled args config
             then cache_lookup file_path
             else mret (JNull, EmptyString)) w)
    as [w1 [[analysis_result cache_path] | e]]; [| reflexivity].
  unfold analyze_and_report. by destruct (Py.is_None analysis_result).
Qed.

Lemma cache_lookup_hit (file_path bytes content : string) (v : value) (w : world) :
  files w !! file_path = Some bytes ->
  files w !! cache_key file_path bytes = Some content ->
  json_loads content = Ok v ->
  cache_lookup file_path w =
    (World (files w)
       (trace w ++ [EvPrint ("Loading results from cache: " +:+ cache_key file_path bytes)]),
     Ok (v, cache_key file_path bytes)).
Proof.
  intros Hfile Hentry Hloads.
  unfold cache_lookup, try_except, get_file_hash, read_from_cache, read_file,
    os_path_exists, print, emit, lift, mbind, M_bind, mret, M_ret.
  rewrite Hfile. cbn [files trace]. fold (cache_key file_path bytes).
  rewrite bool_decide_eq_true_2 by (rewrite Hentry; eauto).
  cbn [files trace]. by rewrite Hentry, Hloads.
Qed.

Lemma cache_lookup_unreadable (file_path bytes content : string) (e : exception) (w : world) :
  files w !! file_path = Some bytes ->
  files w !! cache_key file_path bytes = Some content ->
  json_loads content = Err e ->
  is_FileNotFoundError e = false ->
  cache_lookup file_path w =
    (World (files w)
       (trace w ++
        [EvPrint ("Loading results from cache: " +:+ cache_key file_path bytes);
         EvPrint ("Could not read cache, proceeding with analysis. Error: " +:+ exc_msg e)]),
     Ok (JNull, cache_key file_path bytes)).
Proof.
  intros Hfile Hentry Hloads Hclass.
  unfold cache_lookup, cache_lookup_failed, try_except, get_file_hash, read_from_cache,
    read_file, os_path_exists, print, emit, lift, mbind, M_bind, mret, M_ret.
  rewrite Hfile. cbn [files trace]. fold (cache_key file_path bytes).
  rewrite bool_decide_eq_true_2 by (rewrite Hentry; eauto).
  cbn [files trace]. rewrite Hentry, Hloads, Hclass. cbn [files trace].
  by rewrite <- app_assoc.
Qed.

Lemma cache_lookup_no_file (file_path : string) (w : world) :
  files w !! file_path = None ->
  cache_lookup file_path w =
    (World (files w)
       (trace w ++ [EvPrint ("Error: The file '" +:+ file_path +:+ "' was not found.")]),
     Err (SystemExit 1)).
Proof.
  intros Hfile.
  unfold cache_lookup, cache_lookup_failed, try_except, get_file_hash, read_file,
    print, emit, sys_exit, raise, mbind, M_bind.
  by rewrite Hfile.
Qed.

Lemma analyze_file_no_file (file_path key cache_path : string) (enabled : bool) (w : world) :
  files w !! file_path = None ->
  analyze_file file_path key enabled cache_path w =
    (World (files w)
       (trace w ++ [EvPrint ("Error: The file '" +:+ file_path +:+ "' was not found.")]),
     Err (SystemExit 1)).
Proof.
  intros Hfile.
  unfold analyze_file, try_except, extract_content_from_pptx, os_path_exists,
    print, emit, sys_exit, raise, mbind, M_bind.
  rewrite Hfile. by rewrite bool_decide_eq_false_2 by (by intros [? ?]).
Qed.

Lemma analyze_file_unreadable (file_path key cache_path bytes : string)
    (enabled : bool) (e : exception) (w : world) :
  files w !! file_path = Some bytes ->
  Presentation bytes = Err e ->
  analyze_file file_path key enabled cache_path w =
    (World (files w)
       (trace w ++ [EvPrint ("An unexpected error occurred during analysis: " +:+ exc_msg e)]),
     Ok None).
Proof.
  intros Hfile Hparse.
  unfold analyze_file, try_except, extract_content_from_pptx, os_path_exists, read_file,
    print, emit, lift, mbind, M_bind, mret, M_ret.
  rewrite Hfile. rewrite bool_decide_eq_true_2 by eauto. cbn [negb files trace].
  by rewrite Hfile, Hparse.
Qed.

Lemma acts_weaken {A} (Q Q' : event -> Prop) (F F' : string -> string -> Prop) (m : M A) :
  (forall e, Q e -> Q' e) -> (forall p c, F p c -> F' p c) ->
  acts Q F m -> acts Q' F' m.
Proof.
  intros HQ HF Hm w. destruct (Hm w) as [(new & Hnew & Hall) Hfiles]. split.
  - exists new. split; [exact Hnew |]. eapply Forall_impl; eauto.
  - intros path. destruct (Hfiles path) as [? | (c & ? & ?)]; [by left |].
    right. exists c. eauto.
Qed.

Lemma report_events_only (new : list event) :
  Forall report_event new -> requests new = [] /\ cached_results new = [].
Proof.
  induction 1 as [| e rest He _ [IH1 IH2]]; [done |].
  by destruct e.
Qed.

(** What the cache lookup hands on: it writes no file, and the path it
    returns is the cache key of the file it could read. *)
Lemma cache_lookup_returns_key (file_path : string) (w : world) :
  exists new r,
    cache_lookup file_path w = (World (files w) (trace w ++ new), r) /\
    forall analysis_result cache_path,
      r = Ok (analysis_result, cache_path) ->
      exists bytes,
        files w !! file_path = Some bytes /\ cache_path = cache_key file_path bytes.
Proof.
  destruct (files w !! file_path) as [bytes |] eqn:Hfile.
  - destruct (files w !! cache_key file_path bytes) as [content |] eqn:Hentry.
    + destruct (json_loads content) as [v | e] eqn:Hloads.
      * eexists _, _. split; [by apply (cache_lookup_hit _ bytes content v) |].
        intros ? ? [= <- <-]. eauto.
      * destruct (is_FileNotFoundError e) eqn:Hclass.
        -- exists [EvPrint ("Loading results from cache: " +:+ cache_key file_path bytes);
                   EvPrint ("Error: The file '" +:+ file_path +:+ "' was not found.")],
                  (Err (SystemExit 1)).
           split; [| discriminate].
           unfold cache_lookup, cache_lookup_failed, try_except, get_file_hash,
             read_from_cache, read_file, os_path_exists, print, emit, lift, sys_exit,
             raise, mbind, M_bind, mret, M_ret.
           rewrite Hfile. cbn [files trace]. fold (cache_key file_path bytes).
           rewrite bool_decide_eq_true_2 by (rewrite Hentry; eauto).
           cbn [files trace]. rewrite Hentry, Hloads, Hclass. cbn [files trace].
           by rewrite <- app_assoc.
        -- eexists _, _.
           split; [by apply (cache_lookup_unreadable _ bytes content e) |].
           intros ? ? [= <- <-]. eauto.
    + exists [], (Ok (JNull, cache_key file_path bytes)).
      rewrite (cache_lookup_miss _ bytes) by assumption.
      split; [destruct w; simpl; by rewrite app_nil_r |].
      intros ? ? [= <- <-]. eauto.
  - eexists _, _. split; [by apply cache_lookup_no_file | discriminate].
Qed.

End Paths.


(** ** Programs with a known output *)

Section Runs.
Context {P : Platform}.








Lemma evidence_items_iter (fields : list (string * value)) (items : list value) :
  Py.iter (default (JArr []) (Py.lookup_field "evidence" fields)) = Ok items ->
  evidence_items fields = items.
Proof. unfold evidence_items. by intros ->. Qed.


Lemma plain_issue_block (i : nat) (issue : value) (lines : list string) :
  plain_issue_ok issue = true ->
  plain_issue i issue lines = Ok (lines ++ plain_block i issue).
Proof.
  destruct issue as [| | | | | fields]; simpl; try discriminate. intros Hev.
  destruct (iterable_iter _ Hev) as [items Hitems].
  unfold plain_issue. rewrite !get_object. cbn [rbind]. rewrite Hitems. cbn [rbind].
  rewrite fold_left_append, (evidence_items_iter _ _ Hitems).
  unfold append. by rewrite <- !app_assoc.
Qed.

Lemma plain_issues_blocks (items : list value) :
  forallb plain_issue_ok items = true ->
  forall i lines,
    plain_issues i items lines = Ok (lines ++ blocks_from plain_block i items).
Proof.
  induction items as [| issue rest IH]; simpl; intros Hok i lines.
  - by rewrite app_nil_r.
  - apply andb_prop in Hok as [Hissue Hrest].
    rewrite (plain_issue_block i issue lines Hissue). cbn [rbind].
    rewrite (IH Hrest). by rewrite <- app_assoc.
Qed.

End Runs.

(** ** Whitespace and code fences *)

Lemma chars_nonempty (s : string) :
  Forall (fun c => c <> EmptyString) (Text.chars s).
Proof.
  induction s as [| b s IH]; cbn [Text.chars]; [constructor |].
  destruct (Text.chars s) as [| c rest]; [by repeat constructor |].
  inversion IH; subst. destruct (Text.continues c); by repeat constructor.
Qed.

(** Cutting a text into characters loses nothing. *)
Lemma concat_chars (s : string) : Text.concat (Text.chars s) = s.
Proof.
  induction s as [| b s IH]; cbn [Text.chars]; [done |].
  destruct (Text.chars s) as [| c rest]; cbn [Text.concat] in *.
  - by rewrite <- IH.
  - destruct (Text.continues c); rewrite <- IH; reflexivity.
Qed.

Lemma drop_while_Forall {A} (p : A -> bool) (Q : A -> Prop) (l : list A) :
  Forall Q l -> Forall Q (Text.drop_while p l).
Proof.
  induction 1 as [| x l Hx Hl IH]; cbn [Text.drop_while]; [constructor |].
  destruct (p x); [exact IH | by constructor].
Qed.

Lemma drop_while_all {A} (p : A -> bool) (l : list A) :
  existsb (fun x => negb (p x)) l = false -> Text.drop_while p l = [].
Proof.
  induction l as [| x l IH]; cbn [existsb Text.drop_while]; [done |].
  destruct (p x); cbn [negb orb]; [exact IH | done].
Qed.

Lemma drop_while_some {A} (p : A -> bool) (l : list A) :
  existsb (fun x => negb (p x)) l = true -> Text.drop_while p l <> [].
Proof.
  induction l as [| x l IH]; cbn [existsb Text.drop_while]; [done |].
  destruct (p x); cbn [negb orb]; [exact IH | done].
Qed.

Lemma drop_while_keeps {A} (p : A -> bool) (l : list A) :
  existsb (fun x => negb (p x)) l = true ->
  existsb (fun x => negb (p x)) (Text.drop_while p l) = true.
Proof.
  induction l as [| x l IH]; cbn [existsb Text.drop_while]; [done |].
  destruct (p x) eqn:Hx; cbn [negb orb existsb]; [exact IH |].
  by rewrite Hx.
Qed.

Lemma existsb_rev {A} (f : A -> bool) (l : list A) : existsb f (rev l) = existsb f l.
Proof.
  induction l as [| x l IH]; [done |]. cbn [rev existsb].
  rewrite existsb_app, IH. cbn [existsb]. rewrite orb_false_r. apply orb_comm.
Qed.

Lemma concat_truthy (l : list string) :
  Forall (fun c => c <> EmptyString) l ->
  l <> [] -> Text.truthy (Text.concat l) = true.
Proof.
  intros Hl Hne. destruct l as [| c rest]; [done |].
  inversion Hl; subst. cbn [Text.concat]. by destruct c.
Qed.

(** [s.strip()] is truthy exactly when [s] has a non-whitespace
    character. *)
Lemma strip_truthy (s : string) : Text.truthy (Text.strip s) = has_ink s.
Proof.
  unfold Text.strip, has_ink.
  destruct (existsb _ (Text.chars s)) eqn:Hink.
  - apply concat_truthy.
    + apply Forall_rev, drop_while_Forall, Forall_rev, drop_while_Forall, chars_nonempty.
    + intros Hnil. apply (f_equal (@rev string)) in Hnil.
      rewrite rev_involutive in Hnil. cbn [rev] in Hnil.
      revert Hnil. apply drop_while_some. rewrite existsb_rev.
      by apply drop_while_keeps.
  - by rewrite (drop_while_all _ _ Hink).
Qed.

Lemma strip_empty (s : string) : Text.strip s = EmptyString <-> has_ink s = false.
Proof.
  rewrite <- strip_truthy. by destruct (Text.strip s).
Qed.

Lemma has_ink_nonempty (s : string) : has_ink s = true -> s <> EmptyString.
Proof. by destruct s. Qed.

Lemma no_backtick_cons (c : ascii) (s : string) :
  Text.contains "`" (String c s) = false ->
  Ascii.eqb "`" c = false /\ Text.contains "`" s = false.
Proof.
  cbn [Text.contains Text.is_prefix]. intros H.
  apply orb_false_elim in H as [Hc Hs]. split; [| exact Hs].
  by destruct (Ascii.eqb "`" c).
Qed.

Lemma no_backtick_cons_intro (c : ascii) (s : string) :
  Ascii.eqb "`" c = false -> Text.contains "`" s = false ->
  Text.contains "`" (String c s) = false.
Proof.
  intros Hc Hs. cbn [Text.contains Text.is_prefix]. by rewrite Hc, Hs.
Qed.

Lemma no_backtick_app (s t : string) :
  Text.contains "`" (s +:+ t) = false <->
  Text.contains "`" s = false /\ Text.contains "`" t = false.
Proof.
  induction s as [| c s IH]; cbn [String.append].
  - split; [by intros ? | by intros [_ ?]].
  - split.
    + intros H. apply no_backtick_cons in H as [Hc Hst].
      apply IH in Hst as [Hs Ht]. split; [by apply no_backtick_cons_intro | exact Ht].
    + intros [Hs Ht]. apply no_backtick_cons in Hs as [Hc Hs].
      apply no_backtick_cons_intro; [exact Hc |]. apply IH. by split.
Qed.

Lemma no_backtick_concat (l : list string) :
  Text.contains "`" (Text.concat l) = false <->
  Forall (fun c => Text.contains "`" c = false) l.
Proof.
  induction l as [| c l IH]; cbn [Text.concat].
  - split; [constructor | done].
  - rewrite no_backtick_app, IH. split.
    + intros [? ?]. by constructor.
    + intros H. by inversion H.
Qed.

(** Stripping brings no backtick into a text that has none. *)
Lemma no_backtick_strip (s : string) :
  Text.contains "`" s = false -> Text.contains "`" (Text.strip s) = false.
Proof.
  intros H. unfold Text.strip. apply no_backtick_concat.
  apply Forall_rev, drop_while_Forall, Forall_rev, drop_while_Forall.
  apply no_backtick_concat. by rewrite concat_chars.
Qed.

(** A text without a backtick holds no occurrence of a pattern that
    starts with one, and [replace] returns it as it is. *)
Lemma replace_without_backtick (old new s : string) :
  Text.contains "`" s = false ->
  Text.replace (String "`" old) new s = s.
Proof.
  unfold Text.replace. induction s as [| c s IH]; [done |]. intros H.
  apply no_backtick_cons in H as [Hc Hs].
  cbn [Text.replace_from Text.is_prefix]. rewrite Hc. by rewrite IH.
Qed.

Lemma fence_prefix_two (s : string) :
  Text.is_prefix FENCE s = true -> Text.is_prefix "``" s = true.
Proof.
  destruct s as [| c1 [| c2 [| c3 s]]]; cbn [FENCE Text.is_prefix];
    repeat match goal with
           | |- context [Ascii.eqb ?a ?b] => destruct (Ascii.eqb a b)
           end; done.
Qed.

(** Removing fences never brings two backticks to the front that were
    not there. *)
Lemma unfenced_front (s : string) :
  Text.is_prefix "``" (Text.replace_from FENCE EmptyString 0 s) = true ->
  Text.is_prefix FENCE s = true \/ Text.is_prefix "``" s = true.
Proof.
  destruct s as [| c1 s1]; [done |].
  cbn [Text.replace_from].
  destruct (Text.is_prefix FENCE (String c1 s1)) eqn:H1; [by left |].
  right. cbn [String.append Text.is_prefix] in *.
  destruct (Ascii.eqb "`" c1); [| done].
  destruct s1 as [| c2 s2]; [done |].
  cbn [Text.replace_from] in *.
  destruct (Text.is_prefix FENCE (String c2 s2)) eqn:H2.
  - apply fence_prefix_two in H2. cbn [Text.is_prefix] in H2.
    by destruct (Ascii.eqb "`" c2).
  - cbn [String.append Text.is_prefix] in *. by destruct (Ascii.eqb "`" c2).
Qed.

Lemma fence_prefix_split (c : ascii) (s : string) :
  Text.is_prefix FENCE (String c s) = Ascii.eqb "`" c && Text.is_prefix "``" s.
Proof.
  cbn [FENCE Text.is_prefix]. destruct (Ascii.eqb "`" c); [| done].
  destruct s as [| c2 [| c3 s]]; cbn [Text.is_prefix andb];
    repeat match goal with
           | |- context [Ascii.eqb ?a ?b] => destruct (Ascii.eqb a b)
           end; done.
Qed.

Lemma replace_leaves_no_fence (s : string) :
  forall skip,
    Text.contains FENCE (Text.replace_from FENCE EmptyString skip s) = false.
Proof.
  induction s as [| c s IH]; intros skip; [by destruct skip |].
  cbn [Text.replace_from]. destruct skip as [| k]; [| apply IH].
  destruct (Text.is_prefix FENCE (String c s)) eqn:Hfence; [apply IH |].
  cbn [Text.contains]. rewrite IH, orb_false_r.
  rewrite fence_prefix_split in *.
  destruct (Ascii.eqb "`" c); [| done]. cbn [andb] in *.
  destruct (Text.is_prefix "``" (Text.replace_from FENCE EmptyString 0 s)) eqn:Hfront;
    [| done].
  apply unfenced_front in Hfront as [Hfront | Hfront]; [| congruence].
  apply fence_prefix_two in Hfront. congruence.
Qed.

(** ** Segments *)

Section Segments.
Context {P : Platform}.

Lemma shape_segments_nonempty (shape : Shape) (segment : string) :
  segment ∈ shape_segments shape -> segment <> EmptyString.
Proof.
  unfold shape_segments. rewrite elem_of_app. intros [H | H].
  - destruct (has_text_frame shape); [| by apply elem_of_nil in H].
    cbn [andb] in H. rewrite strip_truthy in H.
    destruct (has_ink (text shape)) eqn:Hink; [| by apply elem_of_nil in H].
    apply list_elem_of_singleton in H as ->. by apply has_ink_nonempty.
  - destruct (is_PICTURE (shape_type shape)); [| by apply elem_of_nil in H].
    destruct (Text.truthy _); [| by apply elem_of_nil in H].
    by apply list_elem_of_singleton in H as ->.
Qed.

Lemma slide_texts_nonempty (slide : Slide) (segment : string) :
  segment ∈ slide_texts slide -> segment <> EmptyString.
Proof.
  unfold slide_texts. rewrite elem_of_app. intros [H | H].
  - apply list_elem_of_In, in_flat_map in H as (shape & _ & H).
    apply (shape_segments_nonempty shape). by apply list_elem_of_In.
  - destruct (_ && _); [| by apply elem_of_nil in H].
    by apply list_elem_of_singleton in H as ->.
Qed.

Lemma join_empty (sep : string) (l : list string) :
  (forall x, x ∈ l -> x <> EmptyString) ->
  Text.join sep l = EmptyString -> l = [].
Proof.
  destruct l as [| x rest]; [done |]. intros Hne Hjoin.
  assert (x <> EmptyString) as Hx by (apply Hne; left).
  destruct x as [| c x]; [done |]. by destruct rest.
Qed.

Lemma shape_segments_blank (shape : Shape) :
  shape_segments shape = [] -> blank_shape shape.
Proof.
  unfold shape_segments, blank_shape. intros H.
  apply app_eq_nil in H as [Htext Hpic]. split.
  - intros Hframe. rewrite Hframe in Htext. cbn [andb] in Htext.
    destruct (Text.strip (text shape)); [done | discriminate].
  - intros Hkind. rewrite Hkind in Hpic. cbn [is_PICTURE] in Hpic.
    destruct (Text.strip (ocr_image (image_blob shape))); [done | discriminate].
Qed.

Lemma slide_texts_blank (slide : Slide) :
  slide_texts slide = [] -> blank_slide slide.
Proof.
  unfold slide_texts, blank_slide. intros H.
  apply app_eq_nil in H as [Hshapes Hnotes]. split.
  - induction (shapes slide) as [| shape rest IH]; [constructor |].
    cbn [flat_map] in Hshapes. apply app_eq_nil in Hshapes as [Hshape Hrest].
    constructor; [by apply shape_segments_blank | by apply IH].
  - intros Hhas. rewrite Hhas in Hnotes. cbn [andb] in Hnotes.
    destruct (Text.strip (notes_text slide)); [done | discriminate].
Qed.

End Segments.

(** ** More on the cache key *)

Lemma basename_no_slash (p : string) : Text.contains "/" (Text.basename p) = false.
Proof.
  induction p as [| c p IH]; [done |]. cbn [Text.basename].
  by destruct (Text.contains "/" (String c p)) eqn:H.
Qed.

(** ** The analysis path *)

Section AnalysisPath.
Context {P : Platform}.

Lemma cache_key_nonempty (file_path bytes : string) :
  cache_key file_path bytes <> EmptyString.
Proof. by rewrite cache_key_spelled. Qed.

(** A cache write either happens as a whole or leaves the world as it
    is. *)
Lemma write_to_cache_outcome (K : string) (data : value) (w : world) :
  write_to_cache K data w =
    match cache_write_error w K with
    | None =>
        (World (<[K := json_dumps data]> (files w)) (trace w ++ [EvDump K data]), Ok tt)
    | Some e => (w, Err (Raised e))
    end.
Proof.
  unfold write_to_cache, cache_write_error, os_makedirs, open_for_writing, store, emit,
    mbind, M_bind.
  destruct (files w !! CACHE_DIR); [done |].
  destruct (makedirs_error CACHE_DIR); [done |].
  destruct K as [| c K']; [done |].
  destruct (open_error (String c K')); [done |].
  cbn [files trace]. by rewrite insert_insert_eq.
Qed.

Lemma extract_slides_nonempty (prs : list Slide) :
  prs <> [] -> extract_slides 0 prs [] <> [].
Proof.
  intros Hprs. rewrite extract_slides_entries by (intros k Hk; inversion Hk).
  by destruct prs.
Qed.

(** The client always returns, and what it says and returns does not
    depend on the world. *)
Lemma analyze_runs (content_dict : list (nat * string)) (key : string) :
  exists talk v, runs (analyze_with_gemini content_dict key) talk v.
Proof.
  unfold runs, analyze_with_gemini, request, try_except, print, emit, lift, mbind, M_bind,
    mret, M_ret.
  cbn [files trace].
  destruct (genai_configure key) as [[] | e]; cbn [files trace].
  - destruct (GenerativeModel "gemini-1.5-flash-latest") as [[] | e]; cbn [files trace].
    + destruct (generate_content (ANALYSIS_PROMPT +:+ full_text_prompt content_dict))
        as [response_text | e]; cbn [files trace].
      * destruct (json_loads _) as [parsed | e]; [| destruct (is_JSONDecodeError e)];
          (eexists [_; _], _; intros w; by rewrite <- app_assoc).
      * destruct (is_JSONDecodeError e);
          (eexists [_; _], _; intros w; by rewrite <- app_assoc).
    + by eexists [_], _.
  - by eexists [_], _.
Qed.

Lemma analyze_and_report_path (args : Args) (config : Config)
    (file_path key cache_path bytes : string) (prs : list Slide)
    (talk : list event) (v : value) (w : world) :
  files w !! file_path = Some bytes ->
  Presentation bytes = Ok prs ->
  prs <> [] ->
  runs (analyze_with_gemini (extract_slides 0 prs []) key) talk v ->
  analyze_and_report args config file_path key cache_path w =
    after_analysis (caching_enabled args config) (args_output args) cache_path talk v w.
Proof.
  intros Hfile Hparse Hprs Hruns.
  pose proof (extract_slides_nonempty prs Hprs) as Hcontent.
  unfold analyze_and_report, after_analysis, analyze_file, try_except.
  unfold mbind at 1 2, M_bind at 1 2.
  rewrite (extract_content_found _ _ _ _ Hfile Hparse).
  destruct (extract_slides 0 prs []) as [| entry rest] eqn:Hslides; [done |].
  unfold mbind at 1, M_bind at 1. rewrite Hruns. cbn [files trace].
  rewrite <- app_assoc. cbn [app].
  destruct (caching_enabled args config).
  - unfold mbind, M_bind, lift, mret, M_ret, print, emit.
    destruct (Py.contains "error" v) as [[|] | e]; cbn [negb files trace]; try reflexivity.
    + rewrite write_to_cache_outcome.
      change (cache_write_error (World (files w) ?t) cache_path)
        with (cache_write_error w cache_path).
      destruct (cache_write_error w cache_path) as [e |]; cbn [files trace].
      * reflexivity.
      * by rewrite <- app_assoc.
  - reflexivity.
Qed.

Lemma main_analysis_path (args : Args) (config : Config)
    (file_path key bytes : string) (prs : list Slide)
    (talk : list event) (v : value) (w : world) :
  ready args config file_path key ->
  files w !! file_path = Some bytes ->
  Presentation bytes = Ok prs ->
  prs <> [] ->
  caching_enabled args config = false \/ files w !! cache_key file_path bytes = None ->
  runs (analyze_with_gemini (extract_slides 0 prs []) key) talk v ->
  main args config w =
    after_analysis (caching_enabled args config) (args_output args)
      (cache_key file_path bytes) talk v w.
Proof.
  intros Hready Hfile Hparse Hprs Hmiss Hruns.
  rewrite (main_ready _ _ _ _ _ Hready). unfold mbind, M_bind.
  destruct (caching_enabled args config) eqn:Henabled.
  - destruct Hmiss as [? | Hmiss]; [discriminate |].
    rewrite (cache_lookup_miss _ bytes) by assumption. cbn [Py.is_None].
    rewrite (analyze_and_report_path _ _ _ _ _ bytes prs talk v) by assumption.
    by rewrite Henabled.
  - cbn [mret M_ret Py.is_None].
    rewrite (analyze_and_report_path _ _ _ _ _ bytes prs talk v) by assumption.
    by rewrite Henabled.
Qed.

End AnalysisPath.

(** ** Programs that do not look at the world *)

Section Steady.
Context {P : Platform}.

Lemma steady_ret {A} (a : A) : steady (mret a).
Proof. exists [], (Ok a). intros [fs t]. simpl. by rewrite app_nil_r. Qed.

Lemma steady_raise {A} (e : exn) : steady (raise e : M A).
Proof. exists [], (Err e). intros [fs t]. simpl. by rewrite app_nil_r. Qed.

Lemma steady_lift {A} (r : result exception A) : steady (lift r).
Proof.
  exists [], (match r with Ok a => Ok a | Err e => Err (Raised e) end).
  intros [fs t]. simpl. by rewrite app_nil_r.
Qed.

Lemma steady_emit (e : event) : steady (emit e).
Proof. by exists [e], (Ok tt). Qed.

Lemma steady_bind {A B} (m : M A) (f : A -> M B) :
  steady m -> (forall a, steady (f a)) -> steady (m ≫= f).
Proof.
  intros (new1 & r1 & Hm) Hf. destruct r1 as [a | e].
  - destruct (Hf a) as (new2 & r2 & Hfa). exists (new1 ++ new2), r2.
    intros w. unfold mbind, M_bind. rewrite Hm, Hfa. simpl. by rewrite <- app_assoc.
  - exists new1, (Err e). intros w. unfold mbind, M_bind. by rewrite Hm.
Qed.

Lemma steady_for_enumerate {A} (l : list A) (body : nat -> A -> M unit) :
  (forall i x, steady (body i x)) -> forall i, steady (for_enumerate i l body).
Proof.
  intros Hb. induction l as [| x rest IH]; intros i; simpl.
  - apply steady_ret.
  - apply steady_bind; [apply Hb | intros _; apply IH].
Qed.

Lemma steady_for_each {A} (l : list A) (body : A -> M unit) :
  (forall x, steady (body x)) -> steady (for_each l body).
Proof. intros Hb. apply steady_for_enumerate. intros _. apply Hb. Qed.

End Steady.

Ltac steady_step :=
  match goal with
  | |- steady (mret _) => apply steady_ret
  | |- steady (raise _) => apply steady_raise
  | |- steady (lift _) => apply steady_lift
  | |- steady (print _) => apply steady_emit
  | |- steady (emit _) => apply steady_emit
  | |- steady (for_each _ _) => apply steady_for_each; intros ?
  | |- steady (for_enumerate _ _ _) => apply steady_for_enumerate; intros ? ?
  | |- steady (_ ≫= _) => apply steady_bind; [| intros ?]
  | |- steady (if ?b then _ else _) => destruct b eqn:?
  | |- steady (match ?x with _ => _ end) => destruct x eqn:?
  end.

Section SteadyProgram.
Context {P : Platform}.

Lemma generate_report_steady (analysis_data : value) :
  steady (generate_report analysis_data).
Proof.
  unfold generate_report, report_issue, report_evidence. repeat steady_step.
Qed.

(** The report of a value: the same events, the same outcome and the
    same change to the files from every world.  The change touches the
    output path only, and making it twice is making it once. *)
Lemma deliver_steady (output : option string) (v : value) :
  exists (report : list event) (r : result exn unit)
         (change : gmap string string -> gmap string string),
    (forall w, deliver output v w = (World (change (files w)) (trace w ++ report), r)) /\
    Forall report_event report /\
    (forall fs, change (change fs) = change fs) /\
    (forall fs path, output <> Some path -> change fs !! path = fs !! path).
Proof.
  assert (exists report r,
            (forall w, generate_report v w = (World (files w) (trace w ++ report), r)) /\
            Forall report_event report) as (report & r & Hrun & Honly).
  { destruct (generate_report_steady v) as (report & r & Hrun).
    exists report, r. split; [exact Hrun |].
    destruct (acts_trace _ _ _
                (acts_generate_report report_event any_file v ltac:(done)) (World ∅ []))
      as (new & Hnew & Hall).
    rewrite Hrun in Hnew. cbn [fst trace] in Hnew. apply app_inv_head in Hnew.
    by subst new. }
  assert (exists (report : list event) (r : result exn unit)
                 (change : gmap string string -> gmap string string),
            (forall w, generate_report v w
                       = (World (change (files w)) (trace w ++ report), r)) /\
            Forall report_event report /\
            (forall fs, change (change fs) = change fs) /\
            (forall fs path, output <> Some path -> change fs !! path = fs !! path))
    as Hterminal.
  { exists report, r, id. repeat split; try done. }
  unfold deliver. destruct output as [path |]; [| exact Hterminal].
  destruct (Text.truthy path) eqn:Hpath; [| exact Hterminal].
  destruct (generate_plain_text_report v) as [plain | e] eqn:Hplain;
    [destruct (open_error path) as [e |] eqn:Hopen |].
  - exists [], (Err (Raised e)), id. split; [| split; [| split]]; try done.
    intros [fs t]. unfold mbind, M_bind, lift, open_for_writing.
    destruct path as [| c path']; [done |].
    rewrite Hopen. cbn [files trace id]. by rewrite app_nil_r.
  - exists [EvWrite path plain; EvPrint (nl +:+ "Report successfully saved to " +:+ path)],
           (Ok tt), (insert path plain).
    split; [| split; [| split]].
    + intros w. unfold mbind, M_bind, lift, open_for_writing, emit, store, print, emit.
      destruct path as [| c path']; [done |]. rewrite Hopen.
      cbn [files trace]. by rewrite insert_insert_eq, <- app_assoc.
    + by repeat constructor.
    + intros fs. apply insert_insert_eq.
    + intros fs p Hp. apply lookup_insert_ne. congruence.
  - exists [], (Err (Raised e)), id. split; [| split; [| split]]; try done.
    intros [fs t]. unfold mbind, M_bind, lift. cbn [files trace id].
    by rewrite app_nil_r.
Qed.

End SteadyProgram.

(** ** Counting requests *)

Section Asks.
Context {P : Platform}.

Lemma requests_app (t1 t2 : list event) : requests (t1 ++ t2) = requests t1 ++ requests t2.
Proof. apply omap_app. Qed.

Lemma asks_quiet {A} (F : string -> string -> Prop) (m : M A) :
  acts not_request F m -> asks 0 m.
Proof.
  intros H w. destruct (acts_trace _ _ _ H w) as (new & Hnew & Hquiet).
  exists new. split; [exact Hnew |]. by rewrite (no_requests _ Hquiet).
Qed.

Lemma asks_weaken {A} (n n' : nat) (m : M A) : n <= n' -> asks n m -> asks n' m.
Proof.
  intros Hle H w. destruct (H w) as (new & Hnew & Hcount). exists new. split; [done | lia].
Qed.

Lemma asks_bind {A B} (n1 n2 : nat) (m : M A) (f : A -> M B) :
  asks n1 m -> (forall a, asks n2 (f a)) -> asks (n1 + n2) (m ≫= f).
Proof.
  intros Hm Hf w. destruct (Hm w) as (new1 & E1 & C1).
  unfold mbind, M_bind. destruct (m w) as [w1 [a | e]]; simpl in *.
  - destruct (Hf a w1) as (new2 & E2 & C2). exists (new1 ++ new2).
    rewrite E2, E1, app_assoc, requests_app, length_app. split; [reflexivity | lia].
  - exists new1. split; [exact E1 | lia].
Qed.

Lemma asks_try_except {A} (n1 n2 : nat) (body : M A) (handler : exception -> M A) :
  asks n1 body -> (forall e, asks n2 (handler e)) -> asks (n1 + n2) (try_except body handler).
Proof.
  intros Hb Hh w. destruct (Hb w) as (new1 & E1 & C1). unfold try_except.
  destruct (body w) as [w1 [a | [e | code]]]; simpl in *;
    try (exists new1; split; [exact E1 | lia]).
  destruct (Hh e w1) as (new2 & E2 & C2). exists (new1 ++ new2).
  rewrite E2, E1, app_assoc, requests_app, length_app. split; [reflexivity | lia].
Qed.

Lemma asks_analyze_with_gemini (content_dict : list (nat * string)) (key : string) :
  asks 1 (analyze_with_gemini content_dict key).
Proof.
  intros w.
  unfold analyze_with_gemini, request, try_except, print, emit, lift, mbind, M_bind,
    mret, M_ret.
  cbn [files trace].
  destruct (genai_configure key) as [[] | e]; cbn [files trace fst].
  - destruct (GenerativeModel "gemini-1.5-flash-latest") as [[] | e]; cbn [files trace fst].
    + destruct (generate_content (ANALYSIS_PROMPT +:+ full_text_prompt content_dict))
        as [response_text | e]; cbn [files trace fst].
      * destruct (json_loads _) as [parsed | e]; [| destruct (is_JSONDecodeError e)];
          cbn [files trace fst];
          (eexists [_; _]; split; [by rewrite <- app_assoc | simpl; lia]).
      * destruct (is_JSONDecodeError e); cbn [files trace fst];
          (eexists [_; _]; split; [by rewrite <- app_assoc | simpl; lia]).
    + eexists [_]. split; [reflexivity | simpl; lia].
  - eexists [_]. split; [reflexivity | simpl; lia].
Qed.

Lemma asks_analyze_file (file_path key cache_path : string) (enabled : bool) :
  asks 1 (analyze_file file_path key enabled cache_path).
Proof.
  unfold analyze_file.
  apply (asks_try_except 1 0);
    [| intros e; apply (asks_quiet any_file); repeat acts_step; exact I].
  apply (asks_bind 0 1);
    [apply (asks_quiet any_file); by apply acts_extract_content_from_pptx |].
  intros [| entry content];
    [apply (asks_weaken 0); [lia |]; apply (asks_quiet any_file); repeat acts_step; exact I |].
  apply (asks_bind 1 0); [apply asks_analyze_with_gemini |].
  intros analysis_result. apply (asks_quiet any_file).
  apply acts_bind.
  - destruct enabled; repeat acts_step.
  - intros no_error. apply acts_bind; [| intros _; apply acts_ret].
    destruct no_error; [| apply acts_ret].
    apply acts_bind; [by apply acts_write_to_cache | intros _; by apply acts_emit].
Qed.

Lemma asks_main (args : Args) (config : Config) : asks 1 (main args config).
Proof.
  unfold main.
  destruct (negb (given (or_else (args_file args) (default_file config))));
    [apply (asks_weaken 0); [lia |]; apply (asks_quiet any_file);
     repeat acts_step; exact I |].
  destruct (negb (given (api_key config)) || bool_decide (api_key config = Some "YOUR_API_KEY_HERE"));
    [apply (asks_weaken 0); [lia |]; apply (asks_quiet any_file);
     repeat acts_step; exact I |].
  apply (asks_bind 0 1).
  - apply (asks_quiet any_file).
    destruct (negb (args_no_cache args) && default true (caching config));
      [by apply acts_cache_lookup | apply acts_ret].
  - intros [analysis_result cache_path]. apply (asks_bind 1 0).
    + destruct (Py.is_None analysis_result); [apply asks_analyze_file |].
      apply (asks_weaken 0); [lia |]. apply (asks_quiet any_file), acts_ret.
    + intros [result |]; apply (asks_quiet any_file); [| apply acts_ret].
      by apply acts_deliver.
Qed.

End Asks.

(** ** Extraction around a picture that cannot be read *)

Section Continuation.
Context {P : Platform}.

Lemma entries_from_app (earlier later : list Slide) :
  forall i,
    entries_from i (earlier ++ later) =
      entries_from i earlier ++ entries_from (i + length earlier) later.
Proof.
  induction earlier as [| slide rest IH]; intros i; simpl.
  - by rewrite Nat.add_0_r.
  - rewrite IH. by replace (S i + length rest) with (i + S (length rest)) by lia.
Qed.

Lemma unread_picture_segments (shape : Shape) :
  ocr_image (image_blob shape) = EmptyString ->
  shape_segments shape =
    if has_text_frame shape && Text.truthy (Text.strip (text shape))
    then [text shape] else [].
Proof.
  intros Hocr. unfold shape_segments. rewrite Hocr.
  change (Text.truthy (Text.strip EmptyString)) with false.
  destruct (is_PICTURE (shape_type shape)); by rewrite app_nil_r.
Qed.

Lemma blank_entries (prs : list Slide) :
  Forall blank_slide prs ->
  forall i, Forall (fun entry => entry.2 = EmptyString) (entries_from i prs).
Proof.
  induction 1 as [| slide rest Hslide _ IH]; intros i; simpl; constructor; [| apply IH].
  simpl. unfold slide_entry. by rewrite (blank_slide_texts _ Hslide).
Qed.

End Continuation.

(** ** What follows the analysis in a run *)

(** Two lines that start differently are different lines. *)
Ltac first_char_differs H :=
  apply (f_equal (fun s => match s with
                           | String c _ => Some c
                           | EmptyString => None
                           end)) in H;
  lazy in H; discriminate H.

Ltac past_analysis_print :=
  split; [exact I |]; let H := fresh in intros [= H]; first_char_differs H.

Section PastAnalysis.
Context {P : Platform}.

(** What the client says: the connecting line and then, unless the
    configuration failed, the one request. *)
Lemma analyze_talk (content_dict : list (nat * string)) (key : string)
    (talk : list event) (v : value) :
  runs (analyze_with_gemini content_dict key) talk v ->
  exists tail,
    talk = EvPrint (nl +:+ "Connecting to Google AI for analysis...") :: tail /\
    (tail = [] \/
     tail = [EvRequest (ANALYSIS_PROMPT +:+ full_text_prompt content_dict)]) /\
    (rbind (genai_configure key) (fun _ => GenerativeModel "gemini-1.5-flash-latest")
       = Ok tt ->
     tail = [EvRequest (ANALYSIS_PROMPT +:+ full_text_prompt content_dict)]).
Proof.
  intros Hruns. specialize (Hruns (World ∅ [])). revert Hruns.
  unfold analyze_with_gemini, request, try_except, print, emit, lift, mbind, M_bind,
    mret, M_ret.
  cbn [files trace app].
  destruct (genai_configure key) as [[] | e]; cbn [rbind files trace app].
  - destruct (GenerativeModel "gemini-1.5-flash-latest") as [[] | e];
      cbn [rbind files trace app].
    + destruct (generate_content (ANALYSIS_PROMPT +:+ full_text_prompt content_dict))
        as [response_text | e]; cbn [files trace app].
      * destruct (json_loads _) as [parsed | e]; [| destruct (is_JSONDecodeError e)];
          intros [= <- _]; eexists; (split; [reflexivity |]); auto.
      * destruct (is_JSONDecodeError e);
          intros [= <- _]; eexists; (split; [reflexivity |]); auto.
    + intros [= <- _]. eexists. split; [reflexivity |]. split; [by left | done].
  - intros [= <- _]. eexists. split; [reflexivity |]. split; [by left | done].
Qed.

Lemma acts_report_past_analysis (v : value) :
  acts past_analysis any_file (generate_report v).
Proof.
  unfold generate_report, report_issue, report_evidence.
  repeat acts_step; past_analysis_print.
Qed.

Lemma acts_deliver_past_analysis (output : option string) (v : value) :
  acts past_analysis any_file (deliver output v).
Proof.
  unfold deliver.
  destruct output as [path |]; [| apply acts_report_past_analysis].
  destruct (Text.truthy path); [| apply acts_report_past_analysis].
  apply acts_bind; [apply acts_lift | intros plain_report].
  apply acts_write_then; [by split | done |].
  apply acts_emit. past_analysis_print.
Qed.

(** After the analysis a run sends no request and never prints the
    message of the guard on an empty corpus. *)
Lemma after_analysis_trace (enabled : bool) (output : option string) (cache_path : string)
    (talk : list event) (v : value) (w : world) :
  exists more,
    trace (after_analysis enabled output cache_path talk v w).1 =
      trace w ++ EvPrint "Extracting content from presentation..." :: talk ++ more /\
    Forall past_analysis more.
Proof.
  assert (forall extra fs,
            Forall past_analysis extra ->
            exists more,
              trace (deliver output v
                       (World fs ((trace w ++ EvPrint "Extracting content from presentation..."
                                     :: talk) ++ extra))).1 =
                trace w ++ EvPrint "Extracting content from presentation..." :: talk ++ more /\
              Forall past_analysis more) as Hdeliver.
  { intros extra fs Hextra.
    destruct (acts_trace _ _ _ (acts_deliver_past_analysis output v)
                (World fs ((trace w ++ EvPrint "Extracting content from presentation..."
                              :: talk) ++ extra)))
      as (new & Hnew & Hall).
    exists (extra ++ new). rewrite Hnew. cbn [trace]. split.
    - by rewrite <- !app_assoc.
    - by apply Forall_app. }
  assert (forall fs,
            exists more,
              trace (deliver output v
                       (World fs (trace w ++ EvPrint "Extracting content from presentation..."
                                    :: talk))).1 =
                trace w ++ EvPrint "Extracting content from presentation..." :: talk ++ more /\
              Forall past_analysis more) as Hplain.
  { intros fs. destruct (Hdeliver [] fs ltac:(constructor)) as (more & Hmore & Hall).
    rewrite app_nil_r in Hmore. by exists more. }
  unfold after_analysis. destruct enabled; [| apply Hplain].
  destruct (Py.contains "error" v) as [[|] | e]; [apply Hplain | |].
  - destruct (cache_write_error w cache_path) as [e |].
    + eexists [_]. cbn [fst trace]. split.
      * by rewrite <- !app_assoc.
      * constructor; [past_analysis_print | constructor].
    + apply Hdeliver. constructor; [by split |].
      constructor; [past_analysis_print | constructor].
  - eexists [_]. cbn [fst trace]. split.
    + by rewrite <- !app_assoc.
    + constructor; [past_analysis_print | constructor].
Qed.

Lemma prints_app (t1 t2 : list event) : prints (t1 ++ t2) = prints t1 ++ prints t2.
Proof. apply omap_app. Qed.

Lemma prints_last (t : list event) (line : string) :
  last (prints (t ++ [EvPrint line])) = Some line.
Proof. rewrite prints_app. change (prints [EvPrint line]) with [line]. apply last_snoc. Qed.

Lemma past_analysis_prints (l : list event) :
  Forall past_analysis l -> NO_CONTENT ∉ prints l.
Proof.
  induction 1 as [| e rest [_ He] _ IH]; [apply not_elem_of_nil |].
  destruct e; cbn [prints omap]; try exact IH.
  change (omap _ rest) with (prints rest).
  apply not_elem_of_cons. split; [congruence | exact IH].
Qed.

Lemma past_analysis_requests (l : list event) :
  Forall past_analysis l -> requests l = [].
Proof.
  intros H. apply no_requests. eapply Forall_impl; [exact H |]. by intros e [? _].
Qed.

End PastAnalysis.

(** ** Programs that never exit *)

Section Mild.
Context {P : Platform}.







End Mild.


Section NonObjects.
Context {P : Platform}.






End NonObjects.

(** * The claims *)

(** ** The corpus builder *)

(** C6: the corpus builder produces exactly one entry per slide, numbered
    1, 2, ... in document order, and the entry of a slide without
    non-whitespace text, picture text or notes is the empty string: the
    key is present and the call returns. *)
Theorem corpus_one_entry_per_slide {P : Platform}
    (file_path bytes : string) (prs : list Slide) (w : world) :
  files w !! file_path = Some bytes ->
  Presentation bytes = Ok prs ->
  exists content,
    (extract_content_from_pptx file_path w).2 = Ok content /\
    content.*1 = seq 1 (length prs) /\
    forall j slide, prs !! j = Some slide ->
      content !! j = Some (j + 1, slide_entry slide) /\
      dict_get (j + 1) content = Some (slide_entry slide) /\
      (blank_slide slide -> dict_get (j + 1) content = Some EmptyString).
Proof.
  intros Hfile Hparse. exists (extract_slides 0 prs []).
  rewrite (extract_content_found _ _ _ _ Hfile Hparse). simpl.
  rewrite extract_slides_entries by (intros k Hk; inversion Hk). simpl.
  split; [reflexivity |]. split; [apply entries_from_keys |].
  intros j slide Hj.
  split; [apply (entries_from_lookup prs 0 j slide Hj) |].
  pose proof (entries_from_get prs 0 j slide Hj) as Hget. simpl in Hget.
  split; [exact Hget |].
  intros Hblank. rewrite Hget. unfold slide_entry.
  by rewrite (blank_slide_texts _ Hblank).
Qed.

Lemma corpus_one_entry_per_slide_witness :
  exists content,
    (extract_content_from_pptx (P := Demo.platform Demo.one_issue)
       "deck.pptx" Scenario.sparse_deck).2 = Ok content /\
    content.*1 = [1; 2; 3] /\
    dict_get 2 content = Some EmptyString.
Proof.
  destruct (corpus_one_entry_per_slide (P := Demo.platform Demo.one_issue)
              "deck.pptx" ("Title; " +:+ Scenario.nbsp +:+ ";!JPGbroken")
              [Demo.slide_of "Title"; Demo.slide_of (" " +:+ Scenario.nbsp);
               Demo.slide_of "!JPGbroken"]
              Scenario.sparse_deck)
    as (content & Hrun & Hkeys & Hentries).
  - reflexivity.
  - reflexivity.
  - exists content. split; [exact Hrun |]. split; [exact Hkeys |].
    destruct (Hentries 1 (Demo.slide_of (" " +:+ Scenario.nbsp)) eq_refl)
      as (_ & _ & Hblank).
    apply Hblank. split.
    + repeat constructor; simpl; discriminate.
    + simpl. discriminate.
Defined.

(** C7: when decoding or OCR raises, [ocr_image] returns the empty string
    instead of raising, and the extraction of the deck goes on.  It
    returns one entry for every slide: the slides before and after the
    slide of the picture have their usual entries, and on that slide the
    shapes before the picture, the text frame of the picture itself, the
    shapes after it and the notes contribute their segments as usual. *)
Theorem ocr_failure_is_absorbed {P : Platform} (image_bytes : string) (e : exception) :
  rbind (Image_open image_bytes) image_to_string = Err e ->
  ocr_image image_bytes = EmptyString /\
  forall (file_path bytes : string) (earlier later : list Slide) (slide : Slide)
         (before after : list Shape) (shape : Shape) (w : world),
    files w !! file_path = Some bytes ->
    Presentation bytes = Ok (earlier ++ slide :: later) ->
    shapes slide = before ++ shape :: after ->
    image_blob shape = image_bytes ->
    (extract_content_from_pptx file_path w).2 =
      Ok (entries_from 0 earlier
          ++ (length earlier + 1,
              Text.join (nl +:+ "---" +:+ nl)
                (flat_map shape_segments before
                 ++ (if has_text_frame shape && Text.truthy (Text.strip (text shape))
                     then [text shape] else [])
                 ++ flat_map shape_segments after
                 ++ (if has_notes_slide slide
                        && Text.truthy (Text.strip (notes_text slide))
                     then ["[Speaker Notes]:" +:+ nl +:+ notes_text slide]
                     else [])))
          :: entries_from (S (length earlier)) later).
Proof.
  intros Hfail.
  assert (ocr_image image_bytes = EmptyString) as Hocr.
  { unfold ocr_image. by rewrite Hfail. }
  split; [exact Hocr |].
  intros file_path bytes earlier later slide before after shape w
    Hfile Hparse Hshapes Hblob.
  rewrite (extract_content_found _ _ _ _ Hfile Hparse). cbn [snd]. f_equal.
  rewrite extract_slides_entries by (intros k Hk; inversion Hk). cbn [app].
  rewrite entries_from_app. cbn [entries_from Nat.add]. do 3 f_equal.
  unfold slide_entry, slide_texts. f_equal.
  rewrite Hshapes, flat_map_app. cbn [flat_map].
  rewrite (unread_picture_segments shape) by (by rewrite Hblob).
  by rewrite <- !app_assoc.
Qed.

Lemma ocr_failure_is_absorbed_witness :
  ocr_image (P := Demo.platform Demo.one_issue) "JPGbroken" = EmptyString /\
  (extract_content_from_pptx (P := Demo.platform Demo.one_issue)
     "deck.pptx" Scenario.mixed_deck).2 =
    Ok [(1, "Intro");
        (2, "Before" +:+ nl +:+ "---" +:+ nl +:+ "After");
        (3, "Outro")].
Proof.
  destruct (ocr_failure_is_absorbed (P := Demo.platform Demo.one_issue) "JPGbroken"
              (Exc OtherError "cannot identify image file") eq_refl) as [Hocr Hrest].
  split; [exact Hocr |].
  exact (Hrest "deck.pptx" "Intro;Before|!JPGbroken|After;Outro"
           [Demo.slide_of "Intro"] [Demo.slide_of "Outro"]
           (Demo.slide_of "Before|!JPGbroken|After")
           [Demo.shape_of "Before"] [Demo.shape_of "After"] (Demo.shape_of "!JPGbroken")
           Scenario.mixed_deck eq_refl eq_refl eq_refl eq_refl).
Defined.

(** C10, as stated, fails: a picture with a text frame whose OCR yields
    nothing contributes one segment, not two. *)
Lemma captioned_picture_one_segment :
  has_text_frame Scenario.captioned_picture = true /\
  Text.truthy (Text.strip (text Scenario.captioned_picture)) = true /\
  shape_type Scenario.captioned_picture = PICTURE /\
  shape_segments (P := Demo.platform Demo.one_issue) Scenario.captioned_picture = ["label"].
Proof. repeat split. Qed.

(** C10, amended: a shape with a non-whitespace text frame that is also a
    picture contributes its text first and then, when the OCR text is
    non-whitespace, the OCR text under the image marker; when the OCR
    text is empty or whitespace it contributes the text alone. *)
Theorem text_and_picture_segments {P : Platform} (shape : Shape) :
  has_text_frame shape = true ->
  Text.truthy (Text.strip (text shape)) = true ->
  shape_type shape = PICTURE ->
  shape_segments shape =
    if Text.truthy (Text.strip (ocr_image (image_blob shape)))
    then [text shape; "[Text from Image]:" +:+ nl +:+ ocr_image (image_blob shape)]
    else [text shape].
Proof.
  intros Hframe Htext Hpic. unfold shape_segments.
  rewrite Hframe, Htext, Hpic. simpl.
  by destruct (Text.truthy (Text.strip (ocr_image (image_blob shape)))).
Qed.

Lemma text_and_picture_segments_witness :
  shape_segments (P := Demo.platform Demo.one_issue) Scenario.captioned_chart =
    ["label"; "[Text from Image]:" +:+ nl +:+ "Q3 chart"].
Proof.
  exact (text_and_picture_segments (P := Demo.platform Demo.one_issue)
           Scenario.captioned_chart eq_refl eq_refl eq_refl).
Defined.

(** ** The cache *)

(** C3, as stated, fails: the result of the analysis is not validated.
    When the service answers with the JSON string ["oops"], the run
    caches it, though it is no successful AnalysisResult, and a later
    run that loads it from the cache raises in the renderer. *)
Lemma unvalidated_result_is_cached :
  let answer := dq +:+ "oops" +:+ dq in
  let first := main (P := Demo.platform (scripted answer))
                 Scenario.args_terminal Scenario.config Scenario.revenue_deck in
  let second := main (P := Demo.platform Demo.unreachable)
                  Scenario.args_terminal Scenario.config first.1 in
  cached_results (trace first.1) = [JStr "oops"] /\
  files first.1 !! ".cache/deck.pptx_911215343.json" = Some answer /\
  successful_result (JStr "oops") = false /\
  second.2 = Err (Raised (Exc AttributeError "'str' object has no attribute 'get'")).
Proof. vm_compute. repeat split. Qed.

(** C3, amended: a run dumps a result into a cache file only when caching
    is enabled and the test for [error] on the result is false, which
    rules out the error variant; hence, if that held of the cache
    entries written so far, it still holds after the run.  On disk,
    every file the run changes, the report file aside, holds the dump of
    a result on which the test is false. *)
Theorem cache_never_persists_error {P : Platform}
    (args : Args) (config : Config) (w : world) :
  let w' := (main args config w).1 in
  (exists new,
     trace w' = trace w ++ new /\
     Forall (cache_write_allowed (caching_enabled args config)) new) /\
  (Forall passes_error_test (cached_results (trace w)) ->
   Forall passes_error_test (cached_results (trace w'))) /\
  (forall v, passes_error_test v -> is_error_variant v = false) /\
  (forall path,
     args_output args <> Some path ->
     files w' !! path = files w !! path \/
     (caching_enabled args config = true /\
      exists data,
        passes_error_test data /\ files w' !! path = Some (json_dumps data))).
Proof.
  intros w'. destruct (acts_main args config w) as [(new & Hnew & Hallowed) Hfiles].
  split; [by exists new |]. split; [| split].
  - intros Hold. subst w'. rewrite Hnew. unfold cached_results.
    rewrite omap_app. apply Forall_app. split; [exact Hold |].
    by apply (cached_results_allowed (caching_enabled args config)).
  - apply not_error_variant.
  - intros path Hpath. destruct (Hfiles path) as [? | (content & Hcontent & Hwhy)];
      [by left |].
    destruct Hwhy as [? | (Henabled & data & Hdata & ->)]; [done |].
    right. eauto.
Qed.

Lemma cache_never_persists_error_witness :
  let w' := (main (P := Demo.platform Demo.one_issue)
               Scenario.args_terminal Scenario.config Scenario.revenue_deck).1 in
  cached_results (trace w') = [Scenario.one_issue_result] /\
  Forall passes_error_test (cached_results (trace w')).
Proof.
  split; [vm_compute; reflexivity |].
  apply (cache_never_persists_error (P := Demo.platform Demo.one_issue)
           Scenario.args_terminal Scenario.config Scenario.revenue_deck).
  constructor.
Defined.

(** C4: a result written to the cache under a key is what a later read
    under the same key returns, for every result that the JSON codec
    itself carries through a dump and a load.  The write goes through
    exactly when nothing is in its way (no regular file named like the
    cache directory, no refusal of the operating system for the
    directory or the file, a non-empty key), and a write that fails
    leaves the world as it was. *)
Theorem cache_round_trip {P : Platform} (w : world) (K : string) (data : value) :
  json_loads (json_dumps data) = Ok data ->
  let written := write_to_cache K data w in
  (written.2 = Ok tt ->
   exists back,
     (read_from_cache K written.1).2 = Ok back /\
     back = data /\
     same_analysis data back) /\
  (written.2 = Ok tt <-> cache_write_error w K = None) /\
  (written.2 <> Ok tt -> written.1 = w).
Proof.
  intros Hcodec written. subst written. rewrite write_to_cache_outcome.
  destruct (cache_write_error w K) as [e |]; cbn [fst snd].
  - split; [discriminate |]. split; [split; discriminate | done].
  - split; [| split; [done | by intros []]].
    intros _. exists data.
    unfold read_from_cache, read_file, lift, mbind, M_bind. cbn [files].
    rewrite lookup_insert_eq, Hcodec.
    split; [reflexivity |]. split; [reflexivity | apply same_analysis_refl].
Qed.

Lemma cache_round_trip_witness :
  let written :=
    write_to_cache (P := Demo.platform Demo.one_issue)
      ".cache/deck.pptx_1.json" Scenario.one_issue_result Scenario.revenue_deck in
  written.2 = Ok tt /\
  (read_from_cache (P := Demo.platform Demo.one_issue)
     ".cache/deck.pptx_1.json" written.1).2 = Ok Scenario.one_issue_result.
Proof.
  destruct (cache_round_trip (P := Demo.platform Demo.one_issue)
              Scenario.revenue_deck ".cache/deck.pptx_1.json" Scenario.one_issue_result)
    as (Hread & Hwritten & _).
  - vm_compute. reflexivity.
  - assert ((write_to_cache (P := Demo.platform Demo.one_issue)
               ".cache/deck.pptx_1.json" Scenario.one_issue_result
               Scenario.revenue_deck).2 = Ok tt) as Hdone
      by (apply Hwritten; reflexivity).
    split; [exact Hdone |].
    destruct (Hread Hdone) as (back & Hback & -> & _). exact Hback.
Defined.

(** ** The analysis client *)

(** C9: the analysis client returns on every input, whatever the service
    does: a configuration failure, a failure of the request and a
    response that is not JSON after stripping the code fences all give
    the error variant.  It sends no request when configuration fails and
    exactly one otherwise. *)
Theorem analysis_client_never_raises {P : Platform}
    (content_dict : list (nat * string)) (key : string) (w : world) :
  exists v new,
    analyze_with_gemini content_dict key w = (World (files w) (trace w ++ new), Ok v) /\
    length (requests new) <= 1 /\
    match rbind (genai_configure key) (fun _ => GenerativeModel "gemini-1.5-flash-latest") with
    | Err e =>
        v = error_result ("Failed to configure Gemini API: " +:+ exc_msg e) /\
        requests new = []
    | Ok _ =>
        let prompt := ANALYSIS_PROMPT +:+ full_text_prompt content_dict in
        requests new = [prompt] /\
        match generate_content prompt with
        | Err e => v = call_failure e /\ is_error_variant v = true
        | Ok response_text =>
            match json_loads (cleaned response_text) with
            | Err e => v = call_failure e /\ is_error_variant v = true
            | Ok parsed => v = parsed
            end
        end
    end.
Proof.
  unfold analyze_with_gemini, request, try_except, print, emit, lift, mbind, M_bind,
    mret, M_ret, cleaned, call_failure.
  cbn [files trace].
  destruct (genai_configure key) as [[] | e]; cbn [rbind].
  - destruct (GenerativeModel "gemini-1.5-flash-latest") as [[] | e]; cbn [rbind files trace].
    + destruct (generate_content (ANALYSIS_PROMPT +:+ full_text_prompt content_dict))
        as [response_text | e]; cbn [files trace].
      * destruct (json_loads _) as [parsed | e]; [| destruct (is_JSONDecodeError e) eqn:He];
          (eexists; eexists; split; [rewrite <- app_assoc; reflexivity |]);
          simpl; rewrite ?He; auto.
      * destruct (is_JSONDecodeError e) eqn:He;
          (eexists; eexists; split; [rewrite <- app_assoc; reflexivity |]);
          simpl; rewrite ?He; auto.
    + eexists; eexists; split; [reflexivity |]. simpl. auto.
  - eexists; eexists; split; [reflexivity |]. simpl. auto.
Qed.

(** ** The orchestrator *)

(** C2 fails on the code: a deck that has slides is sent to the analysis
    client even when every entry of its corpus is the empty string.  On
    a cache miss, or with caching disabled, the run prints that it
    extracts and that it connects, never prints the "no content"
    message, and sends the request for the empty corpus whenever the
    client can be configured. *)
Theorem blank_deck_is_analyzed {P : Platform}
    (args : Args) (config : Config) (file_path key bytes : string)
    (prs : list Slide) (w : world) :
  ready args config file_path key ->
  files w !! file_path = Some bytes ->
  Presentation bytes = Ok prs ->
  prs <> [] ->
  Forall blank_slide prs ->
  caching_enabled args config = false \/ files w !! cache_key file_path bytes = None ->
  let corpus := extract_slides 0 prs [] in
  exists new,
    trace (main args config w).1 = trace w ++ new /\
    Forall (fun entry => entry.2 = EmptyString) corpus /\
    ("Could not extract any content from the presentation." ∉ prints new) /\
    (exists rest,
       new = EvPrint "Extracting content from presentation..."
             :: EvPrint (nl +:+ "Connecting to Google AI for analysis...") :: rest) /\
    (rbind (genai_configure key) (fun _ => GenerativeModel "gemini-1.5-flash-latest")
       = Ok tt ->
     requests new = [ANALYSIS_PROMPT +:+ full_text_prompt corpus]).
Proof.
  intros Hready Hfile Hparse Hprs Hblank Hmiss corpus.
  destruct (analyze_runs corpus key) as (talk & v & Hruns).
  pose proof (main_analysis_path args config file_path key bytes prs talk v w
                Hready Hfile Hparse Hprs Hmiss Hruns) as Hmain.
  destruct (after_analysis_trace (caching_enabled args config) (args_output args)
              (cache_key file_path bytes) talk v w) as (more & Hmore & Hpast).
  destruct (analyze_talk _ _ _ _ Hruns) as (tail & -> & Hshape & Hconfigured).
  exists (EvPrint "Extracting content from presentation..."
          :: (EvPrint (nl +:+ "Connecting to Google AI for analysis...") :: tail) ++ more).
  split; [by rewrite Hmain |]. split; [| split; [| split]].
  - subst corpus. rewrite extract_slides_entries by (intros k Hk; inversion Hk).
    by apply blank_entries.
  - assert (prints tail = []) as Htail by (by destruct Hshape as [-> | ->]).
    change (prints (?e1 :: (?e2 :: tail) ++ more))
      with (prints [e1; e2] ++ prints (tail ++ more)).
    rewrite prints_app, Htail. cbn [app].
    change (prints [EvPrint ?a; EvPrint ?b]) with [a; b]. cbn [app].
    apply not_elem_of_cons. split; [discriminate |].
    apply not_elem_of_cons. split; [intros H; first_char_differs H |].
    by apply past_analysis_prints.
  - by eexists.
  - intros Hconfigure. rewrite (Hconfigured Hconfigure).
    change (requests (?e1 :: (?e2 :: [EvRequest ?p]) ++ more))
      with (p :: requests more).
    by rewrite (past_analysis_requests more Hpast).
Qed.

Lemma blank_deck_is_analyzed_witness :
  let run := main (P := Demo.platform Demo.garbled)
               Scenario.args_terminal Scenario.config Scenario.blank_deck in
  extract_slides (P := Demo.platform Demo.garbled) 0 [Demo.slide_of " "] []
    = [(1, EmptyString)] /\
  requests (trace run.1) = [ANALYSIS_PROMPT +:+ "--- Slide 1 ---" +:+ nl] /\
  ("Could not extract any content from the presentation." ∉ prints (trace run.1)).
Proof.
  destruct (blank_deck_is_analyzed (P := Demo.platform Demo.garbled)
              Scenario.args_terminal Scenario.config "deck.pptx" "secret" " "
              [Demo.slide_of " "] Scenario.blank_deck)
    as (new & Hnew & _ & Hsilent & _ & Hrequest).
  - repeat split; discriminate.
  - reflexivity.
  - reflexivity.
  - discriminate.
  - repeat constructor; simpl; discriminate.
  - right. vm_compute. reflexivity.
  - split; [reflexivity |].
    change (trace Scenario.blank_deck) with (@nil event) in Hnew.
    rewrite Hnew. cbn [app]. split; [exact (Hrequest eq_refl) | exact Hsilent].
Defined.

(** ** The renderers *)




(** C8 at the failing input: with a wrapper that, like [textwrap.wrap],
    returns no line for the empty string, the decorated renderer stops
    with [IndexError] right after the type line of an issue whose
    conflict is the empty string, while the plain renderer goes on to
    list the conflict and the evidence of the same issue. *)
Theorem empty_conflict_breaks_decorated_report {P : Platform} (w : world) :
  textwrap_wrap EmptyString (BOX_WIDTH - String.length "CONFLICT: " - 1) = [] ->
  let data :=
    JObj [("issues",
       JArr [JObj [("type", JStr "Numerical Inconsistency");
                   ("conflict", JStr EmptyString);
                   ("evidence", JArr [JStr "Slide 1: $10M"])]])] in
  generate_report data w =
    (World (files w)
       (trace w ++
        [EvPrint (nl +:+ Fore.CYAN +:+ T_LEFT +:+ Text.repeat_str H_LINE 88 +:+ T_RIGHT);
         EvPrint (Fore.CYAN +:+ V_LINE +:+ Style.BRIGHT
                    +:+ Text.center " AI Inconsistency Analysis Report " 88 " "
                    +:+ Style.NORMAL +:+ V_LINE);
         EvPrint (Fore.CYAN +:+ V_LINE +:+ Fore.YELLOW
                    +:+ Text.center "Found 1 potential issue(s) to review." 88 " "
                    +:+ Fore.CYAN +:+ V_LINE);
         EvPrint (Fore.CYAN +:+ B_LEFT +:+ Text.repeat_str H_LINE 88 +:+ B_RIGHT +:+ nl);
         EvPrint (Fore.WHITE +:+ Style.BRIGHT +:+ Text.center " ISSUE #1 " 90 "-");
         EvPrint (Fore.YELLOW +:+ Style.BRIGHT +:+ "TYPE:" +:+ Style.RESET_ALL
                    +:+ " Numerical Inconsistency")]),
     Err (Raised (Exc IndexError "list index out of range"))) /\
  generate_plain_text_report data =
    Ok (Text.join nl
          ["AI Inconsistency Analysis Report: Found 1 Issues" +:+ nl +:+ Text.repeat_str "=" 80;
           nl +:+ "--- ISSUE #1 ---" +:+ nl;
           "TYPE: Numerical Inconsistency";
           "CONFLICT: ";
           "EVIDENCE:";
           "  - Slide 1: $10M"]).
Proof.
  intros Hwrap data. split; [| reflexivity].
  cbv in Hwrap. cbv -[app trace files]. rewrite Hwrap.
  cbn [files trace]. rewrite <- !app_assoc. reflexivity.
Qed.

Lemma empty_conflict_breaks_decorated_report_witness :
  let data :=
    JObj [("issues",
       JArr [JObj [("type", JStr "Numerical Inconsistency");
                   ("conflict", JStr EmptyString);
                   ("evidence", JArr [JStr "Slide 1: $10M"])]])] in
  (generate_report (P := Demo.platform Demo.one_issue) data (World ∅ [])).2 =
    Err (Raised (Exc IndexError "list index out of range")) /\
  is_ok (generate_plain_text_report (P := Demo.platform Demo.one_issue) data) = true.
Proof.
  destruct (empty_conflict_breaks_decorated_report (P := Demo.platform Demo.one_issue)
              (World ∅ []) eq_refl) as [Hdecorated Hplain].
  split; [by rewrite Hdecorated | by rewrite Hplain].
Defined.

(** * End-to-end scenarios

    The two scenarios of the specification, run on the small platform. *)

(** A first run on the two-slide deck writes the report with one issue,
    its type, its conflict and its two evidence bullets, in that order. *)
Example first_run_writes_the_report :
  files (main (P := Demo.platform Demo.one_issue)
           Scenario.args_to_file Scenario.config Scenario.revenue_deck).1 !! "report.txt" =
  Some (Text.join nl
          ["AI Inconsistency Analysis Report: Found 1 Issues" +:+ nl +:+ Text.repeat_str "=" 80;
           nl +:+ "--- ISSUE #1 ---" +:+ nl;
           "TYPE: Numerical Inconsistency";
           "CONFLICT: Mismatch between totals";
           "EVIDENCE:";
           "  - Slide 1: $10M";
           "  - Slide 2: $9.8M"]).
Proof. vm_compute. reflexivity. Qed.

(** A second run on the same deck, with the service out of reach, sends
    no request and writes the same report from the cache. *)
Example second_run_uses_the_cache :
  let first := main (P := Demo.platform Demo.one_issue)
                 Scenario.args_to_file Scenario.config Scenario.revenue_deck in
  let second := main (P := Demo.platform Demo.unreachable)
                  Scenario.args_to_file Scenario.config (World (files first.1) []) in
  requests (trace second.1) = [] /\
  files second.1 !! "report.txt" = files first.1 !! "report.txt" /\
  second.2 = Ok tt.
Proof. vm_compute. repeat split. Qed.

(** * Further properties of the program *)

(** ** Runs that end early *)

(** X1: a run without a file name, or with a file name but without a
    usable API key, prints the matching error and exits with status 1;
    it reads no file, writes none and sends no request.  The key is
    checked before the file is looked at. *)
Theorem configuration_errors_exit {P : Platform}
    (args : Args) (config : Config) (w : world) :
  (given (chosen_file args config) = false ->
   main args config w =
     (World (files w)
        (trace w ++
         [EvPrint "Error: No presentation file specified. Provide one with --file or in config.ini."]),
      Err (SystemExit 1))) /\
  (given (chosen_file args config) = true ->
   given (api_key config) = false \/ api_key config = Some "YOUR_API_KEY_HERE" ->
   main args config w =
     (World (files w)
        (trace w ++ [EvPrint "Error: API key not found in config.ini. Please add it."]),
      Err (SystemExit 1))).
Proof.
  unfold chosen_file, main. split.
  - by intros ->.
  - intros -> Hkey. cbn [negb].
    assert (negb (given (api_key config))
            || bool_decide (api_key config = Some "YOUR_API_KEY_HERE") = true) as ->;
      [| reflexivity].
    destruct Hkey as [-> | ->]; [reflexivity |].
    rewrite bool_decide_eq_true_2 by reflexivity. apply orb_true_r.
Qed.

Lemma configuration_errors_exit_witness :
  (main (P := Demo.platform Demo.one_issue)
     {| args_file := Some EmptyString; args_output := None; args_no_cache := false |}
     Scenario.config Scenario.revenue_deck).2 = Err (SystemExit 1) /\
  (main (P := Demo.platform Demo.one_issue)
     Scenario.args_terminal
     {| default_file := None; api_key := Some "YOUR_API_KEY_HERE"; caching := None |}
     Scenario.revenue_deck).2 = Err (SystemExit 1).
Proof.
  split.
  - by rewrite (proj1 (configuration_errors_exit (P := Demo.platform Demo.one_issue)
                         {| args_file := Some EmptyString; args_output := None;
                            args_no_cache := false |}
                         Scenario.config Scenario.revenue_deck) eq_refl).
  - by rewrite (proj2 (configuration_errors_exit (P := Demo.platform Demo.one_issue)
                         Scenario.args_terminal
                         {| default_file := None; api_key := Some "YOUR_API_KEY_HERE";
                            caching := None |}
                         Scenario.revenue_deck) eq_refl (or_intror eq_refl)).
Defined.

(** X2: when the chosen file does not exist the run prints that the file
    was not found and exits with status 1, with caching enabled (the
    digest cannot be computed) as well as with caching disabled (the
    extraction exits, and [SystemExit] passes through the
    [except Exception] clause of the analysis block). *)
Theorem missing_deck_exits {P : Platform}
    (args : Args) (config : Config) (file_path key : string) (w : world) :
  ready args config file_path key ->
  files w !! file_path = None ->
  main args config w =
    (World (files w)
       (trace w ++ [EvPrint ("Error: The file '" +:+ file_path +:+ "' was not found.")]),
     Err (SystemExit 1)).
Proof.
  intros Hready Hfile. rewrite (main_ready args config file_path key _ Hready).
  unfold mbind, M_bind. destruct (caching_enabled args config).
  - by rewrite cache_lookup_no_file.
  - cbn [mret M_ret Py.is_None]. unfold analyze_and_report, mbind, M_bind.
    by rewrite analyze_file_no_file.
Qed.

Lemma missing_deck_exits_witness :
  main (P := Demo.platform Demo.one_issue)
    Scenario.args_terminal Scenario.config (World ∅ []) =
  (World ∅ [EvPrint "Error: The file 'deck.pptx' was not found."], Err (SystemExit 1)).
Proof.
  refine (missing_deck_exits (P := Demo.platform Demo.one_issue)
            Scenario.args_terminal Scenario.config "deck.pptx" "secret" (World ∅ []) _ _).
  - repeat split; discriminate.
  - reflexivity.
Defined.

(** X3: a deck that the parser rejects ends the run without a report:
    on a cache miss, or with caching disabled, the run prints the
    unexpected-error line with the parser's message and returns; no
    request is sent and no file is written, the report file included. *)
Theorem rejected_deck_ends_without_report {P : Platform}
    (args : Args) (config : Config) (file_path key bytes : string)
    (e : exception) (w : world) :
  ready args config file_path key ->
  files w !! file_path = Some bytes ->
  Presentation bytes = Err e ->
  caching_enabled args config = false \/ files w !! cache_key file_path bytes = None ->
  main args config w =
    (World (files w)
       (trace w ++ [EvPrint ("An unexpected error occurred during analysis: " +:+ exc_msg e)]),
     Ok tt).
Proof.
  intros Hready Hfile Hparse Hmiss. rewrite (main_ready args config file_path key _ Hready).
  unfold mbind, M_bind.
  assert ((if caching_enabled args config
           then cache_lookup file_path
           else mret (JNull, EmptyString)) w
          = (w, Ok (JNull,
                    if caching_enabled args config
                    then cache_key file_path bytes else EmptyString))) as ->.
  { destruct (caching_enabled args config); [| reflexivity].
    destruct Hmiss as [? | Hmiss]; [discriminate |]. by apply cache_lookup_miss. }
  cbn [Py.is_None]. unfold analyze_and_report, mbind, M_bind.
  by rewrite (analyze_file_unreadable _ _ _ bytes _ e).
Qed.

Lemma rejected_deck_ends_without_report_witness :
  main (P := Demo.platform Demo.one_issue)
    Scenario.args_to_file Scenario.config (World {[ "deck.pptx" := "corrupt" ]} []) =
  (World {[ "deck.pptx" := "corrupt" ]}
     [EvPrint "An unexpected error occurred during analysis: Package not found"],
   Ok tt).
Proof.
  refine (rejected_deck_ends_without_report (P := Demo.platform Demo.one_issue)
            Scenario.args_to_file Scenario.config "deck.pptx" "secret" "corrupt"
            (Exc OtherError "Package not found")
            (World {[ "deck.pptx" := "corrupt" ]} []) _ _ _ _).
  - repeat split; discriminate.
  - reflexivity.
  - reflexivity.
  - right. vm_compute. reflexivity.
Defined.

(** X22: for a document without slides (the built corpus has no entry
    at all) no run sends a request, and a run that reaches the
    extraction, that is on a cache miss or with caching disabled, ends
    with the "no content" message and no report. *)
Theorem no_slides_no_analysis {P : Platform}
    (args : Args) (config : Config) (w : world) (file_path key bytes : string) :
  or_else (args_file args) (default_file config) = Some file_path ->
  files w !! file_path = Some bytes ->
  Presentation bytes = Ok [] ->
  let run := main args config w in
  (exists new, trace run.1 = trace w ++ new /\ requests new = []) /\
  (file_path <> EmptyString ->
   api_key config = Some key ->
   key <> EmptyString -> key <> "YOUR_API_KEY_HERE" ->
   caching_enabled args config = false \/ files w !! cache_key file_path bytes = None ->
   run =
     (World (files w)
        (trace w ++ [EvPrint "Extracting content from presentation...";
                     EvPrint "Could not extract any content from the presentation."]),
      Ok tt)).
Proof.
  intros Hpath Hfile Hparse run. split.
  - subst run. unfold main. rewrite Hpath.
    destruct (negb (given (Some file_path))).
    { eexists [_]. split; [reflexivity | reflexivity]. }
    destruct (negb (given (api_key config)) || _).
    { eexists [_]. split; [reflexivity | reflexivity]. }
    fold (caching_enabled args config).
    change (default EmptyString (Some file_path)) with file_path.
    assert (exists new r,
              (if caching_enabled args config
               then cache_lookup file_path
               else mret (JNull, EmptyString)) w
              = (World (files w) (trace w ++ new), r) /\ Forall is_print new)
      as (new1 & r & Hlookup & Hprints).
    { destruct (caching_enabled args config); [apply cache_lookup_frame |].
      exists [], (Ok (JNull, EmptyString)). destruct w.
      split; [by rewrite app_nil_r | constructor]. }
    assert (requests new1 = []) as Hnew1.
    { apply no_requests. eapply Forall_impl; [exact Hprints |]. by intros []. }
    unfold mbind at 1, M_bind at 1. rewrite Hlookup.
    destruct r as [[analysis_result cache_path] | e]; [| by exists new1].
    unfold mbind at 1, M_bind at 1.
    destruct (Py.is_None analysis_result).
    + rewrite (analyze_file_no_slides _ _ _ bytes) by assumption. cbn [files trace].
      eexists. split; [by rewrite <- app_assoc |].
      unfold requests in *. by rewrite omap_app, Hnew1.
    + cbn [mret M_ret].
      destruct (acts_trace _ _ _
                  (acts_deliver not_request any_file (args_output args) analysis_result
                     ltac:(done) ltac:(done) ltac:(done))
                  (World (files w) (trace w ++ new1)))
        as (new2 & Hnew2 & Hquiet).
      cbn [trace] in Hnew2.
      exists (new1 ++ new2). split; [by rewrite Hnew2, <- app_assoc |].
      unfold requests in *. rewrite omap_app, Hnew1. by apply no_requests.
  - intros Hnonempty Hkey Hkey1 Hkey2 Hmiss. subst run. unfold main.
    rewrite Hpath, Hkey.
    assert (given (Some file_path) = true) as -> by (by destruct file_path).
    assert (given (Some key) = true) as -> by (by destruct key).
    rewrite bool_decide_eq_false_2 by congruence.
    fold (caching_enabled args config). cbn [negb orb].
    change (default EmptyString (Some file_path)) with file_path.
    change (default EmptyString (Some key)) with key.
    assert ((if caching_enabled args config
             then cache_lookup file_path
             else mret (JNull, EmptyString)) w
            = (w, Ok (JNull,
                      if caching_enabled args config
                      then cache_key file_path bytes else EmptyString))) as Hlookup.
    { destruct (caching_enabled args config); [| reflexivity].
      destruct Hmiss as [? | Hmiss]; [discriminate |].
      by apply cache_lookup_miss. }
    unfold mbind at 1, M_bind at 1. rewrite Hlookup.
    unfold mbind at 1, M_bind at 1. cbn [Py.is_None].
    by rewrite (analyze_file_no_slides _ _ _ bytes).
Qed.

Lemma no_slides_no_analysis_witness :
  main (P := Demo.platform Demo.one_issue)
    Scenario.args_terminal Scenario.config Scenario.empty_deck =
  (World (files Scenario.empty_deck)
     [EvPrint "Extracting content from presentation...";
      EvPrint "Could not extract any content from the presentation."],
   Ok tt).
Proof.
  refine (proj2 (no_slides_no_analysis (P := Demo.platform Demo.one_issue)
                   Scenario.args_terminal Scenario.config Scenario.empty_deck
                   "deck.pptx" "secret" EmptyString eq_refl eq_refl eq_refl) _ _ _ _ _).
  - discriminate.
  - reflexivity.
  - discriminate.
  - discriminate.
  - right. vm_compute. reflexivity.
Defined.

(** ** The cache in a run *)

(** X4: on a cache hit (caching enabled, an entry under the key of the
    file that loads as a value other than [None]) the run prints where
    it loads from and goes straight to the report of the cached value:
    no extraction, no request, no cache write. *)
Theorem cache_hit_skips_analysis {P : Platform}
    (args : Args) (config : Config) (file_path key bytes content : string)
    (v : value) (w : world) :
  ready args config file_path key ->
  caching_enabled args config = true ->
  files w !! file_path = Some bytes ->
  files w !! cache_key file_path bytes = Some content ->
  json_loads content = Ok v ->
  Py.is_None v = false ->
  main args config w =
    deliver (args_output args) v
      (World (files w)
         (trace w ++
          [EvPrint ("Loading results from cache: " +:+ cache_key file_path bytes)])) /\
  exists new,
    trace (main args config w).1 = trace w ++ new /\
    requests new = [] /\ cached_results new = [].
Proof.
  intros Hready Henabled Hfile Hentry Hloads Hvalue.
  assert (main args config w =
            deliver (args_output args) v
              (World (files w)
                 (trace w ++
                  [EvPrint ("Loading results from cache: " +:+ cache_key file_path bytes)])))
    as Hrun.
  { rewrite (main_ready args config file_path key _ Hready), Henabled. unfold mbind, M_bind.
    rewrite (cache_lookup_hit _ bytes content v) by assumption. by rewrite Hvalue. }
  split; [exact Hrun |]. rewrite Hrun.
  destruct (acts_trace _ _ _
              (acts_deliver report_event any_file (args_output args) v
                 ltac:(done) ltac:(done) ltac:(done))
              (World (files w)
                 (trace w ++
                  [EvPrint ("Loading results from cache: " +:+ cache_key file_path bytes)])))
    as (new & Hnew & Honly).
  cbn [trace] in Hnew. rewrite <- app_assoc in Hnew.
  eexists. split; [exact Hnew |].
  apply report_events_only. by constructor.
Qed.

Lemma cache_hit_skips_analysis_witness :
  let cached :=
    World (<[ ".cache/deck.pptx_911215343.json" := "{}" ]> (files Scenario.revenue_deck)) [] in
  exists new,
    trace (main (P := Demo.platform Demo.unreachable)
             Scenario.args_terminal Scenario.config cached).1 = new /\
    requests new = [] /\ cached_results new = [].
Proof.
  destruct (cache_hit_skips_analysis (P := Demo.platform Demo.unreachable)
              Scenario.args_terminal Scenario.config "deck.pptx" "secret"
              "Revenue: $10M;Regional total: $9.8M" "{}" (JObj [])
              (World (<[ ".cache/deck.pptx_911215343.json" := "{}" ]>
                        (files Scenario.revenue_deck)) []))
    as (_ & new & Hnew & Hquiet).
  - repeat split; discriminate.
  - reflexivity.
  - vm_compute. reflexivity.
  - vm_compute. reflexivity.
  - vm_compute. reflexivity.
  - reflexivity.
  - exists new. split; [exact Hnew | exact Hquiet].
Defined.

(** X5: a cache entry that cannot be used counts as a miss.  When
    loading it raises (anything but [FileNotFoundError]) the run prints
    that it could not read the cache, with the message of the exception,
    and goes on to the analysis block with the same cache path; when it
    loads as [None] (the JSON text [null]) the run goes on to the
    analysis block without a word. *)
Theorem unusable_cache_entry_is_a_miss {P : Platform}
    (args : Args) (config : Config) (file_path key bytes content : string) (w : world) :
  ready args config file_path key ->
  caching_enabled args config = true ->
  files w !! file_path = Some bytes ->
  files w !! cache_key file_path bytes = Some content ->
  (forall e,
     json_loads content = Err e -> is_FileNotFoundError e = false ->
     main args config w =
       analyze_and_report args config file_path key (cache_key file_path bytes)
         (World (files w)
            (trace w ++
             [EvPrint ("Loading results from cache: " +:+ cache_key file_path bytes);
              EvPrint ("Could not read cache, proceeding with analysis. Error: "
                         +:+ exc_msg e)]))) /\
  (json_loads content = Ok JNull ->
   main args config w =
     analyze_and_report args config file_path key (cache_key file_path bytes)
       (World (files w)
          (trace w ++
           [EvPrint ("Loading results from cache: " +:+ cache_key file_path bytes)]))).
Proof.
  intros Hready Henabled Hfile Hentry. split.
  - intros e Hloads Hclass.
    rewrite (main_ready args config file_path key _ Hready), Henabled. unfold mbind, M_bind.
    by rewrite (cache_lookup_unreadable _ bytes content e).
  - intros Hloads.
    rewrite (main_ready args config file_path key _ Hready), Henabled. unfold mbind, M_bind.
    by rewrite (cache_lookup_hit _ bytes content JNull).
Qed.

Lemma unusable_cache_entry_is_a_miss_witness :
  let w := World (<[ ".cache/deck.pptx_911215343.json" := "not json" ]>
                    (files Scenario.revenue_deck)) [] in
  main (P := Demo.platform Demo.one_issue) Scenario.args_terminal Scenario.config w =
    analyze_and_report (P := Demo.platform Demo.one_issue)
      Scenario.args_terminal Scenario.config "deck.pptx" "secret"
      ".cache/deck.pptx_911215343.json"
      (World (files w)
         [EvPrint "Loading results from cache: .cache/deck.pptx_911215343.json";
          EvPrint "Could not read cache, proceeding with analysis. Error: Expecting value"]).
Proof.
  refine (proj1 (unusable_cache_entry_is_a_miss (P := Demo.platform Demo.one_issue)
                   Scenario.args_terminal Scenario.config "deck.pptx" "secret"
                   "Revenue: $10M;Regional total: $9.8M" "not json"
                   (World (<[ ".cache/deck.pptx_911215343.json" := "not json" ]>
                             (files Scenario.revenue_deck)) []) _ _ _ _)
            (Exc JSONDecodeError "Expecting value") _ _).
  - repeat split; discriminate.
  - reflexivity.
  - vm_compute. reflexivity.
  - vm_compute. reflexivity.
  - vm_compute. reflexivity.
  - reflexivity.
Defined.

(** X6: a run changes no file other than the report file named by
    [--output] and, with caching enabled, the cache entry of the chosen
    file; with caching disabled the report file is the only file it can
    change.  In particular no other cache entry is ever touched. *)
Theorem run_changes_only_cache_and_report {P : Platform}
    (args : Args) (config : Config) (w : world) (path : string) :
  args_output args <> Some path ->
  (forall file_path bytes,
     caching_enabled args config = true ->
     chosen_file args config = Some file_path ->
     files w !! file_path = Some bytes ->
     path <> cache_key file_path bytes) ->
  files (main args config w).1 !! path = files w !! path.
Proof.
  intros Houtput Hkey.
  destruct (given (chosen_file args config)) eqn:Hgiven; unfold chosen_file in *;
    [| unfold main; by rewrite Hgiven].
  destruct (or_else (args_file args) (default_file config)) as [file_path |] eqn:Hchosen;
    [| discriminate].
  unfold main. rewrite Hchosen, Hgiven. cbn [negb].
  destruct (negb (given (api_key config)) || _); [reflexivity |].
  fold (caching_enabled args config).
  change (default EmptyString (Some file_path)) with file_path.
  set (rest := fun found : value * string =>
         let '(analysis_result, cache_path) := found in
         (if Py.is_None analysis_result
          then analyze_file file_path (default EmptyString (api_key config))
                 (caching_enabled args config) cache_path
          else mret (Some analysis_result)) ≫=
         (fun analyzed : option value =>
            match analyzed with
            | Some analysis_result0 => deliver (args_output args) analysis_result0
            | None => mret tt
            end)).
  assert (forall analysis_result cache_path,
            acts (fun _ => True)
                 (fun p _ => args_output args = Some p \/
                             (caching_enabled args config = true /\ p = cache_path))
                 (rest (analysis_result, cache_path))) as Hrest.
  { intros analysis_result cache_path. unfold rest.
    apply acts_bind.
    - destruct (Py.is_None analysis_result); [| apply acts_ret].
      apply acts_weaken with
        (Q := cache_write_allowed (caching_enabled args config))
        (F := fun p (_ : string) =>
                args_output args = Some p \/
                (caching_enabled args config = true /\ p = cache_path));
        [done | done |].
      apply acts_analyze_file. intros data Henabled _. by right.
    - intros [result |]; [| apply acts_ret].
      apply acts_deliver; [done | done |]. intros p c Hp. by left. }
  change (files (((if caching_enabled args config
                   then cache_lookup file_path
                   else mret (JNull, EmptyString)) ≫= rest) w).1 !! path
          = files w !! path).
  unfold mbind, M_bind.
  destruct (caching_enabled args config) eqn:Henabled.
  - destruct (cache_lookup_returns_key file_path w) as (new & r & -> & Hr).
    destruct r as [[analysis_result cache_path] | e]; [| reflexivity].
    destruct (Hr _ _ eq_refl) as (bytes & Hfile & ->).
    destruct (Hrest analysis_result (cache_key file_path bytes)
                (World (files w) (trace w ++ new))) as [_ Hfiles].
    destruct (Hfiles path) as [Hsame | (c & _ & [Hout | [_ Hpath]])];
      [exact Hsame | done |].
    by destruct (Hkey file_path bytes eq_refl eq_refl Hfile).
  - cbn [mret M_ret].
    destruct (Hrest JNull EmptyString w) as [_ Hfiles].
    destruct (Hfiles path) as [Hsame | (c & _ & [Hout | [? _]])];
      [exact Hsame | done | discriminate].
Qed.

Lemma run_changes_only_cache_and_report_witness :
  files (main (P := Demo.platform Demo.one_issue)
           Scenario.args_to_file Scenario.config Scenario.revenue_deck).1 !! "deck.pptx" =
  Some "Revenue: $10M;Regional total: $9.8M".
Proof.
  rewrite (run_changes_only_cache_and_report (P := Demo.platform Demo.one_issue)
             Scenario.args_to_file Scenario.config Scenario.revenue_deck "deck.pptx").
  - reflexivity.
  - discriminate.
  - intros file_path bytes _ [= <-] [= <-]. vm_compute. discriminate.
Defined.

(** ** The reports *)



(** X8: an object without [error] whose [issues] are missing or falsy
    (an empty list, but also [None], [False], [0], an empty string or
    an empty object) is reported as free of inconsistencies: the plain
    report is the one success line, the decorated one is the banner
    without a count followed by the success line. *)
Theorem no_issues_is_success {P : Platform} (fields : list (string * value)) (w : world) :
  Py.lookup_field "error" fields = None ->
  Py.truthy (default (JArr []) (Py.lookup_field "issues" fields)) = false ->
  generate_plain_text_report (JObj fields) =
    Ok (CHECK_MARK +:+ " No inconsistencies were found in the presentation.") /\
  generate_report (JObj fields) w =
    (World (files w)
       (trace w ++ banner None ++
        [EvPrint (Fore.GREEN +:+ CHECK_MARK
                    +:+ " No inconsistencies were found in the presentation." +:+ nl)]),
     Ok tt).
Proof.
  intros Herror Hfalsy. split.
  - unfold generate_plain_text_report. cbn [Py.contains rbind]. rewrite Herror.
    rewrite bool_decide_eq_false_2 by (by intros [? ?]).
    rewrite get_object. cbn [rbind]. by rewrite Hfalsy.
  - unfold generate_report. cbn [Py.contains]. rewrite Herror.
    rewrite bool_decide_eq_false_2 by (by intros [? ?]).
    rewrite get_object.
    unfold mbind, M_bind, print, emit, lift, mret, M_ret. cbn [files trace].
    rewrite Hfalsy. cbn [negb files trace]. unfold banner.
    cbn [app]. by rewrite <- !app_assoc.
Qed.

Lemma no_issues_is_success_witness :
  generate_plain_text_report (P := Demo.platform Demo.one_issue)
    (JObj [("issues", JNull)]) =
    Ok (CHECK_MARK +:+ " No inconsistencies were found in the presentation.").
Proof.
  exact (proj1 (no_issues_is_success (P := Demo.platform Demo.one_issue)
                  [("issues", JNull)] (World ∅ []) eq_refl eq_refl)).
Defined.

(** X9: layout of the plain report.  For a non-empty list of issue
    objects with iterable evidence, the report is the header with the
    number of issues and then, issue by issue in list order, the ordinal
    counted from 1, the type, the conflict, the evidence heading and one
    bullet per evidence entry, all joined by newlines; a missing type or
    conflict reads N/A and missing evidence gives no bullet. *)
Theorem plain_report_layout {P : Platform}
    (fields : list (string * value)) (items : list value) :
  Py.lookup_field "error" fields = None ->
  Py.lookup_field "issues" fields = Some (JArr items) ->
  items <> [] ->
  forallb plain_issue_ok items = true ->
  generate_plain_text_report (JObj fields) =
    Ok (Text.join nl (plain_header (length items) :: blocks_from plain_block 0 items)).
Proof.
  intros Herror Hissues Hnonempty Hok. unfold generate_plain_text_report.
  cbn [Py.contains rbind]. rewrite Herror.
  rewrite bool_decide_eq_false_2 by (by intros [? ?]).
  rewrite get_object, Hissues. cbn [rbind default from_option id].
  destruct items as [| issue rest]; [done |].
  cbn [Py.truthy negb Py.len Py.iter rbind].
  by rewrite (plain_issues_blocks _ Hok).
Qed.

Lemma plain_report_layout_witness :
  generate_plain_text_report (P := Demo.platform Demo.one_issue)
    (JObj [("issues", JArr [JObj [("evidence", JStr ("n" +:+ Scenario.e_acute))]])]) =
    Ok (Text.join nl
          [plain_header 1;
           nl +:+ "--- ISSUE #1 ---" +:+ nl;
           "TYPE: N/A";
           "CONFLICT: N/A";
           "EVIDENCE:";
           "  - n";
           "  - " +:+ Scenario.e_acute]).
Proof.
  exact (plain_report_layout (P := Demo.platform Demo.one_issue)
           [("issues", JArr [JObj [("evidence", JStr ("n" +:+ Scenario.e_acute))]])]
           [JObj [("evidence", JStr ("n" +:+ Scenario.e_acute))]]
           eq_refl eq_refl ltac:(discriminate) eq_refl).
Defined.





(** ** The corpus *)

(** X12: on a slide without pictures the segments are the texts of the
    text frames that hold a non-whitespace character, in shape order and
    as they are (leading and trailing whitespace is kept), followed by
    the notes under their marker when the slide has notes that hold a
    non-whitespace character. *)
Theorem text_slide_segments {P : Platform} (slide : Slide) :
  Forall (fun shape => is_picture_shape shape = false) (shapes slide) ->
  slide_texts slide =
    map text (filter (fun shape => has_text_frame shape && has_ink (text shape))
                     (shapes slide))
    ++ (if has_notes_slide slide && has_ink (notes_text slide)
        then ["[Speaker Notes]:" +:+ nl +:+ notes_text slide]
        else []).
Proof.
  intros Hshapes. unfold slide_texts. rewrite strip_truthy. f_equal.
  induction Hshapes as [| shape rest Hshape _ IH]; [reflexivity |].
  cbn [flat_map]. rewrite IH, filter_cons. unfold shape_segments.
  unfold is_picture_shape in Hshape. rewrite Hshape, strip_truthy, app_nil_r.
  destruct (has_text_frame shape && has_ink (text shape)) eqn:Hkeep.
  - rewrite decide_True by done. reflexivity.
  - rewrite decide_False by (intros H; exact H). reflexivity.
Qed.

Lemma text_slide_segments_witness :
  slide_texts (P := Demo.platform Demo.one_issue)
    (Demo.slide_of ("  Title | " +:+ Scenario.nbsp +:+ " |Body")) =
    ["  Title "; "Body"].
Proof.
  rewrite (text_slide_segments (P := Demo.platform Demo.one_issue)
             (Demo.slide_of ("  Title | " +:+ Scenario.nbsp +:+ " |Body"))).
  - reflexivity.
  - repeat constructor.
Defined.

(** X13: the entry of a slide is the empty string exactly when the slide
    is blank: no text frame with a non-whitespace character, no picture
    whose OCR text has one, no notes that have one.  A slide with any
    content never gets an empty entry. *)
Theorem entry_empty_iff_blank {P : Platform} (slide : Slide) :
  Text.join (nl +:+ "---" +:+ nl) (slide_texts slide) = EmptyString <-> blank_slide slide.
Proof.
  split.
  - intros Hjoin. apply slide_texts_blank.
    apply (join_empty _ _ (slide_texts_nonempty slide) Hjoin).
  - intros Hblank. by rewrite (blank_slide_texts _ Hblank).
Qed.

(** ** The analysis client *)

(** X14: what is handed to the JSON parser never holds a code fence, and
    a response without any backtick is handed over stripped of its
    surrounding whitespace and otherwise unchanged. *)
Theorem fences_are_removed (response_text : string) :
  Text.contains FENCE (cleaned response_text) = false /\
  (Text.contains "`" response_text = false ->
   cleaned response_text = Text.strip response_text).
Proof.
  split.
  - unfold cleaned, Text.replace. apply replace_leaves_no_fence.
  - intros Hclean. unfold cleaned.
    assert (Text.contains "`" (Text.strip response_text) = false) as Hstrip.
    { by apply no_backtick_strip. }
    rewrite (replace_without_backtick "``json" EmptyString _ Hstrip).
    apply (replace_without_backtick "``" EmptyString _ Hstrip).
Qed.

Lemma fences_are_removed_witness :
  cleaned (Scenario.nbsp +:+ " {" +:+ dq +:+ "issues" +:+ dq +:+ ": []}" +:+ nl) =
    "{" +:+ dq +:+ "issues" +:+ dq +:+ ": []}".
Proof.
  rewrite (proj2 (fences_are_removed
                    (Scenario.nbsp +:+ " {" +:+ dq +:+ "issues" +:+ dq +:+ ": []}" +:+ nl))).
  - reflexivity.
  - reflexivity.
Defined.

(** ** The cache path *)

(** X16: the cache path of a file is [.cache/<base name>_<digest>.json]
    for every file path, absolute or relative; the base name holds no
    slash, and the directory of the file plays no part: files with the
    same base name and the same bytes share one cache entry. *)
Theorem cache_path_ignores_directory {P : Platform} (file_path bytes : string) :
  cache_key file_path bytes =
    ".cache/" +:+ Text.basename file_path +:+ "_" +:+ md5_hexdigest bytes +:+ ".json" /\
  Text.contains "/" (Text.basename file_path) = false /\
  (forall other,
     Text.basename other = Text.basename file_path ->
     cache_key other bytes = cache_key file_path bytes).
Proof.
  split; [apply cache_key_spelled |]. split; [apply basename_no_slash |].
  intros other Hsame. by apply cache_key_deterministic.
Qed.

Lemma cache_path_ignores_directory_witness :
  cache_key (P := Demo.platform Demo.one_issue) "/home/ann/deck.pptx" "bytes" =
  cache_key (P := Demo.platform Demo.one_issue) "drafts/deck.pptx" "bytes".
Proof.
  exact (proj2 (proj2 (cache_path_ignores_directory (P := Demo.platform Demo.one_issue)
                         "drafts/deck.pptx" "bytes"))
           "/home/ann/deck.pptx" eq_refl).
Defined.

(** X17: for one file the cache path changes exactly when the digest of
    its bytes changes: equal digests give the same path, different
    digests different paths. *)
Theorem cache_path_changes_with_digest {P : Platform} (file_path bytes1 bytes2 : string) :
  cache_key file_path bytes1 = cache_key file_path bytes2 <->
  md5_hexdigest bytes1 = md5_hexdigest bytes2.
Proof. apply cache_key_follows_digest. Qed.

(** ** The analysis path of a run *)

(** X18: a run that has to analyze (cache miss or caching disabled) a
    deck with at least one slide prints that it extracts, lets the
    client speak, and then reports what the client returned.  With
    caching enabled a result without [error] is first dumped under the
    cache key of the file, a result with [error] is reported without
    being dumped, and a dump that fails, like a result on which the
    membership test raises, ends the run with the unexpected-error line
    and no report.  With caching disabled nothing is dumped and the
    cache is not looked at, even when it holds an entry for the file. *)
Theorem analysis_path {P : Platform}
    (args : Args) (config : Config) (file_path key bytes : string)
    (prs : list Slide) (w : world) :
  ready args config file_path key ->
  files w !! file_path = Some bytes ->
  Presentation bytes = Ok prs ->
  prs <> [] ->
  caching_enabled args config = false \/ files w !! cache_key file_path bytes = None ->
  exists talk v,
    runs (analyze_with_gemini (extract_slides 0 prs []) key) talk v /\
    main args config w =
      after_analysis (caching_enabled args config) (args_output args)
        (cache_key file_path bytes) talk v w.
Proof.
  intros Hready Hfile Hparse Hprs Hmiss.
  destruct (analyze_runs (extract_slides 0 prs []) key) as (talk & v & Hruns).
  exists talk, v. split; [exact Hruns |].
  by apply (main_analysis_path args config file_path key bytes prs).
Qed.

Lemma analysis_path_witness :
  exists talk v,
    runs (analyze_with_gemini (P := Demo.platform Demo.unreachable)
            (extract_slides (P := Demo.platform Demo.unreachable) 0
               [Demo.slide_of "Revenue: $10M"; Demo.slide_of "Regional total: $9.8M"] [])
            "secret") talk v /\
    main (P := Demo.platform Demo.unreachable)
      Scenario.args_terminal Scenario.config Scenario.revenue_deck =
      after_analysis (P := Demo.platform Demo.unreachable) true None
        ".cache/deck.pptx_911215343.json" talk v Scenario.revenue_deck.
Proof.
  refine (analysis_path (P := Demo.platform Demo.unreachable)
            Scenario.args_terminal Scenario.config "deck.pptx" "secret"
            "Revenue: $10M;Regional total: $9.8M"
            [Demo.slide_of "Revenue: $10M"; Demo.slide_of "Regional total: $9.8M"]
            Scenario.revenue_deck _ _ _ _ _).
  - repeat split; discriminate.
  - reflexivity.
  - reflexivity.
  - discriminate.
  - right. vm_compute. reflexivity.
Defined.

(** X15: when the result of an analysis cannot be written to the cache
    (a regular file has the name of the cache directory, or the
    operating system refuses the directory or the file), the run prints
    the unexpected-error line with the message of the exception and ends
    there: the request has been sent, but the result is reported
    nowhere and no file is changed. *)
Theorem failed_cache_write_loses_report {P : Platform}
    (args : Args) (config : Config) (file_path key bytes : string)
    (prs : list Slide) (v : value) (e : exception) (w : world) :
  ready args config file_path key ->
  caching_enabled args config = true ->
  files w !! file_path = Some bytes ->
  files w !! cache_key file_path bytes = None ->
  Presentation bytes = Ok prs ->
  prs <> [] ->
  (analyze_with_gemini (extract_slides 0 prs []) key w).2 = Ok v ->
  Py.contains "error" v = Ok false ->
  cache_write_error w (cache_key file_path bytes) = Some e ->
  exists talk,
    runs (analyze_with_gemini (extract_slides 0 prs []) key) talk v /\
    main args config w =
      (World (files w)
         (trace w ++ EvPrint "Extracting content from presentation..." :: talk
          ++ [EvPrint ("An unexpected error occurred during analysis: " +:+ exc_msg e)]),
       Ok tt).
Proof.
  intros Hready Henabled Hfile Hmiss Hparse Hprs Hv Hgood Hwrite.
  destruct (analyze_runs (extract_slides 0 prs []) key) as (talk & v' & Hruns).
  rewrite Hruns in Hv. injection Hv as ->.
  exists talk. split; [exact Hruns |].
  rewrite (main_analysis_path args config file_path key bytes prs talk v) by auto.
  unfold after_analysis. rewrite Henabled, Hgood, Hwrite.
  by rewrite <- app_assoc.
Qed.

Lemma failed_cache_write_loses_report_witness :
  let stray := World (<[ ".cache" := "not a directory" ]> (files Scenario.revenue_deck)) [] in
  let run := main (P := Demo.platform Demo.one_issue)
               Scenario.args_to_file Scenario.config stray in
  run.2 = Ok tt /\
  files run.1 = files stray /\
  last (prints (trace run.1)) =
    Some "An unexpected error occurred during analysis: [Errno 17] File exists: '.cache'".
Proof.
  destruct (failed_cache_write_loses_report (P := Demo.platform Demo.one_issue)
              Scenario.args_to_file Scenario.config "deck.pptx" "secret"
              "Revenue: $10M;Regional total: $9.8M"
              [Demo.slide_of "Revenue: $10M"; Demo.slide_of "Regional total: $9.8M"]
              Scenario.one_issue_result
              (Exc FileExistsError "[Errno 17] File exists: '.cache'")
              (World (<[ ".cache" := "not a directory" ]> (files Scenario.revenue_deck)) []))
    as (talk & _ & Hrun).
  - repeat split; discriminate.
  - reflexivity.
  - reflexivity.
  - vm_compute. reflexivity.
  - reflexivity.
  - discriminate.
  - vm_compute. reflexivity.
  - reflexivity.
  - vm_compute. reflexivity.
  - cbv zeta. rewrite Hrun. cbn [fst snd files trace].
    split; [reflexivity |]. split; [reflexivity |].
    cbn [app]. rewrite app_comm_cons. apply prints_last.
Defined.

(** X19: a second run reuses what the first one cached.  When a run on a
    cache miss gets a result without [error] that the JSON codec carries
    through a dump and a load, and the dump into the cache goes
    through, a second run on the world the first one left sends no
    request, dumps nothing, prints where it loads from and then
    produces the very report of the first run, with the same outcome
    and the same files.  The deck, the cache entry and the report file
    are taken to be three different files. *)
Theorem second_run_reuses_the_result {P : Platform}
    (args : Args) (config : Config) (file_path key bytes : string)
    (prs : list Slide) (v : value) (w : world) :
  ready args config file_path key ->
  caching_enabled args config = true ->
  files w !! file_path = Some bytes ->
  files w !! cache_key file_path bytes = None ->
  Presentation bytes = Ok prs ->
  prs <> [] ->
  (analyze_with_gemini (extract_slides 0 prs []) key w).2 = Ok v ->
  Py.contains "error" v = Ok false ->
  cache_write_error w (cache_key file_path bytes) = None ->
  json_loads (json_dumps v) = Ok v ->
  file_path <> cache_key file_path bytes ->
  args_output args <> Some file_path ->
  args_output args <> Some (cache_key file_path bytes) ->
  let first := main args config w in
  let second := main args config first.1 in
  exists before report,
    trace first.1 = trace w ++ before ++ report /\
    trace second.1 =
      trace first.1
      ++ EvPrint ("Loading results from cache: " +:+ cache_key file_path bytes) :: report /\
    requests report = [] /\ cached_results report = [] /\
    second.2 = first.2 /\
    files second.1 = files first.1.
Proof.
  intros Hready Henabled Hfile Hmiss Hparse Hprs Hv Hgood Hwrite Hcodec Hdeck Hout1 Hout2
    first second.
  destruct (analyze_runs (extract_slides 0 prs []) key) as (talk & v' & Hruns).
  rewrite Hruns in Hv. injection Hv as ->.
  destruct (deliver_steady (args_output args) v)
    as (report & r & change & Hdeliver & Honly & Honce & Hframe).
  set (K := cache_key file_path bytes) in *.
  assert (first =
            (World (change (<[K := json_dumps v]> (files w)))
               ((trace w ++ EvPrint "Extracting content from presentation..." :: talk)
                ++ [EvDump K v;
                    EvPrint ("Analysis complete. Results saved to cache: " +:+ K)]
                ++ report),
             r)) as Hfirst.
  { subst first. rewrite (main_analysis_path args config file_path key bytes prs talk v) by auto.
    unfold after_analysis. rewrite Henabled, Hgood. fold K. rewrite Hwrite.
    rewrite Hdeliver. cbn [files trace]. by rewrite <- !app_assoc. }
  assert (second =
            (World (change (files first.1))
               (trace first.1 ++ EvPrint ("Loading results from cache: " +:+ K) :: report),
             r)) as Hsecond.
  { subst second. rewrite (main_ready args config file_path key _ Hready), Henabled.
    unfold mbind, M_bind.
    rewrite (cache_lookup_hit _ bytes (json_dumps v) v).
    - assert (Py.is_None v = false) as -> by (by destruct v).
      rewrite Hdeliver. cbn [files trace]. by rewrite <- app_assoc.
    - rewrite Hfirst. cbn [fst files].
      rewrite Hframe by done. by rewrite lookup_insert_ne.
    - rewrite Hfirst. cbn [fst files]. fold K.
      rewrite Hframe by done. by rewrite lookup_insert_eq.
    - exact Hcodec. }
  exists (EvPrint "Extracting content from presentation..." :: talk
          ++ [EvDump K v; EvPrint ("Analysis complete. Results saved to cache: " +:+ K)]),
         report.
  destruct (report_events_only report Honly) as [Hquiet Hdumps].
  rewrite Hsecond. cbn [fst snd trace files].
  split; [| split; [reflexivity | split; [exact Hquiet | split; [exact Hdumps | split]]]].
  - rewrite Hfirst. cbn [fst trace].
    rewrite <- !app_assoc, <- !app_comm_cons, <- !app_assoc. reflexivity.
  - by rewrite Hfirst.
  - rewrite Hfirst. cbn [fst files]. apply Honce.
Qed.

Lemma second_run_reuses_the_result_witness :
  let first := main (P := Demo.platform Demo.one_issue)
                 Scenario.args_to_file Scenario.config Scenario.revenue_deck in
  let second := main (P := Demo.platform Demo.one_issue)
                  Scenario.args_to_file Scenario.config first.1 in
  second.2 = first.2 /\ files second.1 = files first.1.
Proof.
  destruct (second_run_reuses_the_result (P := Demo.platform Demo.one_issue)
              Scenario.args_to_file Scenario.config "deck.pptx" "secret"
              "Revenue: $10M;Regional total: $9.8M"
              [Demo.slide_of "Revenue: $10M"; Demo.slide_of "Regional total: $9.8M"]
              Scenario.one_issue_result Scenario.revenue_deck)
    as (before & report & _ & _ & _ & _ & Hsame & Hfiles).
  - repeat split; discriminate.
  - reflexivity.
  - reflexivity.
  - vm_compute. reflexivity.
  - reflexivity.
  - discriminate.
  - vm_compute. reflexivity.
  - reflexivity.
  - vm_compute. reflexivity.
  - vm_compute. reflexivity.
  - vm_compute. discriminate.
  - discriminate.
  - vm_compute. discriminate.
  - split; [exact Hsame | exact Hfiles].
Defined.

(** X20: a response that is valid JSON but a bare number, [true],
    [false] or [null] is a result on which the test for [error] raises
    [TypeError].  With caching enabled the analysis block catches it: the
    run prints the unexpected-error line and ends without a report.
    With caching disabled the test is skipped and the value reaches the
    renderer, where the same test raises out of [main].  No file is
    written either way. *)
Theorem scalar_response {P : Platform}
    (args : Args) (config : Config) (file_path key bytes : string)
    (prs : list Slide) (v : value) (w : world) :
  ready args config file_path key ->
  files w !! file_path = Some bytes ->
  Presentation bytes = Ok prs ->
  prs <> [] ->
  caching_enabled args config = false \/ files w !! cache_key file_path bytes = None ->
  (analyze_with_gemini (extract_slides 0 prs []) key w).2 = Ok v ->
  iterable v = false ->
  let e := Exc TypeError ("argument of type '" +:+ Py.type_name v +:+ "' is not iterable") in
  let run := main args config w in
  files run.1 = files w /\
  (if caching_enabled args config
   then run.2 = Ok tt /\
        last (prints (trace run.1)) =
          Some ("An unexpected error occurred during analysis: " +:+ exc_msg e)
   else run.2 = Err (Raised e)).
Proof.
  intros Hready Hfile Hparse Hprs Hmiss Hv Hscalar e run.
  destruct (analyze_runs (extract_slides 0 prs []) key) as (talk & v' & Hruns).
  rewrite Hruns in Hv. injection Hv as ->.
  assert (Py.contains "error" v = Err e) as Hraises by (by destruct v).
  subst run. rewrite (main_analysis_path args config file_path key bytes prs talk v) by auto.
  unfold after_analysis. destruct (caching_enabled args config).
  - rewrite Hraises. cbn [fst snd files trace]. split; [reflexivity |].
    split; [reflexivity |]. unfold prints. rewrite omap_app.
    change (omap _ [EvPrint ?x]) with [x]. by rewrite last_snoc.
  - assert (forall w0, deliver (args_output args) v w0 = (w0, Err (Raised e))) as ->;
      [| done].
    intros w0. unfold deliver.
    assert (generate_report v w0 = (w0, Err (Raised e))) as Hterminal.
    { unfold generate_report, mbind, M_bind, lift. by rewrite Hraises. }
    destruct (args_output args) as [path |]; [| exact Hterminal].
    destruct (Text.truthy path); [| exact Hterminal].
    unfold generate_plain_text_report, mbind, M_bind, lift. by rewrite Hraises.
Qed.

Lemma scalar_response_witness :
  let run := main (P := Demo.platform (scripted "42"))
               Scenario.args_to_file Scenario.config Scenario.revenue_deck in
  files run.1 = files Scenario.revenue_deck /\ run.2 = Ok tt.
Proof.
  destruct (scalar_response (P := Demo.platform (scripted "42"))
              Scenario.args_to_file Scenario.config "deck.pptx" "secret"
              "Revenue: $10M;Regional total: $9.8M"
              [Demo.slide_of "Revenue: $10M"; Demo.slide_of "Regional total: $9.8M"]
              (JNum 42) Scenario.revenue_deck)
    as [Hfiles [Hresult _]].
  - repeat split; discriminate.
  - reflexivity.
  - reflexivity.
  - discriminate.
  - right. vm_compute. reflexivity.
  - vm_compute. reflexivity.
  - reflexivity.
  - split; [exact Hfiles | exact Hresult].
Defined.

(** X21: no run sends more than one request to the analysis service,
    whatever the arguments, the configuration, the files and the
    behaviour of the collaborators. *)
Theorem at_most_one_request_per_run {P : Platform}
    (args : Args) (config : Config) (w : world) :
  exists new,
    trace (main args config w).1 = trace w ++ new /\
    length (requests new) <= 1.
Proof. apply asks_main. Qed.
